(** * Ultralight SDK setup script ([native/setup-sdk.py]): model and properties

    The script is orchestration over a file system, an operator prompt and two
    archive extractors.  The model below keeps that shape:

    - the file system is a tree of named entries; the order of the entries of a
      directory is the order in which [iterdir] and [glob] enumerate them, so a
      statement quantified over all trees is quantified over all iteration
      orders;
    - paths are absolute and already normalised: the list of their components;
      names are compared byte by byte, as on a POSIX host; text is held as
      its UTF-8 bytes;
    - the script's functions are programs of a state-and-exception monad over a
      [world] (the file system, the lines waiting on standard input, the names
      [mkdtemp] will draw) that also collect what they print;
    - the 7z executable, [shutil.which] and the zip decoder are black boxes,
      gathered in an [env] record;
    - [main] starts from the parsed command line.

    Symbolic links, permissions and interruption by signals are outside the
    model. *)

From Stdlib Require Import List String Ascii Bool Arith ZArith Lia.
Import ListNotations.
Set Warnings "-register-all".
Open Scope string_scope.
Open Scope list_scope.

(** ** Strings as the script uses them *)

Module Str.

(** [name.rfind('.')]: index of the last dot. *)
Fixpoint rfind_dot (s : string) : option nat :=
  match s with
  | EmptyString => None
  | String c s' =>
      match rfind_dot s' with
      | Some i => Some (S i)
      | None => if Ascii.eqb c "." then Some 0 else None
      end
  end.

(** [PurePath.suffix] on the final component [name]:
    [i = name.rfind('.')]; [name[i:]] when [0 < i < len(name) - 1], else ['']. *)
Definition suffix (name : string) : string :=
  match rfind_dot name with
  | Some i =>
      if ((0 <? i) && (i <? String.length name - 1))%nat
      then substring i (String.length name - i) name
      else ""
  | None => ""
  end.

(** Text (the operator's answer) is held as its UTF-8 bytes.  [str.strip()]
    removes the characters for which [str.isspace()] holds:
    U+0009-000D, U+001C-0020 (one byte each); U+0085 and U+00A0 (bytes C2 85
    and C2 A0); U+1680 (E1 9A 80); U+2000-200A, U+2028, U+2029 and U+202F
    (E2 80 80-8A, E2 80 A8, E2 80 A9, E2 80 AF); U+205F (E2 81 9F); U+3000
    (E3 80 80). *)
Definition space1 (c : ascii) : bool :=
  let n := nat_of_ascii c in
  (((9 <=? n) && (n <=? 13)) || ((28 <=? n) && (n <=? 32)))%nat.

Definition space2 (c d : ascii) : bool :=
  let n := nat_of_ascii c in
  let m := nat_of_ascii d in
  ((n =? 194) && ((m =? 133) || (m =? 160)))%nat.

Definition space3 (c d e : ascii) : bool :=
  let n := nat_of_ascii c in
  let m := nat_of_ascii d in
  let k := nat_of_ascii e in
  (((n =? 225) && (m =? 154) && (k =? 128)) ||
   ((n =? 226) && (m =? 128) &&
    (((128 <=? k) && (k <=? 138)) || (k =? 168) || (k =? 169) || (k =? 175))) ||
   ((n =? 226) && (m =? 129) && (k =? 159)) ||
   ((n =? 227) && (m =? 128) && (k =? 128)))%nat.

(** [str.lstrip()]: drop white-space characters from the front. *)
Fixpoint lstrip (s : string) : string :=
  match s with
  | EmptyString => EmptyString
  | String c s1 =>
      if space1 c then lstrip s1
      else
        match s1 with
        | EmptyString => s
        | String d s2 =>
            if space2 c d then lstrip s2
            else
              match s2 with
              | EmptyString => s
              | String e s3 => if space3 c d e then lstrip s3 else s
              end
        end
  end.

(** The string consists of white-space characters only. *)
Fixpoint all_space (s : string) : bool :=
  match s with
  | EmptyString => true
  | String c s1 =>
      if space1 c then all_space s1
      else
        match s1 with
        | EmptyString => false
        | String d s2 =>
            if space2 c d then all_space s2
            else
              match s2 with
              | EmptyString => false
              | String e s3 => space3 c d e && all_space s3
              end
        end
  end.

(** [str.rstrip()]: cut where only white space follows.  (Inside a
    character the rest starts with a continuation byte, which starts no
    white-space character.) *)
Fixpoint rstrip (s : string) : string :=
  match s with
  | EmptyString => EmptyString
  | String c s1 => if all_space s then EmptyString else String c (rstrip s1)
  end.

Definition strip (s : string) : string := lstrip (rstrip s).

Definition lower_ascii (c : ascii) : ascii :=
  let n := nat_of_ascii c in
  if ((65 <=? n) && (n <=? 90))%nat then ascii_of_nat (n + 32) else c.

(** [str.lower()] on the letters A-Z; other bytes are kept.  The script only
    compares the result with ["y"], and [Y] is the one character besides [y]
    that [str.lower()] maps to [y], so the comparison comes out as in the
    script for every answer. *)
Fixpoint lower (s : string) : string :=
  match s with
  | EmptyString => EmptyString
  | String c s' => String (lower_ascii c) (lower s')
  end.

(** ['=' * n] and friends. *)
Fixpoint times (s : string) (n : nat) : string :=
  match n with
  | O => ""
  | S n' => (s ++ times s n')%string
  end.

(** Shell-style matching of a whole name against a pattern, as [Path.glob]
    does for a pattern without separator: [*] matches any run of characters
    (a leading dot included), [?] any single one, every other character
    itself, case-sensitively.  The patterns of the script use [*] only. *)
Fixpoint fnmatch (pat : string) : string -> bool :=
  match pat with
  | EmptyString => fun s => match s with EmptyString => true | _ => false end
  | String c pat' =>
      if Ascii.eqb c "*" then
        fix star (s : string) : bool :=
          fnmatch pat' s ||
          match s with
          | EmptyString => false
          | String _ s' => star s'
          end
      else if Ascii.eqb c "?" then
        fun s => match s with
                 | EmptyString => false
                 | String _ s' => fnmatch pat' s'
                 end
      else
        fun s => match s with
                 | EmptyString => false
                 | String d s' => Ascii.eqb c d && fnmatch pat' s'
                 end
  end.

(** [sorted(...)] on names: insertion into an ascending list, by code point. *)
Fixpoint insert (x : string) (l : list string) : list string :=
  match l with
  | [] => [x]
  | y :: l' => if String.leb x y then x :: l else y :: insert x l'
  end.

Fixpoint sorted (l : list string) : list string :=
  match l with
  | [] => []
  | x :: l' => insert x (sorted l')
  end.

End Str.

(** ** The file system *)

Definition path := list string.

Inductive node : Type :=
| File (data : string)
| Dir (entries : list (string * node)).

Module FS.

Definition entries_t := list (string * node).

(** First entry of that name. *)
Fixpoint assoc (n : string) (es : entries_t) : option node :=
  match es with
  | [] => None
  | (m, c) :: es' => if String.eqb n m then Some c else assoc n es'
  end.

(** Rewrite the first entry of that name. *)
Fixpoint assoc_upd (n : string) (f : node -> node) (es : entries_t) : entries_t :=
  match es with
  | [] => []
  | (m, c) :: es' =>
      if String.eqb n m then (m, f c) :: es' else (m, c) :: assoc_upd n f es'
  end.

(** Replace the first entry of that name, or add a new last entry. *)
Fixpoint assoc_put (n : string) (v : node) (es : entries_t) : entries_t :=
  match es with
  | [] => [(n, v)]
  | (m, c) :: es' =>
      if String.eqb n m then (m, v) :: es' else (m, c) :: assoc_put n v es'
  end.

(** Drop every entry of that name. *)
Fixpoint assoc_rm (n : string) (es : entries_t) : entries_t :=
  match es with
  | [] => []
  | (m, c) :: es' =>
      if String.eqb n m then assoc_rm n es' else (m, c) :: assoc_rm n es'
  end.

Fixpoint lookup (p : path) (t : node) : option node :=
  match p with
  | [] => Some t
  | n :: p' =>
      match t with
      | File _ => None
      | Dir es =>
          match assoc n es with
          | Some c => lookup p' c
          | None => None
          end
      end
  end.

(** [Path.exists()] and [Path.is_dir()]. *)
Definition exists_ (p : path) (t : node) : bool :=
  match lookup p t with Some _ => true | None => false end.

Definition is_dir (p : path) (t : node) : bool :=
  match lookup p t with Some (Dir _) => true | _ => false end.

(** Names yielded by [iterdir()], in enumeration order. *)
Definition iterdir (p : path) (t : node) : list string :=
  match lookup p t with
  | Some (Dir es) => map fst es
  | _ => []
  end.

(** Apply [f] to the node at [p]; nothing happens when [p] does not resolve. *)
Fixpoint alter (p : path) (f : node -> node) (t : node) : node :=
  match p with
  | [] => f t
  | n :: p' =>
      match t with
      | File _ => t
      | Dir es => Dir (assoc_upd n (alter p' f) es)
      end
  end.

Definition dir_put (n : string) (v : node) (d : node) : node :=
  match d with
  | File _ => d
  | Dir es => Dir (assoc_put n v es)
  end.

Definition dir_rm (n : string) (d : node) : node :=
  match d with
  | File _ => d
  | Dir es => Dir (assoc_rm n es)
  end.

(** [Path.parent] and [Path.name]. *)
Definition parent (p : path) : path := removelast p.
Definition name (p : path) : string := last p "".

(** Bind [p] to [v] in its parent directory; unbind [p]. *)
Definition put (p : path) (v : node) (t : node) : node :=
  alter (parent p) (dir_put (name p) v) t.

Definition rm (p : path) (t : node) : node :=
  alter (parent p) (dir_rm (name p)) t.

(** Members of an archive written into a directory, each over whatever had
    its name. *)
Definition write_members (ms : entries_t) (d : node) : node :=
  fold_left (fun acc m => dir_put (fst m) (snd m) acc) ms d.

(** [Path.mkdir(parents=True, exist_ok=True)]: create what is missing along
    [p]; [None] when a component is not a directory (the call raises). *)
Fixpoint makedirs (p : path) (t : node) : option node :=
  match t with
  | File _ => None
  | Dir es =>
      match p with
      | [] => Some t
      | n :: p' =>
          let c := match assoc n es with Some c => c | None => Dir [] end in
          match makedirs p' c with
          | Some c' => Some (Dir (assoc_put n c' es))
          | None => None
          end
      end
  end.

Fixpoint prefix (p q : path) : bool :=
  match p, q with
  | [], _ => true
  | a :: p', b :: q' => String.eqb a b && prefix p' q'
  | _ :: _, [] => false
  end.

Fixpoint path_eqb (p q : path) : bool :=
  match p, q with
  | [], [] => true
  | a :: p', b :: q' => String.eqb a b && path_eqb p' q'
  | _, _ => false
  end.

(** [str(path)] for an absolute path, and a relative path as it is written. *)
Definition path_str (p : path) : string :=
  match p with
  | [] => "/"
  | _ => fold_left (fun acc c => (acc ++ "/" ++ c)%string) p ""
  end.

Definition rel_str (p : path) : string := String.concat "/" p.

End FS.

(** ** The world the script runs in *)

Inductive exn : Type :=
| EOFError              (* [input()] at end of input *)
| KeyError              (* a platform missing from [PLATFORMS] *)
| FileExistsError
| FileNotFoundError
| NotADirectoryError
| ShutilError           (* [shutil.Error] *)
| ZipError (msg : string).  (* whatever [zipfile] raises *)

Inductive result (A : Type) : Type :=
| Ret (a : A)
| Raise (e : exn).
Arguments Ret {A} a.
Arguments Raise {A} e.

Record world : Type := mkWorld {
  fs : node;                (* the whole file system, from its root *)
  stdin : list string;      (* lines the operator will type *)
  rng : list string         (* the random parts of the names [mkdtemp] tries *)
}.

(** The collaborators the script consumes without looking inside. *)
Record env : Type := mkEnv {
  (* [shutil.which cmd] finds something *)
  which : string -> bool;
  (* [subprocess.run([cmd, "x", "-y", "-o<dest>", archive])]: the members it
     wrote into the destination, its return code and its standard error *)
  sevenz_x : string -> path -> node -> FS.entries_t * Z * string;
  (* [ZipFile(archive).extractall(dest)]: the members written, and the
     exception raised, if any *)
  unzip : path -> node -> FS.entries_t * option exn
}.

(** Where the script lives, the operator's home and [tempfile.gettempdir()]. *)
Record config : Type := mkConfig {
  SCRIPT_DIR : path;
  HOME : path;
  TMPDIR : path
}.

(** A program maps a world to its result, the world it leaves, and what it
    wrote on standard output (one element per [print]). *)
Definition M (A : Type) : Type := world -> result A * world * list string.

Definition ret {A} (a : A) : M A := fun w => (Ret a, w, []).

Definition raise {A} (e : exn) : M A := fun w => (Raise e, w, []).

Definition bind {A B} (c : M A) (k : A -> M B) : M B :=
  fun w =>
    match c w with
    | (Ret a, w', o) =>
        match k a w' with
        | (r, w'', o') => (r, w'', o ++ o')
        end
    | (Raise e, w', o) => (Raise e, w', o)
    end.

Declare Scope prog_scope.
Delimit Scope prog_scope with prog.
Notation "x <- c ;; k" := (bind c (fun x => k))
  (at level 61, c at next level, right associativity) : prog_scope.
Notation "c ;; k" := (bind c (fun _ => k))
  (at level 61, right associativity) : prog_scope.
Open Scope prog_scope.

Definition gets {A} (f : node -> A) : M A := fun w => (Ret (f (fs w)), w, []).

Definition lift {A} (r : result A) : M A := fun w => (r, w, []).

Definition set_fs (t : node) (w : world) : world :=
  mkWorld t (stdin w) (rng w).

Definition modify_fs (f : node -> node) : M unit :=
  fun w => (Ret tt, set_fs (f (fs w)) w, []).

Definition print (s : string) : M unit :=
  fun w => (Ret tt, w, [s]).

(** [input(prompt)]: the prompt goes out, one line comes in. *)
Definition input (prompt : string) : M string :=
  fun w =>
    match stdin w with
    | [] => (Raise EOFError, w, [prompt])
    | l :: ls => (Ret l, mkWorld (fs w) ls (rng w), [prompt])
    end.

(** [shutil.rmtree(p)] on its default settings. *)
Definition rmtree (p : path) : M unit :=
  fun w =>
    match FS.lookup p (fs w) with
    | None => (Raise FileNotFoundError, w, [])
    | Some (File _) => (Raise NotADirectoryError, w, [])
    | Some (Dir _) => (Ret tt, set_fs (FS.rm p (fs w)) w, [])
    end.

(** [Path.mkdir(parents=True, exist_ok=True)]. *)
Definition mkdir_parents (p : path) : M unit :=
  fun w =>
    match FS.makedirs p (fs w) with
    | Some t => (Ret tt, set_fs t w, [])
    | None =>
        (Raise (if FS.exists_ p (fs w) then FileExistsError
                else NotADirectoryError), w, [])
    end.

(** [tempfile.mkdtemp()]: try ["tmp" + random] names under the temporary
    directory until [os.mkdir] accepts one; a name in use is skipped, running
    out of names raises, and so does a temporary directory that is not there. *)
Fixpoint mkdtemp_from (dir : path) (names : list string) (t : node)
  : result path * list string * node :=
  match names with
  | [] => (Raise FileExistsError, [], t)
  | r :: names' =>
      let p := dir ++ [("tmp" ++ r)%string] in
      if FS.exists_ p t then mkdtemp_from dir names' t
      else if FS.is_dir dir t
           then (Ret p, names', FS.put p (Dir []) t)
           else (Raise FileNotFoundError, names', t)
  end.

Definition mkdtemp (C : config) : M path :=
  fun w =>
    match mkdtemp_from (TMPDIR C) (rng w) (fs w) with
    | (r, names, t) => (r, mkWorld t (stdin w) names, [])
    end.

(** Leaving [with tempfile.TemporaryDirectory()]: the directory is removed if
    it is still there. *)
Definition cleanup (tmp : path) (w : world) : world :=
  if FS.exists_ tmp (fs w) then set_fs (FS.rm tmp (fs w)) w else w.

(** [with tempfile.TemporaryDirectory() as temp_dir: body]: the clean-up runs
    whether the body returns or raises. *)
Definition with_TemporaryDirectory {A} (C : config) (body : path -> M A) : M A :=
  fun w =>
    match mkdtemp C w with
    | (Raise e, w1, o) => (Raise e, w1, o)
    | (Ret tmp, w1, o) =>
        match body tmp w1 with
        | (r, w2, o') => (r, cleanup tmp w2, o ++ o')
        end
    end.

(** [shutil.move(src, dst)].  A destination that is a directory receives the
    source under its own name, unless that name is taken; otherwise the source
    is renamed to the destination.  When the rename is refused, [shutil] copies
    a source directory to the destination (creating missing parents) and
    removes the source, which leaves the same tree. *)
Definition move (src dst : path) : M unit :=
  fun w =>
    let t := fs w in
    match FS.lookup src t with
    | None => (Raise FileNotFoundError, w, [])
    | Some n =>
        if FS.is_dir dst t && FS.path_eqb src dst then (Ret tt, w, [])
        else
          let real_dst := if FS.is_dir dst t then dst ++ [FS.name src] else dst in
          if FS.is_dir dst t && FS.exists_ real_dst t then (Raise ShutilError, w, [])
          else if FS.prefix src real_dst then (Raise ShutilError, w, [])
          else
            match n, FS.lookup real_dst t with
            | File _, Some _ =>
                (Ret tt, set_fs (FS.put real_dst n (FS.rm src t)) w, [])
            | File _, None =>
                if FS.is_dir (FS.parent real_dst) t
                then (Ret tt, set_fs (FS.put real_dst n (FS.rm src t)) w, [])
                else (Raise FileNotFoundError, w, [])
            | Dir _, Some _ => (Raise FileExistsError, w, [])
            | Dir _, None =>
                match FS.makedirs (FS.parent real_dst) t with
                | Some t' =>
                    (Ret tt, set_fs (FS.put real_dst n (FS.rm src t')) w, [])
                | None => (Raise NotADirectoryError, w, [])
                end
            end
    end.

(** ** The script *)

Definition nl : string := String (ascii_of_nat 10) EmptyString.

Record platform_config : Type := mkPlatform {
  archive_patterns : list string;
  test_file : path;          (* "include/Ultralight/Ultralight.h", by component *)
  libs : list string
}.

Definition marker : path := ["include"; "Ultralight"; "Ultralight.h"].

Definition PLATFORMS : list (string * platform_config) :=
  [ ("win-x64",
      mkPlatform ["*win*x64*"; "*win*64*"; "*windows*"] marker
                 ["bin/*.dll"; "lib/*.lib"]);
    ("linux-x64",
      mkPlatform ["*linux*x64*"; "*linux*64*"] marker
                 ["bin/*.so*"; "lib/*.so*"]);
    ("mac-x64",
      mkPlatform ["*mac*x64*"; "*macos*x64*"; "*osx*x64*"] marker
                 ["bin/*.dylib"; "lib/*.dylib"]);
    ("mac-arm64",
      mkPlatform ["*mac*arm64*"; "*macos*arm64*"; "*mac*aarch64*"; "*osx*arm64*"]
                 marker ["bin/*.dylib"; "lib/*.dylib"]) ].

(** A Python [dict]: keys in insertion order, one binding per key. *)
Module Dict.

Fixpoint get {V} (k : string) (d : list (string * V)) : option V :=
  match d with
  | [] => None
  | (k', v) :: d' => if String.eqb k k' then Some v else get k d'
  end.

Definition mem {V} (k : string) (d : list (string * V)) : bool :=
  match get k d with Some _ => true | None => false end.

(** [d[k] = v]: an existing key keeps its place. *)
Fixpoint set {V} (k : string) (v : V) (d : list (string * V)) : list (string * V) :=
  match d with
  | [] => [(k, v)]
  | (k', v') :: d' =>
      if String.eqb k k' then (k', v) :: d' else (k', v') :: set k v d'
  end.

End Dict.

Definition archives_t := list (string * path).

(** The parsed command line. *)
Record args : Type := mkArgs {
  argv0 : string;
  archives_dir : option path;
  win : option path;
  linux : option path;
  mac : option path;
  mac_arm64 : option path;
  list_ : bool
}.

Fixpoint for_each {A} (l : list A) (body : A -> M unit) : M unit :=
  match l with
  | [] => ret tt
  | x :: l' => body x ;; for_each l' body
  end.

Section Script.

Context (E : env) (C : config).

Definition SDK_DIR : path := SCRIPT_DIR C ++ ["sdk"].

Definition find_7z : option string :=
  find (which E) ["7z"; "7za"; "7zz"].

Definition extract_archive (archive_path dest_dir : path) : M bool :=
  print ("  Extracting: " ++ FS.name archive_path) ;;
  let suffix := Str.suffix (FS.name archive_path) in
  if String.eqb suffix ".7z" then
    match find_7z with
    | None =>
        print "Error: 7z not found. Install with:" ;;
        print "  macOS: brew install p7zip" ;;
        print "  Linux: apt install p7zip-full" ;;
        print "  Windows: choco install 7zip" ;;
        ret false
    | Some sevenz =>
        mkdir_parents dest_dir ;;
        run <- gets (sevenz_x E sevenz archive_path) ;;
        let '(members, returncode, stderr) := run in
        modify_fs (FS.alter dest_dir (FS.write_members members)) ;;
        if negb (Z.eqb returncode 0) then
          print ("  Error: " ++ stderr) ;;
          ret false
        else ret true
    end
  else if String.eqb suffix ".zip" then
    mkdir_parents dest_dir ;;
    run <- gets (unzip E archive_path) ;;
    modify_fs (FS.alter dest_dir (FS.write_members (fst run))) ;;
    match snd run with
    | Some e => raise e
    | None => ret true
    end
  else
    print ("  Unknown archive format: " ++ suffix) ;;
    ret false.

(** The inner loop of [find_sdk_root], over the entries of one [subdir]. *)
Fixpoint scan_subsubdirs (t : node) (subdir : path) (names : list string)
  : option path :=
  match names with
  | [] => None
  | n :: names' =>
      let subsubdir := subdir ++ [n] in
      if FS.is_dir subsubdir t && FS.exists_ (subsubdir ++ marker) t
      then Some subsubdir
      else scan_subsubdirs t subdir names'
  end.

(** The outer loop of [find_sdk_root], over the entries of [extracted_dir]. *)
Fixpoint scan_subdirs (t : node) (extracted_dir : path) (names : list string)
  : option path :=
  match names with
  | [] => None
  | n :: names' =>
      let subdir := extracted_dir ++ [n] in
      if FS.is_dir subdir t then
        if FS.exists_ (subdir ++ marker) t then Some subdir
        else
          match scan_subsubdirs t subdir (FS.iterdir subdir t) with
          | Some subsubdir => Some subsubdir
          | None => scan_subdirs t extracted_dir names'
          end
      else scan_subdirs t extracted_dir names'
  end.

(** [find_sdk_root]; [Ret None] is the source's [return None]. *)
Definition find_sdk_root (t : node) (extracted_dir : path) : result (option path) :=
  if FS.exists_ (extracted_dir ++ marker) t then Ret (Some extracted_dir)
  else
    match FS.lookup extracted_dir t with
    | Some (Dir es) => Ret (scan_subdirs t extracted_dir (map fst es))
    | Some (File _) => Raise NotADirectoryError
    | None => Raise FileNotFoundError
    end.

(** Lines 127-135 of [setup_platform]: [true] when the install goes on,
    [false] when the operator keeps the existing install. *)
Definition check_existing (target_dir test_file : path) : M bool :=
  already <- gets (FS.exists_ (target_dir ++ test_file)) ;;
  if already then
    print ("  SDK already exists at: " ++ FS.path_str target_dir) ;;
    line <- input "  Overwrite? [y/N]: " ;;
    let response := Str.lower (Str.strip line) in
    if negb (String.eqb response "y") then
      print "  Skipping." ;;
      ret false
    else
      rmtree target_dir ;;
      ret true
  else ret true.

(** The body of the [with] block of [setup_platform]: [false] stands for its
    two [return False], [true] for falling out of the block. *)
Definition install_from (archive_path target_dir test_file temp_path : path)
  : M bool :=
  extracted <- extract_archive archive_path temp_path ;;
  if negb extracted then ret false
  else
    found <- (t <- gets (fun t => t) ;; lift (find_sdk_root t temp_path)) ;;
    match found with
    | None =>
        print "  Error: Could not find SDK structure in extracted archive" ;;
        print ("  Expected to find: " ++ FS.rel_str test_file) ;;
        ret false
    | Some sdk_root =>
        print ("  Found SDK root: " ++ FS.path_str sdk_root) ;;
        mkdir_parents (FS.parent target_dir) ;;
        move sdk_root target_dir ;;
        ret true
    end.

Definition setup_platform (platform : string) (archive_path : path) : M bool :=
  print (nl ++ Str.times "=" 50) ;;
  print ("Setting up " ++ platform) ;;
  print (Str.times "=" 50) ;;
  let target_dir := SDK_DIR ++ [platform] in
  match Dict.get platform PLATFORMS with
  | None => raise KeyError
  | Some config =>
      go_on <- check_existing target_dir (test_file config) ;;
      if negb go_on then ret true
      else
        installed <- with_TemporaryDirectory C
                       (install_from archive_path target_dir (test_file config)) ;;
        if negb installed then ret false
        else
          print ("  ✓ Installed to: " ++ FS.path_str target_dir) ;;
          ret true
  end.

(** [search_dir.glob(pattern)], by name. *)
Definition glob (t : node) (search_dir : path) (pattern : string) : list string :=
  filter (Str.fnmatch pattern) (FS.iterdir search_dir t).

(** [for ext in [".7z", ".zip"]] of [find_archives]. *)
Fixpoint ext_loop (t : node) (search_dir : path) (platform pattern : string)
  (exts : list string) (archives : archives_t) : archives_t :=
  match exts with
  | [] => archives
  | ext :: exts' =>
      match glob t search_dir (pattern ++ ext) with
      | [] => ext_loop t search_dir platform pattern exts' archives
      | matches =>
          Dict.set platform (search_dir ++ [last (Str.sorted matches) ""]) archives
      end
  end.

(** [for pattern in config["archive_patterns"]] of [find_archives]. *)
Fixpoint pattern_loop (t : node) (search_dir : path) (platform : string)
  (patterns : list string) (archives : archives_t) : archives_t :=
  match patterns with
  | [] => archives
  | pattern :: patterns' =>
      let archives' :=
        ext_loop t search_dir platform pattern [".7z"; ".zip"] archives in
      if Dict.mem platform archives' then archives'
      else pattern_loop t search_dir platform patterns' archives'
  end.

Definition find_archives (t : node) (search_dir : path) : archives_t :=
  if negb (FS.exists_ search_dir t) then []
  else
    fold_left
      (fun archives pc =>
         pattern_loop t search_dir (fst pc) (archive_patterns (snd pc)) archives)
      PLATFORMS [].

(** Lines 235-245 of [main]. *)
Definition manual_overrides (a : args) : archives_t :=
  let archives := [] in
  let archives :=
    match win a with Some p => Dict.set "win-x64" p archives | None => archives end in
  let archives :=
    match linux a with Some p => Dict.set "linux-x64" p archives | None => archives end in
  let archives :=
    match mac a with Some p => Dict.set "mac-x64" p archives | None => archives end in
  match mac_arm64 a with Some p => Dict.set "mac-arm64" p archives | None => archives end.

Definition search_dirs (a : args) : list path :=
  match archives_dir a with
  | Some d => [d]
  | None => [HOME C ++ ["Downloads"]; SCRIPT_DIR C; FS.parent (SCRIPT_DIR C)]
  end.

(** [for platform, path in found.items(): if platform not in archives: ...]. *)
Definition merge_found (found archives : archives_t) : archives_t :=
  fold_left
    (fun acc kv => if Dict.mem (fst kv) acc then acc else Dict.set (fst kv) (snd kv) acc)
    found archives.

(** Lines 235-265 of [main]: the archive assignment. *)
Definition collect_archives (a : args) (t : node) : archives_t :=
  let archives := manual_overrides a in
  if (List.length archives <? List.length PLATFORMS)%nat then
    fold_left
      (fun acc search_dir => merge_found (find_archives t search_dir) acc)
      (search_dirs a) archives
  else archives.

Definition status_report (yes no : string) : M unit :=
  for_each PLATFORMS (fun pc =>
    let target_dir := SDK_DIR ++ [fst pc] in
    present <- gets (FS.exists_ (target_dir ++ test_file (snd pc))) ;;
    print ("  " ++ fst pc ++ ": " ++ (if present then yes else no))).

(** Lines 280-283 of [main]. *)
Fixpoint install_all (archives : archives_t) (success : bool) : M bool :=
  match archives with
  | [] => ret success
  | (platform, archive_path) :: archives' =>
      ok <- setup_platform platform archive_path ;;
      install_all archives' (if negb ok then false else success)
  end.

Definition main (a : args) : M Z :=
  print (Str.times "=" 60) ;;
  print "Ultralight SDK Setup" ;;
  print (Str.times "=" 60) ;;
  print (nl ++ "Current SDK status:") ;;
  status_report "✓ Installed" "✗ Not found" ;;
  if list_ a then ret 0%Z
  else
    archives <- gets (collect_archives a) ;;
    match archives with
    | [] =>
        print (nl ++ "No SDK archives found!") ;;
        print "Please download the Ultralight SDK from:" ;;
        print "  https://ultralig.ht/" ;;
        print (nl ++ "Then run:") ;;
        print ("  python3 " ++ argv0 a ++ " --archives-dir /path/to/downloads") ;;
        ret 1%Z
    | _ =>
        print (nl ++ "Found archives:") ;;
        for_each archives (fun kv =>
          print ("  " ++ fst kv ++ ": " ++ FS.path_str (snd kv))) ;;
        success <- install_all archives true ;;
        print (nl ++ Str.times "=" 60) ;;
        print "Setup complete!" ;;
        print (Str.times "=" 60) ;;
        print (nl ++ "SDK status:") ;;
        status_report "✓ Ready" "✗ Missing" ;;
        print (nl ++ "Next steps:") ;;
        print "  1. Build for a specific platform:" ;;
        print "     ./build.sh mac      # macOS" ;;
        print "     ./build.sh linux    # Linux" ;;
        print "     ./build.sh win      # Windows (requires cross-compiler or native build)" ;;
        print "  2. Or build all platforms:" ;;
        print "     ./build.sh all" ;;
        ret (if success then 0%Z else 1%Z)
    end.

End Script.

(** [sys.exit(main())]: the returned integer, or 1 when an exception escapes. *)
Definition exit_status (r : result Z) : Z :=
  match r with
  | Ret n => n
  | Raise _ => 1%Z
  end.

(** ** Sample worlds *)

Module Sample.

(** An SDK as the vendor ships it. *)
Definition sdk : node :=
  Dir [("include", Dir [("Ultralight", Dir [("Ultralight.h", File "#pragma once")])]);
       ("lib", Dir [("libUltralight.so", File "ELF")])].

(** Extraction roots with the marker 1, 2 and 3 levels down. *)
Definition depth1 : node := Dir [("README.txt", File "hi"); ("ultralight-sdk", sdk)].
Definition depth2 : node := Dir [("wrap", Dir [("ultralight-sdk", sdk)])].
Definition depth3 : node := Dir [("a", Dir [("b", Dir [("c", sdk)])])].

(** Two candidates: [A/X] two levels down, enumerated before [B] one level
    down. *)
Definition two_candidates : node :=
  Dir [("A", Dir [("X", sdk)]); ("B", sdk)].

(** A workstation: the script in [/repo/native], two Linux archives among the
    downloads. *)
Definition config0 : config :=
  mkConfig ["repo"; "native"] ["home"; "dev"] ["tmp"].

Definition downloads : path := ["home"; "dev"; "Downloads"].

Definition sdk_1_3 : string := "ultralight-sdk-1.3.0-linux-x64.7z".
Definition sdk_1_4 : string := "ultralight-sdk-1.4.0-linux-x64.7z".

Definition workstation : node :=
  Dir [("tmp", Dir []);
       ("home", Dir [("dev", Dir [("Downloads", Dir [
          (sdk_1_4, File "7z 1.4.0");
          ("notes.txt", File "todo");
          (sdk_1_3, File "7z 1.3.0")])])]);
       ("repo", Dir [("native", Dir [("setup-sdk.py", File "#!/usr/bin/env python3")])])].

(** The same workstation with linux-x64 already installed. *)
Definition installed : node :=
  Dir [("tmp", Dir []);
       ("home", Dir [("dev", Dir [("Downloads", Dir [
          (sdk_1_4, File "7z 1.4.0");
          ("notes.txt", File "todo");
          (sdk_1_3, File "7z 1.3.0")])])]);
       ("repo", Dir [("native", Dir [
          ("setup-sdk.py", File "#!/usr/bin/env python3");
          ("sdk", Dir [("linux-x64", sdk)])])])].

(** The same workstation with an empty [sdk/linux-x64] directory. *)
Definition precreated : node :=
  Dir [("tmp", Dir []);
       ("home", Dir [("dev", Dir [("Downloads", Dir [
          (sdk_1_4, File "7z 1.4.0")])])]);
       ("repo", Dir [("native", Dir [
          ("setup-sdk.py", File "#!/usr/bin/env python3");
          ("sdk", Dir [("linux-x64", Dir [])])])])].

(** ... and after a first run has left its [ultralight-sdk] there. *)
Definition precreated_twice : node :=
  Dir [("tmp", Dir []);
       ("home", Dir [("dev", Dir [("Downloads", Dir [
          (sdk_1_4, File "7z 1.4.0")])])]);
       ("repo", Dir [("native", Dir [
          ("setup-sdk.py", File "#!/usr/bin/env python3");
          ("sdk", Dir [("linux-x64", Dir [("ultralight-sdk", sdk)])])])])].

(** 7za is installed; every 7z archive unpacks to one [ultralight-sdk]
    folder, every zip archive to [wrap/ultralight-sdk]. *)
Definition tools : env :=
  mkEnv (fun cmd => String.eqb cmd "7za")
        (fun _ _ _ => ([("ultralight-sdk", sdk)], 0%Z, ""))
        (fun _ _ => ([("wrap", Dir [("ultralight-sdk", sdk)])], None)).

(** The same tools facing a zip file that is not one. *)
Definition tools_bad_zip : env :=
  mkEnv (fun cmd => String.eqb cmd "7za")
        (fun _ _ _ => ([("ultralight-sdk", sdk)], 0%Z, ""))
        (fun _ _ => ([], Some (ZipError "File is not a zip file"))).

(** A machine with the script and nothing to install. *)
Definition bare : node :=
  Dir [("tmp", Dir []);
       ("home", Dir [("dev", Dir [])]);
       ("repo", Dir [("native", Dir [("setup-sdk.py", File "#!/usr/bin/env python3")])])].

(** A Windows archive among the downloads, another one elsewhere. *)
Definition with_windows : node :=
  Dir [("tmp", Dir []);
       ("home", Dir [("dev", Dir [
          ("Downloads", Dir [("ultralight-sdk-1.4.0-win-x64.7z", File "7z")]);
          ("vendor", Dir [("custom-windows-build.zip", File "PK")])])]);
       ("repo", Dir [("native", Dir [("setup-sdk.py", File "#!/usr/bin/env python3")])])].

Definition win_flag : args :=
  mkArgs "setup-sdk.py" None (Some ["home"; "dev"; "vendor"; "custom-windows-build.zip"])
         None None None false.

Definition list_flag : args :=
  mkArgs "setup-sdk.py" None None None None None true.

Definition no_flags : args :=
  mkArgs "setup-sdk.py" None None None None None false.

End Sample.

(** ** The archive locator, in the words of its description *)

(** A (pattern, extension) pair has matches in the directory. *)
Definition has_match (t : node) (search_dir : path) (pe : string * string) : bool :=
  match glob t search_dir (fst pe ++ snd pe) with
  | [] => false
  | _ :: _ => true
  end.

(** [m] is the lexicographically last of the names in [l]. *)
Definition lex_last (l : list string) (m : string) : Prop :=
  In m l /\ forall x, In x l -> String.leb x m = true.

(** ** Observing a run *)

Definition result_of {A} (c : M A) (w : world) : result A := fst (fst (c w)).
Definition world_of {A} (c : M A) (w : world) : world := snd (fst (c w)).
Definition output_of {A} (c : M A) (w : world) : list string := snd (c w).

(** ** The archive assignment, in the words of its description *)

(** The path given on the command line for a platform, if any. *)
Definition explicit (a : args) (platform : string) : option path :=
  if String.eqb platform "win-x64" then win a
  else if String.eqb platform "linux-x64" then linux a
  else if String.eqb platform "mac-x64" then mac a
  else if String.eqb platform "mac-arm64" then mac_arm64 a
  else None.

(** The first source, in priority order, that has something to offer. *)
Fixpoint first_some {A} (sources : list (option A)) : option A :=
  match sources with
  | [] => None
  | Some x :: _ => Some x
  | None :: sources' => first_some sources'
  end.

(** ** The installs of a run, in the words of the exit-status rule *)

(** What each attempted install answered, in order; nothing is attempted
    after an exception. *)
Fixpoint outcomes (E : env) (C : config) (archives : archives_t) (w : world)
  : list (result bool) :=
  match archives with
  | [] => []
  | (platform, archive_path) :: archives' =>
      let r := result_of (setup_platform E C platform archive_path) w in
      r :: match r with
           | Ret _ =>
               outcomes E C archives'
                 (world_of (setup_platform E C platform archive_path) w)
           | Raise _ => []
           end
  end.

(** An install succeeded when [setup_platform] returned [True]. *)
Definition succeeded (r : result bool) : bool :=
  match r with
  | Ret true => true
  | _ => false
  end.

(** ** Kinds of nodes *)

Definition is_Dir (n : node) : bool :=
  match n with
  | Dir _ => true
  | File _ => false
  end.

(** The kind of what sits at a path: nothing, a file or a directory. *)
Definition kind_at (q : path) (t : node) : option bool :=
  option_map is_Dir (FS.lookup q t).

(** ** The status report, line by line *)

(** The lines [main] prints for the platforms, from the file system [t]. *)
Definition status_lines (C : config) (t : node) (yes no : string) : list string :=
  map (fun pc : string * platform_config =>
         let present :=
           FS.exists_ ((SDK_DIR C ++ [fst pc]) ++ test_file (snd pc)) t in
         ("  " ++ fst pc ++ ": " ++ (if present then yes else no))%string)
      PLATFORMS.

(** What [main] prints before it looks at its flags. *)
Definition banner (C : config) (t : node) : list string :=
  [Str.times "=" 60; "Ultralight SDK Setup"; Str.times "=" 60;
   (nl ++ "Current SDK status:")%string] ++
  status_lines C t "✓ Installed" "✗ Not found".

(** A pattern made of ordinary characters only. *)
Fixpoint literal (pat : string) : bool :=
  match pat with
  | EmptyString => true
  | String c pat' =>
      negb (Ascii.eqb c "*") && negb (Ascii.eqb c "?") && literal pat'
  end.

(** ** More sample worlds *)

Module More.

(** A 7z that gives up half-way, beside a zip decoder that works. *)
Definition tools_7z_fails : env :=
  mkEnv (fun cmd => String.eqb cmd "7z")
        (fun _ _ _ => ([("ultralight-sdk", Dir [("bin", Dir [])])], 2%Z,
                       "ERROR: Data Error"))
        (fun _ _ => ([("wrap", Dir [("ultralight-sdk", Sample.sdk)])], None)).

(** An archive without the SDK layout. *)
Definition tools_wrong_content : env :=
  mkEnv (fun cmd => String.eqb cmd "7z")
        (fun _ _ _ => ([("docs", Dir [("README.md", File "# docs")])], 0%Z, ""))
        (fun _ _ => ([("docs", Dir [])], None)).

End More.

(** * Properties *)

(** ** Entries of a directory *)

Module FSFacts.
Import FS.

Lemma assoc_upd_same n f es :
  assoc n (assoc_upd n f es) = option_map f (assoc n es).
Proof.
  induction es as [|[m c] es IH]; simpl; [reflexivity|].
  destruct (String.eqb n m) eqn:Hnm; simpl; rewrite Hnm; auto.
Qed.

Lemma assoc_upd_other n m f es :
  n <> m -> assoc m (assoc_upd n f es) = assoc m es.
Proof.
  intros Hne. induction es as [|[k c] es IH]; simpl; [reflexivity|].
  destruct (String.eqb n k) eqn:Hnk; simpl.
  - apply String.eqb_eq in Hnk. subst k.
    destruct (String.eqb m n) eqn:Hmn; [|reflexivity].
    apply String.eqb_eq in Hmn. congruence.
  - rewrite IH. reflexivity.
Qed.

Lemma assoc_put_same n v es : assoc n (assoc_put n v es) = Some v.
Proof.
  induction es as [|[m c] es IH]; simpl.
  - rewrite String.eqb_refl. reflexivity.
  - destruct (String.eqb n m) eqn:Hnm; simpl; rewrite Hnm; auto.
Qed.

Lemma assoc_put_other n m v es :
  n <> m -> assoc m (assoc_put n v es) = assoc m es.
Proof.
  intros Hne. induction es as [|[k c] es IH]; simpl.
  - destruct (String.eqb m n) eqn:Hmn; [|reflexivity].
    apply String.eqb_eq in Hmn. congruence.
  - destruct (String.eqb n k) eqn:Hnk; simpl.
    + apply String.eqb_eq in Hnk. subst k.
      destruct (String.eqb m n) eqn:Hmn; [|reflexivity].
      apply String.eqb_eq in Hmn. congruence.
    + rewrite IH. reflexivity.
Qed.

Lemma assoc_put_id n c es : assoc n es = Some c -> assoc_put n c es = es.
Proof.
  induction es as [|[m d] es IH]; simpl; [discriminate|].
  destruct (String.eqb n m) eqn:Hnm.
  - intros [= ->]. reflexivity.
  - intros H. rewrite IH by assumption. reflexivity.
Qed.

Lemma assoc_rm_same n es : assoc n (assoc_rm n es) = None.
Proof.
  induction es as [|[m c] es IH]; simpl; [reflexivity|].
  destruct (String.eqb n m) eqn:Hnm; simpl; [|rewrite Hnm]; auto.
Qed.

Lemma assoc_rm_other n m es :
  n <> m -> assoc m (assoc_rm n es) = assoc m es.
Proof.
  intros Hne. induction es as [|[k c] es IH]; simpl; [reflexivity|].
  destruct (String.eqb n k) eqn:Hnk; simpl.
  - apply String.eqb_eq in Hnk. subst k.
    destruct (String.eqb m n) eqn:Hmn; [|assumption].
    apply String.eqb_eq in Hmn. congruence.
  - rewrite IH. reflexivity.
Qed.


Lemma assoc_rm_put_fresh n v es :
  assoc n es = None -> assoc_rm n (assoc_put n v es) = es.
Proof.
  induction es as [|[m c] es IH]; simpl.
  - rewrite String.eqb_refl. reflexivity.
  - destruct (String.eqb n m) eqn:Hnm; [discriminate|].
    intros H. simpl. rewrite Hnm, IH by assumption. reflexivity.
Qed.

Lemma assoc_upd_ext n f g es :
  (forall c, assoc n es = Some c -> f c = g c) ->
  assoc_upd n f es = assoc_upd n g es.
Proof.
  induction es as [|[m c] es IH]; simpl; [reflexivity|].
  destruct (String.eqb n m) eqn:Hnm; intros H.
  - rewrite (H c eq_refl). reflexivity.
  - rewrite IH by assumption. reflexivity.
Qed.

Lemma assoc_upd_id n es : assoc_upd n (fun c => c) es = es.
Proof.
  induction es as [|[m c] es IH]; simpl; [reflexivity|].
  destruct (String.eqb n m); [reflexivity|]. rewrite IH. reflexivity.
Qed.

Lemma assoc_upd_upd n f g es :
  assoc_upd n g (assoc_upd n f es) = assoc_upd n (fun c => g (f c)) es.
Proof.
  induction es as [|[m c] es IH]; simpl; [reflexivity|].
  destruct (String.eqb n m) eqn:Hnm; simpl; rewrite Hnm; [reflexivity|].
  rewrite IH. reflexivity.
Qed.

(** ** Paths *)

Lemma prefix_app p q : prefix p (p ++ q) = true.
Proof.
  induction p as [|a p IH]; simpl; [reflexivity|].
  rewrite String.eqb_refl. exact IH.
Qed.

Lemma prefix_refl p : prefix p p = true.
Proof.
  induction p as [|a p IH]; simpl; [reflexivity|].
  rewrite String.eqb_refl. exact IH.
Qed.

Lemma prefix_inv p q : prefix p q = true -> exists r, q = p ++ r.
Proof.
  revert q. induction p as [|a p IH]; intros q H; simpl in *.
  - exists q. reflexivity.
  - destruct q as [|b q]; [discriminate|].
    apply andb_true_iff in H. destruct H as [Hab H].
    apply String.eqb_eq in Hab. subst b.
    destruct (IH _ H) as [r ->]. exists r. reflexivity.
Qed.

Lemma prefix_trans p q r :
  prefix p q = true -> prefix q r = true -> prefix p r = true.
Proof.
  intros H1 H2. apply prefix_inv in H1. destruct H1 as [x ->].
  apply prefix_inv in H2. destruct H2 as [y ->].
  rewrite <- app_assoc. apply prefix_app.
Qed.

Lemma path_eqb_eq p q : path_eqb p q = true <-> p = q.
Proof.
  revert q. induction p as [|a p IH]; intros [|b q]; simpl; split;
    try discriminate; try reflexivity.
  - intros H. apply andb_true_iff in H. destruct H as [Hab H].
    apply String.eqb_eq in Hab. apply IH in H. congruence.
  - intros [= -> ->]. rewrite String.eqb_refl. apply IH. reflexivity.
Qed.

Lemma parent_snoc p n : parent (p ++ [n]) = p.
Proof. apply removelast_last. Qed.

Lemma name_snoc p n : name (p ++ [n]) = n.
Proof. apply last_last. Qed.

Lemma snoc_parent_name p : p <> [] -> p = parent p ++ [name p].
Proof. intros H. apply app_removelast_last. exact H. Qed.

(** ** Lookup through an update *)

Lemma lookup_app p q t :
  lookup (p ++ q) t =
  match lookup p t with Some c => lookup q c | None => None end.
Proof.
  revert t. induction p as [|n p IH]; intros t; simpl; [reflexivity|].
  destruct t as [d|es]; [reflexivity|].
  destruct (assoc n es); [apply IH|reflexivity].
Qed.

Lemma exists_prefix p q t :
  exists_ (p ++ q) t = true -> exists_ p t = true.
Proof.
  unfold exists_. rewrite lookup_app. destruct (lookup p t); auto.
Qed.

Lemma is_dir_prefix p n q t :
  exists_ (p ++ n :: q) t = true -> is_dir p t = true.
Proof.
  unfold exists_, is_dir. rewrite lookup_app.
  destruct (lookup p t) as [[d|es]|]; simpl; auto.
Qed.

Lemma alter_id p t : alter p (fun c => c) t = t.
Proof.
  revert t. induction p as [|n p IH]; intros t; simpl; [reflexivity|].
  destruct t as [d|es]; [reflexivity|].
  rewrite (assoc_upd_ext n _ (fun c => c)) by (intros; apply IH).
  rewrite assoc_upd_id. reflexivity.
Qed.

Lemma alter_alter p f g t :
  alter p g (alter p f t) = alter p (fun c => g (f c)) t.
Proof.
  revert t. induction p as [|n p IH]; intros t; simpl; [reflexivity|].
  destruct t as [d|es]; [reflexivity|].
  rewrite assoc_upd_upd.
  rewrite (assoc_upd_ext n _ (alter p (fun c => g (f c)))) by (intros; apply IH).
  reflexivity.
Qed.

Lemma alter_ext p f g t :
  (forall c, lookup p t = Some c -> f c = g c) -> alter p f t = alter p g t.
Proof.
  revert t. induction p as [|n p IH]; intros t H; simpl.
  - apply H. reflexivity.
  - destruct t as [d|es]; [reflexivity|].
    rewrite (assoc_upd_ext n _ (alter p g)); [reflexivity|].
    intros c Hc. apply IH. intros c' Hc'. apply H. simpl. rewrite Hc. exact Hc'.
Qed.

(** Below the altered node: the new node decides. *)
Lemma lookup_alter_below p q f t :
  lookup (p ++ q) (alter p f t) =
  match lookup p t with Some c => lookup q (f c) | None => None end.
Proof.
  revert t. induction p as [|n p IH]; intros t; simpl; [reflexivity|].
  destruct t as [d|es]; [reflexivity|].
  rewrite assoc_upd_same. destruct (assoc n es); simpl; [apply IH|reflexivity].
Qed.

(** Above the altered node: the same node, altered further down. *)
Lemma lookup_alter_above q r f t :
  lookup q (alter (q ++ r) f t) = option_map (alter r f) (lookup q t).
Proof.
  revert t. induction q as [|n q IH]; intros t; simpl; [reflexivity|].
  destruct t as [d|es]; [reflexivity|].
  rewrite assoc_upd_same. destruct (assoc n es); simpl; [apply IH|reflexivity].
Qed.

(** Beside the altered node: nothing changes. *)
Lemma lookup_alter_apart p q f t :
  prefix p q = false -> prefix q p = false ->
  lookup q (alter p f t) = lookup q t.
Proof.
  revert q t. induction p as [|n p IH]; intros q t Hpq Hqp; simpl in *.
  - discriminate.
  - destruct q as [|m q]; [discriminate|].
    destruct t as [d|es]; [reflexivity|]. simpl.
    simpl in Hpq, Hqp.
    destruct (String.eqb n m) eqn:Hnm.
    + apply String.eqb_eq in Hnm. subst m.
      rewrite String.eqb_refl in Hqp. simpl in *.
      rewrite assoc_upd_same. destruct (assoc n es); simpl; [|reflexivity].
      apply IH; assumption.
    + rewrite assoc_upd_other; [reflexivity|].
      intros ->. rewrite String.eqb_refl in Hnm. discriminate.
Qed.

End FSFacts.

(** ** The SDK root finder *)

Section FindSdkRoot.
Import FS FSFacts.

Variable t : node.

Lemma marker_inside_is_dir p : exists_ (p ++ marker) t = true -> is_dir p t = true.
Proof. unfold marker. apply is_dir_prefix. Qed.

Lemma assoc_in_names n es c : assoc n es = Some c -> In n (map fst es).
Proof.
  induction es as [|[m d] es IH]; simpl; [discriminate|].
  destruct (String.eqb n m) eqn:Hnm.
  - apply String.eqb_eq in Hnm. auto.
  - intros H. right. apply IH. exact H.
Qed.

(** What exists below [p] starts with a name [iterdir] yields. *)
Lemma exists_in_iterdir p n q :
  exists_ (p ++ n :: q) t = true -> In n (iterdir p t).
Proof.
  unfold exists_, iterdir. rewrite lookup_app.
  destruct (lookup p t) as [[d|es]|]; simpl; try discriminate.
  destruct (assoc n es) eqn:Hn; [|discriminate].
  intros _. eapply assoc_in_names. exact Hn.
Qed.

Lemma scan_subsubdirs_sound subdir names r :
  scan_subsubdirs t subdir names = Some r ->
  exists n, In n names /\ r = subdir ++ [n] /\
            is_dir r t = true /\ exists_ (r ++ marker) t = true.
Proof.
  induction names as [|n names IH]; simpl; [discriminate|].
  destruct (is_dir (subdir ++ [n]) t && exists_ ((subdir ++ [n]) ++ marker) t) eqn:Hhit.
  - intros [= <-]. apply andb_true_iff in Hhit. destruct Hhit.
    exists n. auto.
  - intros H. destruct (IH H) as (m & Hm & Hr). exists m. auto.
Qed.

Lemma scan_subsubdirs_found subdir names n :
  In n names -> exists_ ((subdir ++ [n]) ++ marker) t = true ->
  scan_subsubdirs t subdir names <> None.
Proof.
  induction names as [|m names IH]; simpl; [contradiction|].
  intros [-> | Hin] Hn.
  - rewrite (marker_inside_is_dir _ Hn), Hn. simpl. discriminate.
  - destruct (is_dir (subdir ++ [m]) t && exists_ ((subdir ++ [m]) ++ marker) t);
      [discriminate | auto].
Qed.

Lemma scan_subsubdirs_none subdir names :
  (forall n, In n names -> exists_ ((subdir ++ [n]) ++ marker) t = false) ->
  scan_subsubdirs t subdir names = None.
Proof.
  induction names as [|m names IH]; simpl; intros H; [reflexivity|].
  rewrite (H m) by auto. rewrite andb_false_r. apply IH. auto.
Qed.

(** Whatever the outer loop returns holds the marker, one or two levels down,
    and was not shadowed by its own parent. *)
Lemma scan_subdirs_sound root names r :
  scan_subdirs t root names = Some r ->
  is_dir r t = true /\ exists_ (r ++ marker) t = true /\
  ((exists a, r = root ++ [a]) \/
   (exists a b, r = root ++ [a; b] /\ exists_ ((root ++ [a]) ++ marker) t = false)).
Proof.
  induction names as [|n names IH]; simpl; [discriminate|].
  destruct (is_dir (root ++ [n]) t) eqn:Hd; [|exact IH].
  destruct (exists_ ((root ++ [n]) ++ marker) t) eqn:Hm.
  - intros [= <-]. repeat split; auto. left. exists n. reflexivity.
  - destruct (scan_subsubdirs t (root ++ [n]) (iterdir (root ++ [n]) t)) eqn:Hs.
    + intros [= <-]. apply scan_subsubdirs_sound in Hs.
      destruct Hs as (b & _ & -> & Hb & Hbm). repeat split; auto.
      right. exists n, b. rewrite <- app_assoc. auto.
    + exact IH.
Qed.

Lemma scan_subdirs_found1 root names n :
  In n names -> exists_ ((root ++ [n]) ++ marker) t = true ->
  scan_subdirs t root names <> None.
Proof.
  induction names as [|m names IH]; simpl; [contradiction|].
  intros Hin Hn.
  destruct (is_dir (root ++ [m]) t) eqn:Hd.
  - destruct (exists_ ((root ++ [m]) ++ marker) t) eqn:Hm; [discriminate|].
    destruct (scan_subsubdirs t (root ++ [m]) (iterdir (root ++ [m]) t));
      [discriminate|].
    destruct Hin as [-> | Hin]; [congruence | auto].
  - destruct Hin as [-> | Hin]; [|auto].
    rewrite (marker_inside_is_dir _ Hn) in Hd. discriminate.
Qed.

Lemma scan_subdirs_found2 root names a b :
  In a names -> exists_ ((root ++ [a; b]) ++ marker) t = true ->
  scan_subdirs t root names <> None.
Proof.
  induction names as [|m names IH]; simpl; [contradiction|].
  intros Hin Hab.
  destruct (is_dir (root ++ [m]) t) eqn:Hd.
  - destruct (exists_ ((root ++ [m]) ++ marker) t) eqn:Hm; [discriminate|].
    destruct (scan_subsubdirs t (root ++ [m]) (iterdir (root ++ [m]) t)) eqn:Hs;
      [discriminate|].
    destruct Hin as [-> | Hin]; [|auto].
    exfalso. revert Hs. apply (scan_subsubdirs_found _ _ b).
    + apply (exists_in_iterdir _ _ marker).
      replace ((root ++ [a]) ++ b :: marker) with ((root ++ [a; b]) ++ marker);
        [exact Hab|]. rewrite <- !app_assoc. reflexivity.
    + replace ((root ++ [a]) ++ [b]) with (root ++ [a; b]);
        [exact Hab|]. rewrite <- app_assoc. reflexivity.
  - destruct Hin as [-> | Hin]; [|auto].
    exfalso. assert (is_dir (root ++ [a]) t = true); [|congruence].
    apply (is_dir_prefix _ b marker).
    replace ((root ++ [a]) ++ b :: marker) with ((root ++ [a; b]) ++ marker);
      [exact Hab|]. rewrite <- !app_assoc. reflexivity.
Qed.

Lemma scan_subdirs_none root names :
  (forall q, (List.length q <= 2)%nat -> exists_ (root ++ q ++ marker) t = false) ->
  scan_subdirs t root names = None.
Proof.
  intros H. induction names as [|m names IH]; simpl; [reflexivity|].
  destruct (is_dir (root ++ [m]) t); [|exact IH].
  rewrite <- app_assoc. rewrite (H [m]) by (simpl; lia).
  rewrite scan_subsubdirs_none; [exact IH|].
  intros n _. rewrite <- !app_assoc. apply (H [m; n]). simpl. lia.
Qed.

(** Entries skipped by the outer loop: neither they nor their children hold
    the marker. *)
Lemma scan_subdirs_skip root pre rest :
  (forall m q, In m pre -> (List.length q <= 1)%nat ->
               exists_ (root ++ m :: q ++ marker) t = false) ->
  scan_subdirs t root (pre ++ rest) = scan_subdirs t root rest.
Proof.
  induction pre as [|m pre IH]; intros H; simpl; [reflexivity|].
  rewrite IH by (intros; apply H; simpl; auto).
  destruct (is_dir (root ++ [m]) t); [|reflexivity].
  pose proof (H m [] (or_introl eq_refl) (le_S _ _ (le_n 0))) as H0.
  simpl in H0. rewrite <- app_assoc. simpl. rewrite H0.
  rewrite scan_subsubdirs_none; [reflexivity|].
  intros n _. rewrite <- !app_assoc. simpl. apply (H m [n]); simpl; auto.
Qed.

Lemma find_sdk_root_sound root r :
  find_sdk_root t root = Ret (Some r) ->
  exists_ (r ++ marker) t = true /\
  (r = root \/
   (exists a, r = root ++ [a] /\ exists_ (root ++ marker) t = false) \/
   (exists a b, r = root ++ [a; b] /\ exists_ ((root ++ [a]) ++ marker) t = false)).
Proof.
  unfold find_sdk_root. destruct (exists_ (root ++ marker) t) eqn:Hm.
  - intros [= <-]. auto.
  - destruct (lookup root t) as [[d|es]|]; try discriminate.
    intros [= H]. apply scan_subdirs_sound in H.
    destruct H as (_ & Hr & [[a ->] | (a & b & -> & Ha)]); split; auto.
    + right. left. exists a. auto.
    + right. right. exists a, b. auto.
Qed.

Lemma find_sdk_root_is_dir root r :
  find_sdk_root t root = Ret (Some r) -> is_dir r t = true.
Proof.
  intros H. apply marker_inside_is_dir. apply find_sdk_root_sound in H. tauto.
Qed.

End FindSdkRoot.

(** C8. When the marker file lies 0, 1 or 2 levels below the extraction root,
    [find_sdk_root] returns a directory that holds the marker at its expected
    relative path; when no directory within two levels holds it (the marker is
    3 levels down or deeper, or nowhere), it returns [None]. *)
Theorem find_sdk_root_depth_cap (t : node) (extracted_dir : path) :
  FS.is_dir extracted_dir t = true ->
  ((exists q, (List.length q <= 2)%nat /\
              FS.exists_ (extracted_dir ++ q ++ marker) t = true) ->
   exists r, find_sdk_root t extracted_dir = Ret (Some r) /\
             FS.is_dir r t = true /\ FS.exists_ (r ++ marker) t = true) /\
  ((forall q, (List.length q <= 2)%nat ->
              FS.exists_ (extracted_dir ++ q ++ marker) t = false) ->
   find_sdk_root t extracted_dir = Ret None).
Proof.
  intros Hd. split.
  - intros (q & Hq & Hm).
    assert (Hsome : exists r, find_sdk_root t extracted_dir = Ret (Some r)).
    { unfold find_sdk_root.
      destruct (FS.exists_ (extracted_dir ++ marker) t) eqn:H0; [eauto|].
      unfold FS.is_dir in Hd.
      destruct (FS.lookup extracted_dir t) as [[d|es]|] eqn:Hl; try discriminate.
      assert (Hit : FS.iterdir extracted_dir t = map fst es)
        by (unfold FS.iterdir; rewrite Hl; reflexivity).
      rewrite <- Hit.
      destruct (scan_subdirs t extracted_dir (FS.iterdir extracted_dir t)) eqn:Hs;
        [eauto|]. exfalso. revert Hs.
      destruct q as [|a [|b [|c q]]]; simpl in Hq, Hm.
      - congruence.
      - apply (scan_subdirs_found1 t _ _ a).
        + apply (exists_in_iterdir t _ _ marker). exact Hm.
        + rewrite <- app_assoc. exact Hm.
      - apply (scan_subdirs_found2 t _ _ a b).
        + apply (exists_in_iterdir t _ _ (b :: marker)). exact Hm.
        + rewrite <- app_assoc. exact Hm.
      - lia. }
    destruct Hsome as [r Hr]. exists r. split; [exact Hr|]. split.
    + eapply find_sdk_root_is_dir. exact Hr.
    + apply find_sdk_root_sound in Hr. tauto.
  - intros Hnone. unfold find_sdk_root.
    pose proof (Hnone [] (Nat.le_0_l 2)) as H0. simpl in H0. rewrite H0.
    unfold FS.is_dir in Hd.
    destruct (FS.lookup extracted_dir t) as [[d|es]|]; try discriminate.
    rewrite scan_subdirs_none by assumption. reflexivity.
Qed.

Lemma find_sdk_root_depth_cap_witness :
  (exists r, find_sdk_root Sample.depth2 [] = Ret (Some r) /\
             FS.is_dir r Sample.depth2 = true /\
             FS.exists_ (r ++ marker) Sample.depth2 = true) /\
  find_sdk_root Sample.depth3 [] = Ret None.
Proof.
  split.
  - apply (proj1 (find_sdk_root_depth_cap Sample.depth2 [] eq_refl)).
    exists ["wrap"; "ultralight-sdk"]. split; [simpl; lia | reflexivity].
  - apply (proj2 (find_sdk_root_depth_cap Sample.depth3 [] eq_refl)).
    intros q Hq. destruct q as [|a [|b [|c q]]]; simpl in Hq.
    + reflexivity.
    + unfold FS.exists_. simpl. destruct (String.eqb a "a"); reflexivity.
    + unfold FS.exists_. simpl. destruct (String.eqb a "a"); [|reflexivity].
      simpl. destruct (String.eqb b "b"); reflexivity.
    + lia.
Defined.

(** C2, as the code has it: the marker-holding sibling [B] sits one level
    down, yet the finder answers with [A/X], two levels down, because [A] is
    enumerated first. *)
Lemma find_sdk_root_level_order_counterexample :
  FS.exists_ (["B"] ++ marker) Sample.two_candidates = true /\
  find_sdk_root Sample.two_candidates [] = Ret (Some ["A"; "X"]) /\
  ~ (List.length ["A"; "X"] <= 1)%nat.
Proof.
  split; [reflexivity|]. split; [reflexivity|]. simpl. lia.
Qed.

(** C2, amended.  The finder checks the given directory itself; only if the
    marker is absent there does it go through the immediate subdirectories, in
    enumeration order, and for each one it checks that subdirectory and then
    that subdirectory's own subdirectories before it moves to the next
    sibling.  So an immediate subdirectory holding the marker is returned when
    no sibling enumerated before it holds the marker itself or in a
    subdirectory; a sibling without the marker whose subdirectory holds it
    wins over everything enumerated later; and whenever some immediate
    subdirectory holds the marker, the answer is a marker-holding directory
    one or two levels down. *)
Theorem find_sdk_root_sibling_order (t : node) (extracted_dir : path)
  (es : FS.entries_t) :
  FS.lookup extracted_dir t = Some (Dir es) ->
  (FS.exists_ (extracted_dir ++ marker) t = true ->
   find_sdk_root t extracted_dir = Ret (Some extracted_dir)) /\
  (FS.exists_ (extracted_dir ++ marker) t = false ->
   (forall pre n post,
      map fst es = pre ++ n :: post ->
      (forall m q, In m pre -> (List.length q <= 1)%nat ->
                   FS.exists_ (extracted_dir ++ m :: q ++ marker) t = false) ->
      (FS.exists_ (extracted_dir ++ n :: marker) t = true ->
       find_sdk_root t extracted_dir = Ret (Some (extracted_dir ++ [n]))) /\
      (forall k,
         FS.exists_ (extracted_dir ++ n :: marker) t = false ->
         FS.exists_ (extracted_dir ++ n :: k :: marker) t = true ->
         exists k', find_sdk_root t extracted_dir =
                    Ret (Some (extracted_dir ++ [n; k'])))) /\
   (forall a,
      FS.exists_ (extracted_dir ++ a :: marker) t = true ->
      exists r q, find_sdk_root t extracted_dir = Ret (Some r) /\
                  r = extracted_dir ++ q /\
                  (1 <= List.length q <= 2)%nat /\
                  FS.exists_ (r ++ marker) t = true)).
Proof.
  intros Hl. unfold find_sdk_root. split.
  - intros ->. reflexivity.
  - intros H0. rewrite H0, Hl. split.
    + intros pre n post Hnames Hpre. rewrite Hnames.
      rewrite (scan_subdirs_skip t) by exact Hpre. simpl. split.
      * intros Hn.
        assert (Hn' : FS.exists_ ((extracted_dir ++ [n]) ++ marker) t = true)
          by (rewrite <- app_assoc; exact Hn).
        rewrite (marker_inside_is_dir t _ Hn'), Hn'. reflexivity.
      * intros k Hn Hk.
        assert (Hn' : FS.exists_ ((extracted_dir ++ [n]) ++ marker) t = false)
          by (rewrite <- app_assoc; exact Hn).
        assert (Hk' : FS.exists_ (((extracted_dir ++ [n]) ++ [k]) ++ marker) t = true)
          by (rewrite <- !app_assoc; exact Hk).
        rewrite (FSFacts.is_dir_prefix (extracted_dir ++ [n]) k marker t)
          by (rewrite <- !app_assoc; exact Hk).
        rewrite Hn'.
        destruct (scan_subsubdirs t (extracted_dir ++ [n])
                    (FS.iterdir (extracted_dir ++ [n]) t)) eqn:Hs.
        -- apply scan_subsubdirs_sound in Hs. destruct Hs as (k' & _ & -> & _).
           exists k'. rewrite <- app_assoc. reflexivity.
        -- exfalso. revert Hs. apply (scan_subsubdirs_found t _ _ k); [|exact Hk'].
           apply (exists_in_iterdir t _ _ marker). rewrite <- !app_assoc. exact Hk.
    + intros a Ha.
      destruct (scan_subdirs t extracted_dir (map fst es)) as [r|] eqn:Hs.
      * pose proof (scan_subdirs_sound t _ _ _ Hs) as (_ & Hm & Hshape).
        exists r. destruct Hshape as [[b ->] | (b & c & -> & _)].
        -- exists [b]. repeat split; simpl; auto.
        -- exists [b; c]. repeat split; simpl; auto.
      * exfalso. revert Hs. apply (scan_subdirs_found1 t _ _ a).
        -- replace (map fst es) with (FS.iterdir extracted_dir t)
             by (unfold FS.iterdir; rewrite Hl; reflexivity).
           apply (exists_in_iterdir t _ _ marker). exact Ha.
        -- rewrite <- app_assoc. exact Ha.
Qed.

Lemma find_sdk_root_sibling_order_witness :
  find_sdk_root Sample.depth1 [] = Ret (Some ["ultralight-sdk"]).
Proof.
  refine (proj1 (proj1 (proj2
    (find_sdk_root_sibling_order Sample.depth1 [] _ eq_refl) eq_refl)
    ["README.txt"] "ultralight-sdk" [] eq_refl _) eq_refl).
  intros m q [<- | []] _. destruct q; reflexivity.
Defined.

(** ** Order on names, and [sorted] *)

Section NameOrder.

Lemma string_leb_refl s : String.leb s s = true.
Proof. destruct (String.leb_total s s); assumption. Qed.

Lemma string_leb_trans s1 s2 s3 :
  String.leb s1 s2 = true -> String.leb s2 s3 = true -> String.leb s1 s3 = true.
Proof.
  unfold String.leb. revert s2 s3.
  induction s1 as [|a s1 IH]; intros [|b s2] [|c s3]; simpl;
    try reflexivity; try discriminate.
  unfold Ascii.compare.
  destruct (N.compare_spec (N_of_ascii a) (N_of_ascii b)) as [Hab|Hab|Hab];
    destruct (N.compare_spec (N_of_ascii b) (N_of_ascii c)) as [Hbc|Hbc|Hbc];
    destruct (N.compare_spec (N_of_ascii a) (N_of_ascii c)) as [Hac|Hac|Hac];
    try discriminate; try reflexivity; try lia.
  apply IH.
Qed.

Lemma in_insert x y l : In y (Str.insert x l) <-> y = x \/ In y l.
Proof.
  induction l as [|z l IH]; simpl.
  - intuition congruence.
  - destruct (String.leb x z); simpl; [intuition congruence|].
    rewrite IH. intuition congruence.
Qed.

Lemma in_sorted y l : In y (Str.sorted l) <-> In y l.
Proof.
  induction l as [|x l IH]; simpl; [reflexivity|].
  rewrite in_insert, IH. intuition congruence.
Qed.

Lemma insert_not_nil x l : Str.insert x l <> [].
Proof. destruct l as [|y l]; simpl; [|destruct (String.leb x y)]; discriminate. Qed.

Lemma last_insert_below x l d :
  l <> [] -> String.leb x (last l d) = true ->
  last (Str.insert x l) d = last l d.
Proof.
  induction l as [|y l IH]; intros Hne Hx; [congruence|].
  destruct l as [|z l].
  - simpl in *. rewrite Hx. reflexivity.
  - change (last (y :: z :: l) d) with (last (z :: l) d) in *.
    change (Str.insert x (y :: z :: l))
      with (if String.leb x y then x :: y :: z :: l else y :: Str.insert x (z :: l)).
    destruct (String.leb x y); [reflexivity|].
    rewrite <- IH by (discriminate || assumption).
    pose proof (insert_not_nil x (z :: l)).
    destruct (Str.insert x (z :: l)); [congruence | reflexivity].
Qed.

Lemma last_insert_above x l d :
  (forall y, In y l -> String.leb x y = false) ->
  last (Str.insert x l) d = x.
Proof.
  induction l as [|y l IH]; intros H; [reflexivity|].
  simpl. rewrite (H y) by (left; reflexivity).
  pose proof (insert_not_nil x l).
  specialize (IH (fun z Hz => H z (or_intror Hz))).
  destruct (Str.insert x l); [congruence | exact IH].
Qed.

(** [sorted(matches)[-1]] is the lexicographically last match. *)
Lemma last_sorted_lex_last l d : l <> [] -> lex_last l (last (Str.sorted l) d).
Proof.
  induction l as [|x l IH]; intros Hne; [congruence|].
  destruct l as [|y l].
  - split; [left; reflexivity|]. intros z [<- | []]. apply string_leb_refl.
  - destruct IH as [Hin Hub]; [discriminate|].
    set (m := last (Str.sorted (y :: l)) d) in *.
    change (Str.sorted (x :: y :: l)) with (Str.insert x (Str.sorted (y :: l))).
    destruct (String.leb x m) eqn:Hxm.
    + rewrite last_insert_below; fold m; auto.
      * split; [right; exact Hin|]. intros z [<- | Hz]; auto.
      * intros Hnil. apply (proj2 (in_sorted m (y :: l))) in Hin.
        rewrite Hnil in Hin. exact Hin.
    + rewrite last_insert_above.
      * split; [left; reflexivity|]. intros z [<- | Hz]; [apply string_leb_refl|].
        destruct (String.leb_total m x) as [Hmx | Hmx]; [|congruence].
        eapply string_leb_trans; [apply Hub; exact Hz | exact Hmx].
      * intros z Hz. apply (proj1 (in_sorted z (y :: l))) in Hz.
        destruct (String.leb x z) eqn:Hxz; [|reflexivity].
        rewrite (string_leb_trans x z m Hxz (Hub z Hz)) in Hxm. discriminate.
Qed.


End NameOrder.

(** ** Dictionaries *)

Section DictFacts.

Context {V : Type}.

Lemma dict_get_set_same k (v : V) d : Dict.get k (Dict.set k v d) = Some v.
Proof.
  induction d as [|[k' v'] d IH]; simpl.
  - rewrite String.eqb_refl. reflexivity.
  - destruct (String.eqb k k') eqn:Hk; simpl; rewrite Hk; auto.
Qed.

Lemma dict_get_set_other k k' (v : V) d :
  k <> k' -> Dict.get k' (Dict.set k v d) = Dict.get k' d.
Proof.
  intros Hne. induction d as [|[j u] d IH]; simpl.
  - destruct (String.eqb k' k) eqn:Hk; [|reflexivity].
    apply String.eqb_eq in Hk. congruence.
  - destruct (String.eqb k j) eqn:Hkj; simpl.
    + apply String.eqb_eq in Hkj. subst j.
      destruct (String.eqb k' k) eqn:Hk; [|reflexivity].
      apply String.eqb_eq in Hk. congruence.
    + rewrite IH. reflexivity.
Qed.

Lemma dict_keys_set k (v : V) d :
  map fst (Dict.set k v d) =
  if Dict.mem k d then map fst d else map fst d ++ [k].
Proof.
  unfold Dict.mem. induction d as [|[j u] d IH]; simpl; [reflexivity|].
  destruct (String.eqb k j) eqn:Hkj; simpl; [reflexivity|].
  rewrite IH. destruct (Dict.get k d); reflexivity.
Qed.

Lemma dict_get_none_keys k (d : list (string * V)) :
  Dict.get k d = None <-> ~ In k (map fst d).
Proof.
  induction d as [|[j u] d IH]; simpl; [tauto|].
  destruct (String.eqb k j) eqn:Hkj.
  - apply String.eqb_eq in Hkj. subst. split; [discriminate | tauto].
  - rewrite IH. apply String.eqb_neq in Hkj. split; [intuition congruence | tauto].
Qed.

Lemma dict_set_nodup k (v : V) d :
  NoDup (map fst d) -> NoDup (map fst (Dict.set k v d)).
Proof.
  intros Hnd. rewrite dict_keys_set. unfold Dict.mem.
  destruct (Dict.get k d) eqn:Hk; [exact Hnd|].
  apply dict_get_none_keys in Hk.
  clear -Hnd Hk. induction (map fst d) as [|a l IH]; simpl.
  - constructor; [simpl; tauto | constructor].
  - inversion Hnd; subst. constructor.
    + rewrite in_app_iff. simpl in *. intuition congruence.
    + apply IH; [assumption | simpl in Hk; tauto].
Qed.

End DictFacts.

(** ** The archive locator *)

Section Locator.

Variables (t : node) (search_dir : path).

Let pick (pe : string * string) : path :=
  search_dir ++ [last (Str.sorted (glob t search_dir (fst pe ++ snd pe))) ""].

Let scan (archives : archives_t) (pc : string * platform_config) : archives_t :=
  pattern_loop t search_dir (fst pc) (archive_patterns (snd pc)) archives.

Lemma find_app_first {A} (f : A -> bool) l l' :
  find f (l ++ l') =
  match find f l with Some x => Some x | None => find f l' end.
Proof.
  induction l as [|x l IH]; simpl; [reflexivity|].
  destruct (f x); [reflexivity | exact IH].
Qed.

Lemma ext_loop_spec platform pattern exts archives :
  ext_loop t search_dir platform pattern exts archives =
  match find (has_match t search_dir) (map (pair pattern) exts) with
  | Some pe => Dict.set platform (pick pe) archives
  | None => archives
  end.
Proof.
  induction exts as [|ext exts IH]; simpl; [reflexivity|].
  unfold has_match at 1. simpl.
  destruct (glob t search_dir (pattern ++ ext)) eqn:Hg; [exact IH|].
  unfold pick. simpl. rewrite Hg. reflexivity.
Qed.

Lemma pattern_loop_spec platform patterns archives :
  Dict.mem platform archives = false ->
  pattern_loop t search_dir platform patterns archives =
  match find (has_match t search_dir) (list_prod patterns [".7z"; ".zip"]) with
  | Some pe => Dict.set platform (pick pe) archives
  | None => archives
  end.
Proof.
  intros Hmem. induction patterns as [|pattern patterns IH]; [reflexivity|].
  change (list_prod (pattern :: patterns) [".7z"; ".zip"])
    with (map (pair pattern) [".7z"; ".zip"] ++ list_prod patterns [".7z"; ".zip"]).
  rewrite find_app_first.
  change (pattern_loop t search_dir platform (pattern :: patterns) archives)
    with (let archives' :=
            ext_loop t search_dir platform pattern [".7z"; ".zip"] archives in
          if Dict.mem platform archives' then archives'
          else pattern_loop t search_dir platform patterns archives').
  cbv zeta. rewrite ext_loop_spec.
  destruct (find (has_match t search_dir) (map (pair pattern) [".7z"; ".zip"])).
  - unfold Dict.mem. rewrite dict_get_set_same. reflexivity.
  - rewrite Hmem. exact IH.
Qed.

Lemma ext_loop_get_other platform k pattern exts archives :
  platform <> k ->
  Dict.get k (ext_loop t search_dir platform pattern exts archives) =
  Dict.get k archives.
Proof.
  intros Hne. rewrite ext_loop_spec.
  destruct (find _ _); [apply dict_get_set_other; exact Hne | reflexivity].
Qed.

Lemma pattern_loop_get_other platform k patterns archives :
  platform <> k ->
  Dict.get k (pattern_loop t search_dir platform patterns archives) =
  Dict.get k archives.
Proof.
  intros Hne. revert archives.
  induction patterns as [|pattern patterns IH]; intros archives;
    cbn [pattern_loop]; [reflexivity|].
  destruct (Dict.mem platform _); [|rewrite IH];
    apply ext_loop_get_other; exact Hne.
Qed.

Lemma scan_all_get_other ps k archives :
  ~ In k (map fst ps) ->
  Dict.get k (fold_left scan ps archives) = Dict.get k archives.
Proof.
  revert archives. induction ps as [|[p c] ps IH]; intros archives Hk; simpl;
    [reflexivity|].
  simpl in Hk. rewrite IH by tauto. unfold scan. simpl.
  apply pattern_loop_get_other. tauto.
Qed.

Lemma scan_all_get ps archives platform config :
  NoDup (map fst ps) -> In (platform, config) ps ->
  (forall k, In k (map fst ps) -> Dict.get k archives = None) ->
  Dict.get platform (fold_left scan ps archives) =
  option_map pick
    (find (has_match t search_dir)
          (list_prod (archive_patterns config) [".7z"; ".zip"])).
Proof.
  revert archives. induction ps as [|[p c] ps IH]; intros archives Hnd Hin Hfresh;
    [contradiction|].
  simpl in Hnd. inversion Hnd as [|? ? Hp Hnd']; subst.
  simpl. destruct Hin as [[= -> ->] | Hin].
  - rewrite scan_all_get_other by exact Hp. unfold scan. simpl.
    rewrite pattern_loop_spec
      by (unfold Dict.mem; rewrite Hfresh by (left; reflexivity); reflexivity).
    destruct (find _ _); simpl.
    + apply dict_get_set_same.
    + apply Hfresh. left. reflexivity.
  - apply IH; [exact Hnd' | exact Hin |].
    intros k Hk. unfold scan. simpl. rewrite pattern_loop_get_other.
    + apply Hfresh. right. exact Hk.
    + intros ->. contradiction.
Qed.

Lemma glob_missing_dir pattern :
  FS.exists_ search_dir t = false -> glob t search_dir pattern = [].
Proof.
  unfold glob, FS.iterdir, FS.exists_.
  destruct (FS.lookup search_dir t); [discriminate | reflexivity].
Qed.

Lemma find_archives_get platform config :
  In (platform, config) PLATFORMS ->
  Dict.get platform (find_archives t search_dir) =
  option_map pick
    (find (has_match t search_dir)
          (list_prod (archive_patterns config) [".7z"; ".zip"])).
Proof.
  intros Hin. unfold find_archives.
  destruct (FS.exists_ search_dir t) eqn:Hex; cbn [negb].
  - apply (scan_all_get PLATFORMS []); [|exact Hin|reflexivity].
    unfold PLATFORMS. cbn [map fst].
    repeat constructor; cbn [In]; intuition discriminate.
  - replace (find _ _) with (@None (string * string)); [reflexivity|].
    symmetry. induction (list_prod _ _) as [|pe l IH]; simpl; [reflexivity|].
    unfold has_match at 1. rewrite glob_missing_dir by exact Hex. exact IH.
Qed.

Lemma find_archives_get_unknown k :
  ~ In k (map fst PLATFORMS) -> Dict.get k (find_archives t search_dir) = None.
Proof.
  intros Hk. unfold find_archives.
  destruct (FS.exists_ search_dir t); cbn [negb]; [|reflexivity].
  apply (scan_all_get_other PLATFORMS k []). exact Hk.
Qed.

End Locator.

(** C5. For each platform, [find_archives] goes through the platform's
    patterns in order and, for each pattern, through the extensions [.7z] then
    [.zip]; the first (pattern, extension) pair with any match decides: the
    lexicographically last matching name is the platform's archive, and no
    later pair is consulted; without any matching pair the platform gets no
    archive.  In particular, when the entries of the directory that match
    [*linux*x64*.7z] are the 1.3.0 and the 1.4.0 archives, the 1.4.0 archive
    is the one selected for linux-x64. *)
Theorem find_archives_priority (t : node) (search_dir : path) :
  (forall platform config,
     In (platform, config) PLATFORMS ->
     match find (has_match t search_dir)
                (list_prod (archive_patterns config) [".7z"; ".zip"]) with
     | Some (pattern, ext) =>
         exists m,
           Dict.get platform (find_archives t search_dir) = Some (search_dir ++ [m]) /\
           lex_last (glob t search_dir (pattern ++ ext)) m
     | None => Dict.get platform (find_archives t search_dir) = None
     end) /\
  ((forall x, In x (glob t search_dir "*linux*x64*.7z") <->
              x = "ultralight-sdk-1.4.0-linux-x64.7z" \/
              x = "ultralight-sdk-1.3.0-linux-x64.7z") ->
   Dict.get "linux-x64" (find_archives t search_dir) =
   Some (search_dir ++ ["ultralight-sdk-1.4.0-linux-x64.7z"])).
Proof.
  assert (General : forall platform config,
     In (platform, config) PLATFORMS ->
     match find (has_match t search_dir)
                (list_prod (archive_patterns config) [".7z"; ".zip"]) with
     | Some (pattern, ext) =>
         exists m,
           Dict.get platform (find_archives t search_dir) = Some (search_dir ++ [m]) /\
           lex_last (glob t search_dir (pattern ++ ext)) m
     | None => Dict.get platform (find_archives t search_dir) = None
     end).
  { intros platform config Hin.
    rewrite (find_archives_get t search_dir platform config Hin).
    destruct (find _ _) as [[pattern ext]|] eqn:Hf; simpl; [|reflexivity].
    eexists. split; [reflexivity|].
    apply last_sorted_lex_last.
    apply find_some in Hf. destruct Hf as [_ Hf]. unfold has_match in Hf.
    simpl in Hf. destruct (glob t search_dir (pattern ++ ext)); [discriminate|].
    discriminate. }
  split; [exact General|].
  intros Hboth.
  pose proof (General "linux-x64" _ (or_intror (or_introl eq_refl))) as H.
  cbn [archive_patterns list_prod map app find] in H.
  unfold has_match at 1 in H. cbn [fst snd String.append] in H.
  destruct (glob t search_dir "*linux*x64*.7z") as [|x l] eqn:Hg.
  - exfalso. apply (proj2 (Hboth "ultralight-sdk-1.4.0-linux-x64.7z")).
    left. reflexivity.
  - destruct H as (m & -> & Hin & Hub). cbn [fst snd String.append] in Hin, Hub.
    rewrite Hg in Hin, Hub.
    assert (H14 : String.leb "ultralight-sdk-1.4.0-linux-x64.7z" m = true)
      by (apply Hub, Hboth; left; reflexivity).
    apply Hboth in Hin. destruct Hin as [-> | ->]; [reflexivity|].
    vm_compute in H14. discriminate.
Qed.

(** ** Running programs *)

Lemma run_eta {A} (c : M A) w :
  c w = (result_of c w, world_of c w, output_of c w).
Proof.
  unfold result_of, world_of, output_of. destruct (c w) as [[r w'] o].
  reflexivity.
Qed.

Section Runs.

Context {A B : Type}.

Lemma result_bind (c : M A) (k : A -> M B) w :
  result_of (bind c k) w =
  match result_of c w with
  | Ret a => result_of (k a) (world_of c w)
  | Raise e => Raise e
  end.
Proof.
  unfold result_of, world_of, bind. destruct (c w) as [[[a|e] w'] o]; simpl;
    [destruct (k a w') as [[r w''] o']|]; reflexivity.
Qed.

Lemma world_bind (c : M A) (k : A -> M B) w :
  world_of (bind c k) w =
  match result_of c w with
  | Ret a => world_of (k a) (world_of c w)
  | Raise e => world_of c w
  end.
Proof.
  unfold result_of, world_of, bind. destruct (c w) as [[[a|e] w'] o]; simpl;
    [destruct (k a w') as [[r w''] o']|]; reflexivity.
Qed.

End Runs.

Lemma result_print s w : result_of (print s) w = Ret tt.
Proof. reflexivity. Qed.

Lemma world_print s w : world_of (print s) w = w.
Proof. reflexivity. Qed.

Lemma result_ret {A} (a : A) w : result_of (ret a) w = Ret a.
Proof. reflexivity. Qed.

Lemma world_ret {A} (a : A) w : world_of (ret a) w = w.
Proof. reflexivity. Qed.

Lemma result_gets {A} (f : node -> A) w : result_of (gets f) w = Ret (f (fs w)).
Proof. reflexivity. Qed.

Lemma world_gets {A} (f : node -> A) w : world_of (gets f) w = w.
Proof. reflexivity. Qed.

Lemma result_modify_fs f w : result_of (modify_fs f) w = Ret tt.
Proof. reflexivity. Qed.

Lemma world_modify_fs f w : world_of (modify_fs f) w = set_fs (f (fs w)) w.
Proof. reflexivity. Qed.

Lemma result_raise {A} e w : result_of (@raise A e) w = Raise e.
Proof. reflexivity. Qed.

Lemma world_raise {A} e w : world_of (@raise A e) w = w.
Proof. reflexivity. Qed.

Lemma result_lift {A} (r : result A) w : result_of (lift r) w = r.
Proof. reflexivity. Qed.

Lemma world_lift {A} (r : result A) w : world_of (lift r) w = w.
Proof. reflexivity. Qed.

(** A loop whose body neither fails nor touches the world. *)
Lemma for_each_quiet {A} (l : list A) (body : A -> M unit) w :
  (forall x w', result_of (body x) w' = Ret tt /\ world_of (body x) w' = w') ->
  result_of (for_each l body) w = Ret tt /\ world_of (for_each l body) w = w.
Proof.
  intros Hbody. induction l as [|x l IH]; [split; reflexivity|].
  cbn [for_each]. rewrite result_bind, world_bind.
  destruct (Hbody x w) as [-> ->]. exact IH.
Qed.

Create Rewrite HintDb run.
#[local] Hint Rewrite @result_bind @world_bind result_print world_print
  @result_ret @world_ret @result_gets @world_gets
  result_modify_fs world_modify_fs @result_raise @world_raise
  @result_lift @world_lift : run.

Ltac run := repeat progress (autorewrite with run; cbv beta iota).

(** ** Binding and unbinding a path *)

Section PutRm.
Import FS FSFacts.

Lemma lookup_rm_at P n q t : lookup ((P ++ [n]) ++ q) (rm (P ++ [n]) t) = None.
Proof.
  unfold rm. rewrite parent_snoc, name_snoc, <- app_assoc, lookup_alter_below.
  destruct (lookup P t) as [[d|es]|]; simpl; try reflexivity.
  rewrite assoc_rm_same. reflexivity.
Qed.

Lemma exists_rm_self p t : p <> [] -> exists_ p (rm p t) = false.
Proof.
  intros Hp. rewrite (snoc_parent_name p Hp) at 1.
  unfold exists_. rewrite <- (app_nil_r (parent p ++ [name p])).
  rewrite (snoc_parent_name p Hp) at 3. rewrite lookup_rm_at. reflexivity.
Qed.

Lemma lookup_put_at P n q v t :
  is_dir P t = true ->
  lookup ((P ++ [n]) ++ q) (put (P ++ [n]) v t) = lookup q v.
Proof.
  unfold put, is_dir.
  rewrite parent_snoc, name_snoc, <- app_assoc, lookup_alter_below.
  destruct (lookup P t) as [[d|es]|]; simpl; try discriminate.
  rewrite assoc_put_same. reflexivity.
Qed.

Lemma rm_put_fresh p v t :
  p <> [] -> exists_ p t = false -> rm p (put p v t) = t.
Proof.
  intros Hp Hfresh. unfold rm, put. rewrite alter_alter.
  rewrite (alter_ext _ _ (fun c => c)); [apply alter_id|].
  intros c Hc. destruct c as [d|es]; simpl; [reflexivity|].
  rewrite assoc_rm_put_fresh; [reflexivity|].
  unfold exists_ in Hfresh. rewrite (snoc_parent_name p Hp) in Hfresh.
  rewrite lookup_app, Hc in Hfresh. simpl in Hfresh.
  destruct (assoc (name p) es); [discriminate | reflexivity].
Qed.

Lemma mkdtemp_from_spec dir names t p names' t' :
  mkdtemp_from dir names t = (Ret p, names', t') ->
  (exists r, p = dir ++ [("tmp" ++ r)%string]) /\
  exists_ p t = false /\ is_dir dir t = true /\ t' = put p (Dir []) t.
Proof.
  induction names as [|r names IH]; cbn [mkdtemp_from]; [discriminate|].
  destruct (exists_ (dir ++ [("tmp" ++ r)%string]) t) eqn:Hex; [exact IH|].
  destruct (is_dir dir t) eqn:Hd; [|discriminate].
  intros [= <- <- <-]. split; [exists r; reflexivity | auto].
Qed.

End PutRm.

Lemma mkdtemp_spec C w tmp w1 o :
  mkdtemp C w = (Ret tmp, w1, o) ->
  (exists r, tmp = TMPDIR C ++ [("tmp" ++ r)%string]) /\
  FS.exists_ tmp (fs w) = false /\ FS.is_dir (TMPDIR C) (fs w) = true /\
  fs w1 = FS.put tmp (Dir []) (fs w) /\ stdin w1 = stdin w /\ o = [].
Proof.
  unfold mkdtemp.
  destruct (mkdtemp_from (TMPDIR C) (rng w) (fs w)) as [[r names] t] eqn:Hm.
  intros [= -> <- <-]. apply mkdtemp_from_spec in Hm.
  destruct Hm as (Hr & Hfresh & Hd & ->). simpl. auto 10.
Qed.

Lemma tmp_not_nil dir r : dir ++ [("tmp" ++ r)%string] <> [].
Proof. destruct dir; discriminate. Qed.

(** After the [with] block the scratch directory is gone. *)
Lemma cleanup_removes tmp w : tmp <> [] -> FS.exists_ tmp (fs (cleanup tmp w)) = false.
Proof.
  intros Hp. unfold cleanup. destruct (FS.exists_ tmp (fs w)) eqn:Hex.
  - simpl. apply exists_rm_self. exact Hp.
  - exact Hex.
Qed.

(** ** The platform installer *)

(** C6. When the target directory of a platform already holds the marker file
    and the operator's answer to the overwrite prompt is anything but [y]
    (after trimming and lower-casing), [setup_platform] returns [True]; the
    file system it leaves is the one it found, so the target directory and its
    marker are untouched; no scratch directory was drawn and nothing was
    extracted or moved: the run printed its banner, the prompt and
    "Skipping." and nothing else. *)
Theorem declined_overwrite_keeps_install (E : env) (C : config)
  (platform : string) (config : platform_config) (archive_path : path)
  (w : world) (line : string) (rest : list string) :
  Dict.get platform PLATFORMS = Some config ->
  FS.exists_ ((SDK_DIR C ++ [platform]) ++ test_file config) (fs w) = true ->
  stdin w = line :: rest ->
  Str.lower (Str.strip line) <> "y" ->
  setup_platform E C platform archive_path w =
  (Ret true, mkWorld (fs w) rest (rng w),
   [(nl ++ Str.times "=" 50)%string; ("Setting up " ++ platform)%string;
    Str.times "=" 50;
    ("  SDK already exists at: " ++ FS.path_str (SDK_DIR C ++ [platform])%list)%string;
    "  Overwrite? [y/N]: "; "  Skipping."]).
Proof.
  intros Hcfg Hmarker Hin Hno.
  unfold setup_platform. rewrite Hcfg.
  unfold check_existing, bind, print, gets, input, ret.
  rewrite Hmarker, Hin.
  destruct (String.eqb (Str.lower (Str.strip line)) "y") eqn:Hy.
  - apply String.eqb_eq in Hy. contradiction.
  - reflexivity.
Qed.

Lemma declined_overwrite_keeps_install_witness :
  setup_platform Sample.tools Sample.config0 "linux-x64"
    (Sample.downloads ++ [Sample.sdk_1_4])
    (mkWorld Sample.installed [" N "; "y"] ["k3f9"]) =
  (Ret true, mkWorld Sample.installed ["y"] ["k3f9"],
   [(nl ++ Str.times "=" 50)%string; "Setting up linux-x64"; Str.times "=" 50;
    "  SDK already exists at: /repo/native/sdk/linux-x64";
    "  Overwrite? [y/N]: "; "  Skipping."]).
Proof.
  eapply (declined_overwrite_keeps_install Sample.tools Sample.config0
            "linux-x64" _ _ (mkWorld Sample.installed [" N "; "y"] ["k3f9"])
            " N " ["y"]).
  - reflexivity.
  - reflexivity.
  - reflexivity.
  - vm_compute. discriminate.
Defined.

(** An answer wrapped in white space beyond ASCII is still the answer: a
    no-break space (U+00A0) before [y] and an ideographic space (U+3000) and a
    line separator (U+2028) around [Y] are stripped, so both confirm the
    overwrite, as they do for [str.strip()]. *)
Lemma unicode_space_around_answer :
  Str.lower (Str.strip
    (String (ascii_of_nat 194) (String (ascii_of_nat 160) "y"))) = "y" /\
  Str.lower (Str.strip
    (String (ascii_of_nat 227) (String (ascii_of_nat 128) (String (ascii_of_nat 128)
      (String "Y" (String (ascii_of_nat 226) (String (ascii_of_nat 128)
        (String (ascii_of_nat 168) EmptyString)))))))) = "y" /\
  Str.strip " a b " = "a b".
Proof. repeat split; reflexivity. Qed.

Lemma with_TemporaryDirectory_run {A} C (body : path -> M A) w tmp w1 o :
  mkdtemp C w = (Ret tmp, w1, o) ->
  with_TemporaryDirectory C body w =
  (result_of (body tmp) w1, cleanup tmp (world_of (body tmp) w1),
   o ++ output_of (body tmp) w1).
Proof.
  intros H. unfold with_TemporaryDirectory. rewrite H, (run_eta (body tmp) w1).
  reflexivity.
Qed.

(** Past the overwrite check, [setup_platform] answers what its [with] block
    answers and leaves the world the block leaves. *)
Lemma setup_platform_proceeds E C platform config archive_path w w0 o0 :
  Dict.get platform PLATFORMS = Some config ->
  check_existing (SDK_DIR C ++ [platform]) (test_file config) w = (Ret true, w0, o0) ->
  let block :=
    with_TemporaryDirectory C
      (install_from E archive_path (SDK_DIR C ++ [platform]) (test_file config)) in
  result_of (setup_platform E C platform archive_path) w = result_of block w0 /\
  world_of (setup_platform E C platform archive_path) w = world_of block w0.
Proof.
  intros Hcfg Hcheck block.
  assert (Hr : result_of (check_existing (SDK_DIR C ++ [platform])
                            (test_file config)) w = Ret true)
    by (unfold result_of; rewrite Hcheck; reflexivity).
  assert (Hw : world_of (check_existing (SDK_DIR C ++ [platform])
                           (test_file config)) w = w0)
    by (unfold world_of; rewrite Hcheck; reflexivity).
  unfold setup_platform. rewrite Hcfg. run. rewrite Hr. cbv beta iota.
  rewrite Hw. cbn [negb]. run. fold block.
  destruct (result_of block w0) as [[|]|e]; cbn [negb]; run; split; reflexivity.
Qed.

Lemma check_existing_absent target_dir test_file w :
  FS.exists_ (target_dir ++ test_file) (fs w) = false ->
  check_existing target_dir test_file w = (Ret true, w, []).
Proof.
  intros H. unfold check_existing, bind, gets, ret. rewrite H. reflexivity.
Qed.

(** C7. Once [setup_platform] has passed the overwrite check and drawn its
    scratch directory, that directory (which did not exist before and exists
    during the extraction) no longer exists in the world [setup_platform]
    leaves, whatever the outcome: a successful install, a failed extraction,
    an SDK root that is not found, or an exception. *)
Theorem scratch_directory_removed (E : env) (C : config) (platform : string)
  (config : platform_config) (archive_path : path)
  (w w0 w1 : world) (o0 o1 : list string) (tmp : path) :
  Dict.get platform PLATFORMS = Some config ->
  check_existing (SDK_DIR C ++ [platform]) (test_file config) w = (Ret true, w0, o0) ->
  mkdtemp C w0 = (Ret tmp, w1, o1) ->
  FS.exists_ tmp (fs w0) = false /\
  FS.is_dir tmp (fs w1) = true /\
  FS.exists_ tmp (fs (world_of (setup_platform E C platform archive_path) w)) = false.
Proof.
  intros Hcfg Hcheck Hmk.
  destruct (setup_platform_proceeds E C _ _ archive_path _ _ _ Hcfg Hcheck) as [_ ->].
  unfold world_of at 1. rewrite (with_TemporaryDirectory_run _ _ _ _ _ _ Hmk).
  cbn [fst snd].
  apply mkdtemp_spec in Hmk. destruct Hmk as ([r ->] & Hfresh & Hd & Hfs & _).
  split; [exact Hfresh|]. split.
  - rewrite Hfs. unfold FS.is_dir.
    rewrite <- (app_nil_r (TMPDIR C ++ _)) at 1.
    rewrite lookup_put_at by exact Hd. reflexivity.
  - apply cleanup_removes. apply tmp_not_nil.
Qed.

(** C1, as the code has it: linux-x64 is installed, the operator confirms the
    overwrite and the archive is a [.tar.gz]; the install fails on the format,
    after the target directory has been deleted. *)
Lemma unknown_format_after_overwrite_counterexample :
  let w := mkWorld Sample.installed ["y"] ["k3f9"] in
  let run := setup_platform Sample.tools Sample.config0 "linux-x64"
               (Sample.downloads ++ ["ultralight-sdk.tar.gz"]) in
  Str.suffix "ultralight-sdk.tar.gz" = ".gz" /\
  FS.is_dir ["repo"; "native"; "sdk"; "linux-x64"] (fs w) = true /\
  result_of run w = Ret false /\
  In "  Unknown archive format: .gz" (output_of run w) /\
  FS.exists_ ["repo"; "native"; "sdk"; "linux-x64"] (fs (world_of run w)) = false.
Proof.
  cbv zeta. repeat split; try reflexivity.
  vm_compute. tauto.
Qed.

(** C1, amended.  For an archive whose extension is neither [.7z] nor [.zip]
    and a platform whose target directory does not hold the marker file (so
    that no overwrite prompt is issued), [setup_platform], once its scratch
    directory is drawn, prints the format error and returns [False]; the file
    system it leaves is identical to the one it found, and no line of input is
    consumed. *)
Theorem unknown_format_leaves_disk_untouched (E : env) (C : config)
  (platform : string) (config : platform_config) (archive_path : path)
  (w w1 : world) (o1 : list string) (tmp : path) :
  Dict.get platform PLATFORMS = Some config ->
  Str.suffix (FS.name archive_path) <> ".7z" ->
  Str.suffix (FS.name archive_path) <> ".zip" ->
  FS.exists_ ((SDK_DIR C ++ [platform]) ++ test_file config) (fs w) = false ->
  mkdtemp C w = (Ret tmp, w1, o1) ->
  setup_platform E C platform archive_path w =
  (Ret false, mkWorld (fs w) (stdin w) (rng w1),
   [(nl ++ Str.times "=" 50)%string; ("Setting up " ++ platform)%string;
    Str.times "=" 50;
    ("  Extracting: " ++ FS.name archive_path)%string;
    ("  Unknown archive format: " ++ Str.suffix (FS.name archive_path))%string]).
Proof.
  intros Hcfg H7z Hzip Hmarker Hmk.
  apply String.eqb_neq in H7z, Hzip.
  unfold setup_platform. rewrite Hcfg.
  unfold bind at 1 2 3 4. unfold print at 1 2 3.
  rewrite (check_existing_absent _ _ _ Hmarker). cbn [negb].
  unfold bind at 1. rewrite (with_TemporaryDirectory_run _ _ _ _ _ _ Hmk).
  assert (Hbody : install_from E archive_path (SDK_DIR C ++ [platform])
                    (test_file config) tmp w1 =
                  (Ret false, w1,
                   [("  Extracting: " ++ FS.name archive_path)%string;
                    ("  Unknown archive format: "
                     ++ Str.suffix (FS.name archive_path))%string])).
  { unfold install_from, extract_archive, bind, print, ret.
    rewrite H7z, Hzip. reflexivity. }
  unfold result_of, world_of, output_of. rewrite Hbody. cbn [fst snd negb ret].
  apply mkdtemp_spec in Hmk. destruct Hmk as ([r ->] & Hfresh & Hd & Hfs & Hin & ->).
  assert (Hclean : cleanup (TMPDIR C ++ [("tmp" ++ r)%string]) w1 =
                   mkWorld (fs w) (stdin w) (rng w1)).
  { unfold cleanup, FS.exists_. rewrite Hfs.
    rewrite <- (app_nil_r (TMPDIR C ++ _)) at 1.
    rewrite lookup_put_at by exact Hd. cbn [FS.lookup].
    unfold set_fs. rewrite rm_put_fresh by (apply tmp_not_nil || exact Hfresh).
    rewrite Hin. reflexivity. }
  rewrite Hclean. reflexivity.
Qed.

Lemma unknown_format_leaves_disk_untouched_witness :
  setup_platform Sample.tools Sample.config0 "linux-x64"
    (Sample.downloads ++ ["ultralight-sdk.tar.gz"])
    (mkWorld Sample.workstation [] ["k3f9"]) =
  (Ret false, mkWorld Sample.workstation [] [],
   [(nl ++ Str.times "=" 50)%string; "Setting up linux-x64"; Str.times "=" 50;
    "  Extracting: ultralight-sdk.tar.gz"; "  Unknown archive format: .gz"]).
Proof.
  refine (unknown_format_leaves_disk_untouched Sample.tools Sample.config0
            "linux-x64" _ (Sample.downloads ++ ["ultralight-sdk.tar.gz"])
            (mkWorld Sample.workstation [] ["k3f9"])
            (world_of (mkdtemp Sample.config0)
                      (mkWorld Sample.workstation [] ["k3f9"]))
            [] ["tmp"; "tmpk3f9"] eq_refl _ _ eq_refl eq_refl);
    vm_compute; discriminate.
Defined.

Lemma scratch_directory_removed_witness :
  let w := mkWorld Sample.workstation [] ["k3f9"] in
  FS.exists_ ["tmp"; "tmpk3f9"] (fs w) = false /\
  FS.is_dir ["tmp"; "tmpk3f9"]
    (fs (world_of (mkdtemp Sample.config0) w)) = true /\
  FS.exists_ ["tmp"; "tmpk3f9"]
    (fs (world_of (setup_platform Sample.tools Sample.config0 "linux-x64"
                     (Sample.downloads ++ [Sample.sdk_1_4])) w)) = false.
Proof.
  cbv zeta.
  eapply (scratch_directory_removed Sample.tools Sample.config0 "linux-x64" _
            (Sample.downloads ++ [Sample.sdk_1_4])
            (mkWorld Sample.workstation [] ["k3f9"])).
  - reflexivity.
  - reflexivity.
  - reflexivity.
Defined.

(** ** The archive assignment *)

Section Assignment.

Variables (C : config) (t : node).

Lemma manual_overrides_get a platform :
  Dict.get platform (manual_overrides a) = explicit a platform.
Proof.
  unfold manual_overrides, explicit.
  destruct (win a), (linux a), (mac a), (mac_arm64 a); cbn;
    repeat match goal with
      | |- context [String.eqb platform ?s] =>
          let E := fresh "E" in
          destruct (String.eqb platform s) eqn:E;
          [apply String.eqb_eq in E; subst platform; cbn | ]
      end;
    reflexivity.
Qed.

Lemma manual_overrides_nodup a : NoDup (map fst (manual_overrides a)).
Proof.
  unfold manual_overrides.
  destruct (win a), (linux a), (mac a), (mac_arm64 a); cbn;
    repeat constructor; cbn; intuition discriminate.
Qed.

Lemma merge_found_get found archives k :
  Dict.get k (merge_found found archives) =
  match Dict.get k archives with
  | Some v => Some v
  | None => Dict.get k found
  end.
Proof.
  unfold merge_found. revert archives.
  induction found as [|[j v] found IH]; intros archives; simpl.
  - destruct (Dict.get k archives); reflexivity.
  - rewrite IH. unfold Dict.mem.
    destruct (Dict.get j archives) eqn:Hj.
    + destruct (Dict.get k archives) eqn:Hk; [reflexivity|].
      destruct (String.eqb k j) eqn:Hkj; [|reflexivity].
      apply String.eqb_eq in Hkj. congruence.
    + destruct (String.eqb k j) eqn:Hkj.
      * apply String.eqb_eq in Hkj. subst j.
        rewrite dict_get_set_same, Hj. reflexivity.
      * apply String.eqb_neq in Hkj.
        rewrite dict_get_set_other by congruence. reflexivity.
Qed.

Lemma merge_found_nodup found archives :
  NoDup (map fst archives) -> NoDup (map fst (merge_found found archives)).
Proof.
  unfold merge_found. revert archives.
  induction found as [|[j v] found IH]; intros archives Hnd; simpl; [exact Hnd|].
  apply IH. destruct (Dict.mem j archives); [exact Hnd|].
  apply dict_set_nodup. exact Hnd.
Qed.

Let search (archives : archives_t) (dirs : list path) : archives_t :=
  fold_left (fun acc search_dir => merge_found (find_archives t search_dir) acc)
            dirs archives.

Lemma search_get dirs archives k :
  Dict.get k (search archives dirs) =
  first_some (Dict.get k archives ::
              map (fun d => Dict.get k (find_archives t d)) dirs).
Proof.
  unfold search. revert archives.
  induction dirs as [|d dirs IH]; intros archives; simpl.
  - destruct (Dict.get k archives); reflexivity.
  - rewrite IH. simpl. rewrite merge_found_get.
    destruct (Dict.get k archives); reflexivity.
Qed.

Lemma search_nodup dirs archives :
  NoDup (map fst archives) -> NoDup (map fst (search archives dirs)).
Proof.
  unfold search. revert archives.
  induction dirs as [|d dirs IH]; intros archives Hnd; simpl; [exact Hnd|].
  apply IH. apply merge_found_nodup. exact Hnd.
Qed.

Lemma first_some_all_none {A} (l : list (option A)) :
  (forall x, In x l -> x = None) -> first_some l = None.
Proof.
  induction l as [|[x|] l IH]; intros H; simpl.
  - reflexivity.
  - discriminate (H (Some x) (or_introl eq_refl)).
  - apply IH. intros x Hx. apply H. right. exact Hx.
Qed.

Lemma dict_get_in {V} k (v : V) d : Dict.get k d = Some v -> In (k, v) d.
Proof.
  induction d as [|[j u] d IH]; simpl; [discriminate|].
  destruct (String.eqb k j) eqn:Hkj.
  - apply String.eqb_eq in Hkj. intros [= ->]. left. congruence.
  - intros H. right. apply IH. exact H.
Qed.

Lemma dict_in_get {V} k (v : V) d :
  NoDup (map fst d) -> In (k, v) d -> Dict.get k d = Some v.
Proof.
  induction d as [|[j u] d IH]; cbn [map fst In Dict.get]; [contradiction|].
  intros Hnd Hin. inversion Hnd as [|? ? Hj Hnd']; subst.
  destruct Hin as [[= -> ->] | Hin].
  - rewrite String.eqb_refl. reflexivity.
  - destruct (String.eqb k j) eqn:Hkj; [|apply IH; assumption].
    apply String.eqb_eq in Hkj. subst j.
    exfalso. apply Hj. apply (in_map fst) in Hin. exact Hin.
Qed.

Lemma collect_archives_get a platform :
  Dict.get platform (collect_archives C a t) =
  first_some (explicit a platform ::
              map (fun d => Dict.get platform (find_archives t d))
                  (search_dirs C a)).
Proof.
  unfold collect_archives.
  destruct (List.length (manual_overrides a) <? List.length PLATFORMS)%nat eqn:Hlen.
  - fold (search (manual_overrides a) (search_dirs C a)).
    rewrite search_get, manual_overrides_get. reflexivity.
  - rewrite <- manual_overrides_get. simpl.
    destruct (Dict.get platform (manual_overrides a)) eqn:Hget; [reflexivity|].
    symmetry. apply first_some_all_none. intros x Hx.
    apply in_map_iff in Hx. destruct Hx as (d & <- & _).
    apply find_archives_get_unknown.
    rewrite manual_overrides_get in Hget. revert Hlen Hget.
    unfold manual_overrides, explicit.
    destruct (win a), (linux a), (mac a), (mac_arm64 a); cbn;
      try discriminate.
    intros _.
    destruct (String.eqb platform "win-x64") eqn:E1; [discriminate|].
    destruct (String.eqb platform "linux-x64") eqn:E2; [discriminate|].
    destruct (String.eqb platform "mac-x64") eqn:E3; [discriminate|].
    destruct (String.eqb platform "mac-arm64") eqn:E4; [discriminate|].
    intros _. apply String.eqb_neq in E1, E2, E3, E4.
    intuition congruence.
Qed.

Lemma collect_archives_nodup a : NoDup (map fst (collect_archives C a t)).
Proof.
  unfold collect_archives. destruct (_ <? _)%nat.
  - apply (search_nodup (search_dirs C a)). apply manual_overrides_nodup.
  - apply manual_overrides_nodup.
Qed.

End Assignment.

(** C4. The archive assignment binds each platform at most once.  The path a
    platform ends up with is the one of the first source that offers one, the
    sources being, in order, the platform's command-line flag and then the
    search directories in their fixed order: a flag is never displaced by a
    discovery, nor an earlier directory by a later one.  In particular a
    [--win] path is the one handed to the installer for win-x64, whatever
    Windows archives the search directories contain. *)
Theorem archive_assignment_precedence (C : config) (a : args) (t : node) :
  NoDup (map fst (collect_archives C a t)) /\
  (forall platform,
     Dict.get platform (collect_archives C a t) =
     first_some (explicit a platform ::
                 map (fun d => Dict.get platform (find_archives t d))
                     (search_dirs C a))) /\
  (forall platform p,
     explicit a platform = Some p ->
     Dict.get platform (collect_archives C a t) = Some p) /\
  (forall p,
     win a = Some p ->
     In ("win-x64", p) (collect_archives C a t) /\
     forall p', In ("win-x64", p') (collect_archives C a t) -> p' = p).
Proof.
  pose proof (collect_archives_nodup C t a) as Hnd.
  pose proof (collect_archives_get C t a) as Hget.
  split; [exact Hnd|]. split; [exact Hget|]. split.
  - intros platform p Hp. rewrite Hget, Hp. reflexivity.
  - intros p Hp.
    assert (Hwin : Dict.get "win-x64" (collect_archives C a t) = Some p)
      by (rewrite Hget; unfold explicit; simpl; rewrite Hp; reflexivity).
    split; [apply dict_get_in; exact Hwin|].
    intros p' Hin. apply (dict_in_get _ _ _ Hnd) in Hin. congruence.
Qed.

(** ** The run as a whole *)

Section Main.

Variables (E : env) (C : config).

Lemma status_report_quiet yes no w :
  result_of (status_report C yes no) w = Ret tt /\
  world_of (status_report C yes no) w = w.
Proof.
  unfold status_report. apply for_each_quiet.
  intros pc w'. run. split; reflexivity.
Qed.

Lemma install_all_head platform archive_path archives success w e :
  result_of (setup_platform E C platform archive_path) w = Raise e ->
  result_of (install_all E C ((platform, archive_path) :: archives) success) w =
    Raise e /\
  world_of (install_all E C ((platform, archive_path) :: archives) success) w =
    world_of (setup_platform E C platform archive_path) w.
Proof.
  intros H. cbn [install_all]. rewrite result_bind, world_bind, H.
  split; reflexivity.
Qed.

(** The flag [install_all] returns is the conjunction of the installs'
    answers; an exception leaves it unanswered. *)
Lemma install_all_outcomes archives success w :
  match result_of (install_all E C archives success) w with
  | Ret b => b = success && forallb succeeded (outcomes E C archives w) /\
             List.length (outcomes E C archives w) = List.length archives
  | Raise e => In (Raise e) (outcomes E C archives w)
  end.
Proof.
  revert success w.
  induction archives as [|[platform archive_path] archives IH]; intros success w.
  - cbn. rewrite andb_true_r. auto.
  - cbn [install_all outcomes]. rewrite result_bind.
    destruct (result_of (setup_platform E C platform archive_path) w) as [ok|e].
    + specialize (IH (if negb ok then false else success)
                     (world_of (setup_platform E C platform archive_path) w)).
      destruct (result_of (install_all E C archives _) _) as [b|e].
      * destruct IH as [-> Hlen]. cbn [forallb succeeded List.length].
        rewrite Hlen. split; [|reflexivity].
        destruct ok, success; reflexivity.
      * right. exact IH.
    + left. reflexivity.
Qed.

(** Without [--list] and with something to install, [main] answers what the
    install loop answers. *)
Lemma main_result a w :
  list_ a = false ->
  collect_archives C a (fs w) <> [] ->
  result_of (main E C a) w =
  match result_of (install_all E C (collect_archives C a (fs w)) true) w with
  | Ret success => Ret (if success then 0%Z else 1%Z)
  | Raise e => Raise e
  end.
Proof.
  intros Hlist Hne. unfold main. run.
  destruct (status_report_quiet "✓ Installed" "✗ Not found" w) as [-> ->].
  cbv beta iota. rewrite Hlist. run.
  destruct (collect_archives C a (fs w)) as [|kv archives] eqn:Hc; [congruence|].
  run.
  match goal with
  | |- context [for_each ?l ?body] =>
      destruct (for_each_quiet l body w) as [-> ->];
      [intros x w'; split; reflexivity|]
  end.
  cbv beta iota.
  destruct (result_of (install_all E C (kv :: archives) true) w) as [b|e];
    [|reflexivity].
  run.
  match goal with
  | |- context [status_report C ?y ?n] =>
      destruct (status_report_quiet y n
                  (world_of (install_all E C (kv :: archives) true) w)) as [Hr Hw];
      rewrite Hr; rewrite ?Hw
  end.
  run. reflexivity.
Qed.

Lemma main_list a w : list_ a = true -> result_of (main E C a) w = Ret 0%Z.
Proof.
  intros Hlist. unfold main. run.
  destruct (status_report_quiet "✓ Installed" "✗ Not found" w) as [-> ->].
  cbv beta iota. rewrite Hlist. reflexivity.
Qed.

Lemma main_nothing a w :
  list_ a = false -> collect_archives C a (fs w) = [] ->
  result_of (main E C a) w = Ret 1%Z.
Proof.
  intros Hlist Hnone. unfold main. run.
  destruct (status_report_quiet "✓ Installed" "✗ Not found" w) as [-> ->].
  cbv beta iota. rewrite Hlist. run. rewrite Hnone. run. reflexivity.
Qed.

End Main.

(** C3, as the code has it: with [--list] on a machine where no archive is
    given and none can be found, the run exits with status 0. *)
Lemma list_run_exit_status_counterexample :
  manual_overrides Sample.list_flag = [] /\
  collect_archives Sample.config0 Sample.list_flag Sample.bare = [] /\
  exit_status (result_of (main Sample.tools Sample.config0 Sample.list_flag)
                         (mkWorld Sample.bare [] [])) = 0%Z.
Proof. repeat split; reflexivity. Qed.

(** C3, amended.  With [--list] the exit status is 0.  Without it, the exit
    status is 0 or 1, and it is 0 exactly when at least one platform was
    assigned an archive, every assigned platform was attempted, and every
    attempt returned [True]; so it is 1 when an attempted install returned
    [False] or raised, and when no archive was found or given.  Platforms
    without an archive are not attempted and do not count. *)
Theorem exit_status_reflects_installs (E : env) (C : config) (a : args) (w : world) :
  (list_ a = true -> exit_status (result_of (main E C a) w) = 0%Z) /\
  (list_ a = false ->
   (exit_status (result_of (main E C a) w) = 0%Z \/
    exit_status (result_of (main E C a) w) = 1%Z) /\
   (exit_status (result_of (main E C a) w) = 0%Z <->
    collect_archives C a (fs w) <> [] /\
    List.length (outcomes E C (collect_archives C a (fs w)) w) =
      List.length (collect_archives C a (fs w)) /\
    forall r, In r (outcomes E C (collect_archives C a (fs w)) w) -> r = Ret true)).
Proof.
  split.
  - intros Hlist. rewrite main_list by exact Hlist. reflexivity.
  - intros Hlist.
    destruct (collect_archives C a (fs w)) as [|kv archives] eqn:Hc.
    + rewrite main_nothing by assumption. cbn [exit_status].
      split; [right; reflexivity|]. split; [discriminate|].
      intros [Hne _]. congruence.
    + rewrite main_result by (assumption || congruence). rewrite Hc.
      pose proof (install_all_outcomes E C (kv :: archives) true w) as Hout.
      destruct (result_of (install_all E C (kv :: archives) true) w) as [b|e].
      * destruct Hout as [-> Hlen]. cbn [andb exit_status].
        destruct (forallb succeeded (outcomes E C (kv :: archives) w)) eqn:Hall.
        -- split; [left; reflexivity|]. split; [|reflexivity].
           intros _. split; [discriminate|]. split; [exact Hlen|].
           intros r Hr. rewrite forallb_forall in Hall. specialize (Hall r Hr).
           destruct r as [[|]|e]; try discriminate. reflexivity.
        -- split; [right; reflexivity|]. split; [discriminate|].
           intros (_ & _ & Hok). exfalso.
           assert (forallb succeeded (outcomes E C (kv :: archives) w) = true);
             [|congruence].
           apply forallb_forall. intros r Hr. rewrite (Hok r Hr). reflexivity.
      * cbn [exit_status]. split; [right; reflexivity|]. split; [discriminate|].
        intros (_ & _ & Hok). discriminate (Hok _ Hout).
Qed.

Lemma exit_status_reflects_installs_witness :
  exit_status (result_of (main Sample.tools Sample.config0 Sample.list_flag)
                         (mkWorld Sample.workstation [] [])) = 0%Z /\
  exit_status (result_of (main Sample.tools Sample.config0 Sample.no_flags)
                         (mkWorld Sample.workstation [] ["k3f9"])) = 0%Z /\
  exit_status (result_of (main Sample.tools Sample.config0 Sample.no_flags)
                         (mkWorld Sample.bare [] ["k3f9"])) = 1%Z.
Proof.
  split; [|split].
  - apply (proj1 (exit_status_reflects_installs Sample.tools Sample.config0
                    Sample.list_flag (mkWorld Sample.workstation [] []))).
    reflexivity.
  - apply (proj2 (proj2 (exit_status_reflects_installs Sample.tools
                           Sample.config0 Sample.no_flags
                           (mkWorld Sample.workstation [] ["k3f9"])) eq_refl)).
    split; [vm_compute; discriminate|]. split; [reflexivity|].
    vm_compute. intros r [<- | []]. reflexivity.
  - destruct (proj1 (proj2 (exit_status_reflects_installs Sample.tools
                              Sample.config0 Sample.no_flags
                              (mkWorld Sample.bare [] ["k3f9"])) eq_refl))
      as [H | H]; [|exact H].
    apply (proj2 (proj2 (exit_status_reflects_installs Sample.tools
                           Sample.config0 Sample.no_flags
                           (mkWorld Sample.bare [] ["k3f9"])) eq_refl)) in H.
    destruct H as [H _]. exfalso. apply H. reflexivity.
Defined.

(** C9. For a [.zip] archive [extract_archive] never returns [False]: it
    returns [True] or raises.  Nothing catches what it raises: the exception
    leaves [setup_platform] (whose scratch directory is still cleaned up),
    leaves the install loop without any later platform being attempted, and
    leaves [main], so that the whole run ends with it. *)
Theorem zip_failure_is_fatal (E : env) (C : config) (archive_path : path) :
  Str.suffix (FS.name archive_path) = ".zip" ->
  (forall dest_dir w,
     result_of (extract_archive E archive_path dest_dir) w = Ret true \/
     exists e, result_of (extract_archive E archive_path dest_dir) w = Raise e) /\
  (forall platform config w w0 o0 tmp w1 o1 e,
     Dict.get platform PLATFORMS = Some config ->
     check_existing (SDK_DIR C ++ [platform]) (test_file config) w =
       (Ret true, w0, o0) ->
     mkdtemp C w0 = (Ret tmp, w1, o1) ->
     result_of (extract_archive E archive_path tmp) w1 = Raise e ->
     result_of (setup_platform E C platform archive_path) w = Raise e) /\
  (forall platform archives success w e,
     result_of (setup_platform E C platform archive_path) w = Raise e ->
     result_of (install_all E C ((platform, archive_path) :: archives) success) w =
       Raise e /\
     world_of (install_all E C ((platform, archive_path) :: archives) success) w =
       world_of (setup_platform E C platform archive_path) w) /\
  (forall a w e,
     list_ a = false ->
     collect_archives C a (fs w) <> [] ->
     result_of (install_all E C (collect_archives C a (fs w)) true) w = Raise e ->
     result_of (main E C a) w = Raise e).
Proof.
  intros Hzip. split; [|split; [|split]].
  - intros dest_dir w. unfold extract_archive. rewrite Hzip. cbn [String.eqb Ascii.eqb Bool.eqb].
    run.
    destruct (result_of (mkdir_parents dest_dir) w) as [[]|e]; [|eauto].
    run.
    destruct (snd (unzip E archive_path (fs (world_of (mkdir_parents dest_dir) w))))
      as [e|]; run; eauto.
  - intros platform config w w0 o0 tmp w1 o1 e Hcfg Hcheck Hmk Hraise.
    rewrite (proj1 (setup_platform_proceeds E C _ _ archive_path _ _ _ Hcfg Hcheck)).
    unfold result_of at 1. rewrite (with_TemporaryDirectory_run _ _ _ _ _ _ Hmk).
    cbn [fst]. unfold install_from. rewrite result_bind, Hraise. reflexivity.
  - intros platform archives success w e. apply install_all_head.
  - intros a w e Hlist Hne Hraise. rewrite main_result by assumption.
    rewrite Hraise. reflexivity.
Qed.

Lemma zip_failure_is_fatal_witness :
  let a := mkArgs "setup-sdk.py" None
             (Some ["home"; "dev"; "vendor"; "custom-windows-build.zip"])
             (Some (Sample.downloads ++ [Sample.sdk_1_4])) None None false in
  let w := mkWorld Sample.workstation [] ["k3f9"; "x2b7"] in
  (result_of (extract_archive Sample.tools_bad_zip
                ["home"; "dev"; "vendor"; "custom-windows-build.zip"]
                ["tmp"; "tmpk3f9"]) w = Ret true \/
   exists e, result_of (extract_archive Sample.tools_bad_zip
                ["home"; "dev"; "vendor"; "custom-windows-build.zip"]
                ["tmp"; "tmpk3f9"]) w = Raise e) /\
  result_of (main Sample.tools_bad_zip Sample.config0 a) w =
    Raise (ZipError "File is not a zip file") /\
  FS.exists_ ["repo"; "native"; "sdk"; "linux-x64"]
    (fs (world_of (main Sample.tools_bad_zip Sample.config0 a) w)) = false.
Proof.
  cbv zeta. split; [|split].
  - apply (proj1 (zip_failure_is_fatal Sample.tools_bad_zip Sample.config0
                    ["home"; "dev"; "vendor"; "custom-windows-build.zip"] eq_refl)).
  - apply (proj2 (proj2 (proj2 (zip_failure_is_fatal Sample.tools_bad_zip
                    Sample.config0
                    ["home"; "dev"; "vendor"; "custom-windows-build.zip"] eq_refl)))).
    + reflexivity.
    + vm_compute. discriminate.
    + reflexivity.
  - reflexivity.
Defined.

Lemma archive_assignment_precedence_witness :
  Dict.get "win-x64" (find_archives Sample.with_windows Sample.downloads) =
    Some (Sample.downloads ++ ["ultralight-sdk-1.4.0-win-x64.7z"]) /\
  Dict.get "win-x64"
    (collect_archives Sample.config0 Sample.win_flag Sample.with_windows) =
    Some ["home"; "dev"; "vendor"; "custom-windows-build.zip"].
Proof.
  split; [reflexivity|].
  apply (proj1 (proj2 (proj2 (archive_assignment_precedence Sample.config0
                                Sample.win_flag Sample.with_windows)))).
  reflexivity.
Defined.

Lemma find_archives_priority_witness :
  Dict.get "linux-x64" (find_archives Sample.workstation Sample.downloads) =
  Some (Sample.downloads ++ ["ultralight-sdk-1.4.0-linux-x64.7z"]).
Proof.
  apply (proj2 (find_archives_priority Sample.workstation Sample.downloads)).
  intros x. vm_compute. intuition congruence.
Defined.

(** ** What an update leaves alone *)

Section Frames.
Import FS FSFacts.

Lemma exists_kind q t :
  exists_ q t = match kind_at q t with Some _ => true | None => false end.
Proof. unfold exists_, kind_at. destruct (lookup q t); reflexivity. Qed.

Lemma is_dir_kind q t :
  is_dir q t = match kind_at q t with Some true => true | _ => false end.
Proof. unfold is_dir, kind_at. destruct (lookup q t) as [[d|es]|]; reflexivity. Qed.

Lemma is_Dir_alter r f c :
  (forall c', is_Dir (f c') = is_Dir c') -> is_Dir (alter r f c) = is_Dir c.
Proof.
  intros Hf. destruct r as [|n r]; simpl; [apply Hf|].
  destruct c; reflexivity.
Qed.

Lemma prefix_either p q :
  prefix p q = true \/ (exists r, p = q ++ r) \/
  (prefix p q = false /\ prefix q p = false).
Proof.
  destruct (prefix p q) eqn:Hpq; [auto|].
  destruct (prefix q p) eqn:Hqp; [|auto].
  right. left. apply prefix_inv. exact Hqp.
Qed.

(** An update at [P] that keeps kinds changes the kind found at [q] only if
    [q] lies below [P] and the update changes it there. *)
Lemma kind_alter P f q t :
  (forall c, is_Dir (f c) = is_Dir c) ->
  (forall r c, q = P ++ r -> lookup P t = Some c ->
               option_map is_Dir (lookup r (f c)) = option_map is_Dir (lookup r c)) ->
  kind_at q (alter P f t) = kind_at q t.
Proof.
  intros Hkind Hbelow. unfold kind_at.
  destruct (prefix_either P q) as [Hpq | [[r ->] | [Hpq Hqp]]].
  - apply prefix_inv in Hpq. destruct Hpq as [r ->].
    rewrite lookup_alter_below, lookup_app.
    destruct (lookup P t) as [c|] eqn:Hc; [|reflexivity].
    apply (Hbelow r c); reflexivity.
  - rewrite lookup_alter_above. destruct (lookup q t) as [c|]; simpl; [|reflexivity].
    rewrite is_Dir_alter by exact Hkind. reflexivity.
  - rewrite lookup_alter_apart by assumption. reflexivity.
Qed.

Lemma is_Dir_write_members ms c : is_Dir (write_members ms c) = is_Dir c.
Proof.
  unfold write_members. revert c.
  induction ms as [|m ms IH]; intros c; simpl; [reflexivity|].
  rewrite IH. destruct c; reflexivity.
Qed.

(** Extraction into [dest] keeps the kind of everything outside [dest], and of
    [dest] itself. *)
Lemma kind_extract dest ms q t :
  prefix dest q = false \/ q = dest ->
  kind_at q (alter dest (write_members ms) t) = kind_at q t.
Proof.
  intros Hq. apply kind_alter; [apply is_Dir_write_members|].
  intros r c -> _. destruct Hq as [Hq | Hq].
  - rewrite prefix_app in Hq. discriminate.
  - rewrite <- (app_nil_r dest) in Hq at 2. apply app_inv_head in Hq. subst r.
    simpl. rewrite is_Dir_write_members. reflexivity.
Qed.

Lemma prefix_snoc_tail P n r : prefix (P ++ [n]) (P ++ r) = prefix [n] r.
Proof.
  induction P as [|a P IH]; [reflexivity|].
  simpl. rewrite String.eqb_refl. exact IH.
Qed.

(** Binding or unbinding [P/n] keeps the kind of everything that is not at
    or below [P/n]. *)
Lemma kind_local P n f q t :
  (forall c, is_Dir (f c) = is_Dir c) ->
  (forall m r c, m <> n -> lookup (m :: r) (f c) = lookup (m :: r) c) ->
  prefix (P ++ [n]) q = false ->
  kind_at q (alter P f t) = kind_at q t.
Proof.
  intros Hkind Hlocal Hq. apply kind_alter; [exact Hkind|].
  intros r c -> _. rewrite prefix_snoc_tail in Hq.
  destruct r as [|m r]; simpl.
  - rewrite Hkind. reflexivity.
  - change (option_map is_Dir (lookup (m :: r) (f c)) =
            option_map is_Dir (lookup (m :: r) c)).
    rewrite Hlocal; [reflexivity|].
    intros ->. simpl in Hq. rewrite String.eqb_refl in Hq. discriminate.
Qed.

Lemma dir_put_local n v m r c :
  m <> n -> lookup (m :: r) (dir_put n v c) = lookup (m :: r) c.
Proof.
  intros Hne. destruct c as [d|es]; simpl; [reflexivity|].
  rewrite assoc_put_other by congruence. reflexivity.
Qed.

Lemma dir_rm_local n m r c :
  m <> n -> lookup (m :: r) (dir_rm n c) = lookup (m :: r) c.
Proof.
  intros Hne. destruct c as [d|es]; simpl; [reflexivity|].
  rewrite assoc_rm_other by congruence. reflexivity.
Qed.

Lemma kind_put p v q t :
  p <> [] -> prefix p q = false -> kind_at q (put p v t) = kind_at q t.
Proof.
  intros Hp Hq. rewrite (snoc_parent_name p Hp) in Hq. unfold put.
  apply (kind_local _ (name p)); [| |exact Hq].
  - intros c. destruct c; reflexivity.
  - intros m r c. apply dir_put_local.
Qed.

Lemma kind_rm p q t :
  p <> [] -> prefix p q = false -> kind_at q (rm p t) = kind_at q t.
Proof.
  intros Hp Hq. rewrite (snoc_parent_name p Hp) in Hq. unfold rm.
  apply (kind_local _ (name p)); [| |exact Hq].
  - intros c. destruct c; reflexivity.
  - intros m r c. apply dir_rm_local.
Qed.

(** Unbinding [P/n] leaves what sits beside it as it is. *)
Lemma lookup_rm_apart P n q t :
  prefix (P ++ [n]) q = false -> prefix q (P ++ [n]) = false ->
  lookup q (rm (P ++ [n]) t) = lookup q t.
Proof.
  intros Hpq Hqp. unfold rm. rewrite parent_snoc, name_snoc.
  destruct (prefix_either P q) as [H | [[r Hr] | [H1 H2]]].
  - apply prefix_inv in H. destruct H as [r ->].
    rewrite lookup_alter_below, lookup_app.
    destruct (lookup P t) as [c|]; [|reflexivity].
    rewrite prefix_snoc_tail in Hpq.
    destruct r as [|m r].
    + rewrite app_nil_r, prefix_app in Hqp. discriminate.
    + apply dir_rm_local. intros ->. simpl in Hpq.
      rewrite String.eqb_refl in Hpq. discriminate.
  - rewrite Hr, <- app_assoc, prefix_app in Hqp. discriminate.
  - apply lookup_alter_apart; assumption.
Qed.

Lemma makedirs_existing p t : is_dir p t = true -> makedirs p t = Some t.
Proof.
  revert t. induction p as [|n p IH]; intros t; unfold is_dir.
  - destruct t; simpl; [discriminate | reflexivity].
  - destruct t as [d|es]; simpl; [discriminate|].
    destruct (assoc n es) as [c|] eqn:Hn; [|discriminate].
    intros Hc. fold (is_dir p c) in Hc.
    rewrite (IH c Hc), (assoc_put_id _ _ _ Hn). reflexivity.
Qed.

Lemma prefix_snoc_self p n : prefix (p ++ [n]) p = false.
Proof.
  induction p as [|a p IH]; [reflexivity|].
  simpl. rewrite String.eqb_refl. exact IH.
Qed.

(** A prefix of [a ++ b] is a prefix of [a] or reaches into [b]. *)
Lemma prefix_of_app p a b :
  prefix p (a ++ b) = true ->
  prefix p a = true \/ exists b1 x b2, b = b1 ++ x :: b2 /\ p = a ++ b1 ++ [x].
Proof.
  revert p. induction a as [|y a IH]; intros p H.
  - destruct p as [|z p] using rev_ind; [left; reflexivity|].
    right. apply prefix_inv in H. destruct H as [r H]. simpl in H.
    exists p, z, r. split; [|reflexivity].
    rewrite H, <- app_assoc. reflexivity.
  - destruct p as [|z p]; [left; reflexivity|].
    simpl in H. apply andb_true_iff in H. destruct H as [Hzy H].
    apply String.eqb_eq in Hzy. subst z.
    destruct (IH p H) as [Hp | (b1 & x & b2 & -> & ->)].
    + left. simpl. rewrite String.eqb_refl. exact Hp.
    + right. exists b1, x, b2. split; reflexivity.
Qed.

End Frames.

(** ** Installing over a directory that is already there *)

Section Nesting.
Import FS FSFacts.

Lemma is_dir_exists p t : is_dir p t = true -> exists_ p t = true.
Proof. unfold is_dir, exists_. destruct (lookup p t) as [[d|es]|]; auto. Qed.

Lemma set_fs_same w : set_fs (fs w) w = w.
Proof. destruct w. reflexivity. Qed.

Lemma mkdir_parents_existing p w :
  is_dir p (fs w) = true -> mkdir_parents p w = (Ret tt, w, []).
Proof.
  intros H. unfold mkdir_parents. rewrite (makedirs_existing _ _ H), set_fs_same.
  reflexivity.
Qed.

Lemma write_members_nil t dest : alter dest (write_members []) t = t.
Proof. apply alter_id. Qed.

(** [extract_archive] reads no input, draws no name, and touches the file
    system only by writing members into the destination. *)
Lemma extract_archive_world E archive_path dest_dir w :
  is_dir dest_dir (fs w) = true ->
  stdin (world_of (extract_archive E archive_path dest_dir) w) = stdin w /\
  rng (world_of (extract_archive E archive_path dest_dir) w) = rng w /\
  exists ms, fs (world_of (extract_archive E archive_path dest_dir) w) =
             alter dest_dir (write_members ms) (fs w).
Proof.
  intros Hd.
  assert (Hmr : result_of (mkdir_parents dest_dir) w = Ret tt)
    by (unfold result_of; rewrite mkdir_parents_existing by exact Hd; reflexivity).
  assert (Hmw : world_of (mkdir_parents dest_dir) w = w)
    by (unfold world_of; rewrite mkdir_parents_existing by exact Hd; reflexivity).
  assert (Hsame : stdin w = stdin w /\ rng w = rng w /\
                  exists ms, fs w = alter dest_dir (write_members ms) (fs w))
    by (repeat split; exists []; symmetry; apply write_members_nil).
  unfold extract_archive. run.
  destruct (String.eqb (Str.suffix (name archive_path)) ".7z").
  - destruct (find_7z E) as [sevenz|]; run; [|exact Hsame].
    rewrite Hmr. cbv beta iota. rewrite Hmw. run.
    destruct (sevenz_x E sevenz archive_path (fs w)) as [[ms returncode] stderr].
    run. destruct (negb (returncode =? 0)%Z); run;
      (repeat split; exists ms; reflexivity).
  - destruct (String.eqb (Str.suffix (name archive_path)) ".zip"); run;
      [|exact Hsame].
    rewrite Hmr. cbv beta iota. rewrite Hmw. run.
    destruct (snd (unzip E archive_path (fs w))); run;
      (repeat split; eexists; reflexivity).
Qed.

Lemma platform_test_file platform config :
  Dict.get platform PLATFORMS = Some config -> test_file config = marker.
Proof.
  unfold PLATFORMS. cbn [Dict.get].
  repeat match goal with
    | |- context [String.eqb platform ?s] => destruct (String.eqb platform s)
    end;
    intros [= <-]; reflexivity.
Qed.

(** [shutil.move] of a directory onto an existing directory that has no entry
    of its name: the source becomes that entry. *)
Lemma move_nests src dst es w :
  lookup src (fs w) = Some (Dir es) ->
  is_dir dst (fs w) = true ->
  src <> dst ->
  exists_ (dst ++ [name src]) (fs w) = false ->
  prefix src (dst ++ [name src]) = false ->
  move src dst w =
  (Ret tt, set_fs (put (dst ++ [name src]) (Dir es) (rm src (fs w))) w, []).
Proof.
  intros Hsrc Hdst Hne Hfree Hpre. unfold move. rewrite Hsrc, Hdst.
  destruct (path_eqb src dst) eqn:Heq;
    [apply path_eqb_eq in Heq; contradiction|].
  cbn [andb]. rewrite Hfree, Hpre.
  unfold exists_ in Hfree.
  destruct (lookup (dst ++ [name src]) (fs w)); [discriminate|].
  rewrite parent_snoc, (makedirs_existing _ _ Hdst). reflexivity.
Qed.

End Nesting.

(** C10, as the code has it: [sdk/linux-x64] exists without the marker and
    already has an [ultralight-sdk] entry (a previous run left it there);
    extraction and root finding succeed, and the move raises instead of
    placing anything. *)
Lemma nested_install_collision_counterexample :
  let target_dir := ["repo"; "native"; "sdk"; "linux-x64"] in
  let archive_path := Sample.downloads ++ [Sample.sdk_1_4] in
  let w := mkWorld Sample.precreated_twice [] ["k3f9"] in
  let w1 := world_of (mkdtemp Sample.config0) w in
  let w2 := world_of (extract_archive Sample.tools archive_path ["tmp"; "tmpk3f9"]) w1 in
  let run := setup_platform Sample.tools Sample.config0 "linux-x64" archive_path in
  FS.is_dir target_dir (fs w) = true /\
  FS.exists_ (target_dir ++ marker) (fs w) = false /\
  result_of (extract_archive Sample.tools archive_path ["tmp"; "tmpk3f9"]) w1 =
    Ret true /\
  find_sdk_root (fs w2) ["tmp"; "tmpk3f9"] =
    Ret (Some ["tmp"; "tmpk3f9"; "ultralight-sdk"]) /\
  result_of run w = Raise ShutilError /\
  fs (world_of run w) = fs w.
Proof. cbv zeta. repeat split; reflexivity. Qed.

(** C10, amended.  When the target directory of a platform exists without the
    marker file, [setup_platform] reads no answer from the operator and keeps
    the directory.  If a scratch directory is drawn, the extraction succeeds,
    the SDK root is found, and the target directory has no entry named like
    that root, then the install returns [True], the root sits in the target
    directory under its own name, with the marker below it, and the marker is
    still absent at its expected place directly under the target directory. *)
Theorem install_into_existing_directory_nests (E : env) (C : config)
  (platform : string) (config : platform_config) (archive_path : path)
  (w w1 w2 : world) (o1 o2 : list string) (tmp sdk_root : path) :
  Dict.get platform PLATFORMS = Some config ->
  FS.is_dir (SDK_DIR C ++ [platform]) (fs w) = true ->
  FS.exists_ ((SDK_DIR C ++ [platform]) ++ test_file config) (fs w) = false ->
  mkdtemp C w = (Ret tmp, w1, o1) ->
  extract_archive E archive_path tmp w1 = (Ret true, w2, o2) ->
  find_sdk_root (fs w2) tmp = Ret (Some sdk_root) ->
  FS.exists_ ((SDK_DIR C ++ [platform]) ++ [FS.name sdk_root]) (fs w2) = false ->
  result_of (setup_platform E C platform archive_path) w = Ret true /\
  stdin (world_of (setup_platform E C platform archive_path) w) = stdin w /\
  FS.is_dir (SDK_DIR C ++ [platform])
    (fs (world_of (setup_platform E C platform archive_path) w)) = true /\
  FS.lookup ((SDK_DIR C ++ [platform]) ++ [FS.name sdk_root])
    (fs (world_of (setup_platform E C platform archive_path) w)) =
    FS.lookup sdk_root (fs w2) /\
  FS.exists_ (((SDK_DIR C ++ [platform]) ++ [FS.name sdk_root]) ++ test_file config)
    (fs (world_of (setup_platform E C platform archive_path) w)) = true /\
  FS.exists_ ((SDK_DIR C ++ [platform]) ++ test_file config)
    (fs (world_of (setup_platform E C platform archive_path) w)) = false.
Proof.
  intros Hcfg Hdir Hnomarker Hmk Hext Hroot Hfree.
  rewrite (platform_test_file _ _ Hcfg) in *.
  set (target := SDK_DIR C ++ [platform]) in *.
  set (real_dst := target ++ [FS.name sdk_root]) in *.
  (* the scratch directory *)
  pose proof (mkdtemp_spec _ _ _ _ _ Hmk) as ([rnd Htmp] & Hfresh & Htd & Hfs1 & Hin1 & _).
  assert (Htmp_ne : tmp <> []) by (subst tmp; apply tmp_not_nil).
  assert (Htmp1 : FS.is_dir tmp (fs w1) = true).
  { rewrite Hfs1, Htmp. unfold FS.is_dir.
    rewrite <- (app_nil_r (TMPDIR C ++ _)) at 1.
    rewrite lookup_put_at by exact Htd. reflexivity. }
  (* the extraction *)
  assert (Hr2 : result_of (extract_archive E archive_path tmp) w1 = Ret true)
    by (unfold result_of; rewrite Hext; reflexivity).
  assert (Hw2 : world_of (extract_archive E archive_path tmp) w1 = w2)
    by (unfold world_of; rewrite Hext; reflexivity).
  destruct (extract_archive_world E archive_path tmp w1 Htmp1) as (Hin2 & _ & ms & Hfs2).
  rewrite Hw2 in Hin2, Hfs2.
  assert (K2 : forall q, FS.prefix tmp q = false -> kind_at q (fs w2) = kind_at q (fs w)).
  { intros q Hq. rewrite Hfs2, kind_extract by (left; exact Hq).
    rewrite Hfs1. apply kind_put; assumption. }
  assert (Htmp2 : FS.exists_ tmp (fs w2) = true).
  { apply is_dir_exists. rewrite is_dir_kind, Hfs2, kind_extract by (right; reflexivity).
    rewrite <- is_dir_kind. exact Htmp1. }
  (* where the scratch directory cannot be *)
  assert (Hpt : FS.prefix tmp target = false).
  { destruct (FS.prefix tmp target) eqn:H; [|reflexivity].
    apply FSFacts.prefix_inv in H. destruct H as [r Hr]. exfalso.
    apply is_dir_exists in Hdir. rewrite Hr in Hdir.
    apply FSFacts.exists_prefix in Hdir. congruence. }
  assert (Hpm : FS.prefix tmp (target ++ marker) = false).
  { destruct (FS.prefix tmp (target ++ marker)) eqn:H; [|reflexivity].
    apply prefix_of_app in H. destruct H as [H | (b1 & x & b2 & Hb & Hp)];
      [congruence|]. exfalso.
    rewrite Htmp, app_assoc in Hp. apply app_inj_tail in Hp. destruct Hp as [_ Hx].
    assert (Hin : In x marker) by (rewrite Hb; apply in_elt).
    subst x. simpl in Hin.
    destruct Hin as [H | [H | [H | []]]]; discriminate H. }
  assert (Hpr : FS.prefix tmp real_dst = false).
  { destruct (FS.prefix tmp real_dst) eqn:H; [|reflexivity].
    apply prefix_of_app in H. destruct H as [H | (b1 & x & b2 & Hb & Hp)];
      [congruence|]. exfalso.
    destruct b1 as [|y b1]; [|destruct b1; discriminate Hb].
    injection Hb as Hx _. subst x. simpl in Hp. fold real_dst in Hp.
    congruence. }
  assert (Hrp : FS.prefix real_dst tmp = false).
  { destruct (FS.prefix real_dst tmp) eqn:H; [|reflexivity].
    apply FSFacts.prefix_inv in H. destruct H as [r Hr]. exfalso.
    rewrite Hr in Htmp2. apply FSFacts.exists_prefix in Htmp2. congruence. }
  (* the SDK root *)
  pose proof (find_sdk_root_is_dir _ _ _ Hroot) as Hrd.
  pose proof (find_sdk_root_sound _ _ _ Hroot) as [Hrm Hshape].
  assert (Hps : FS.prefix tmp sdk_root = true)
    by (destruct Hshape as [-> | [(a & -> & _) | (a & b & -> & _)]];
        [apply FSFacts.prefix_refl | apply FSFacts.prefix_app ..]).
  assert (Hroot_ne : sdk_root <> [])
    by (intros ->; destruct tmp; [congruence | discriminate]).
  assert (Hbelow : forall q, FS.prefix tmp q = false -> FS.prefix sdk_root q = false).
  { intros q Hq. destruct (FS.prefix sdk_root q) eqn:H; [|reflexivity].
    rewrite (FSFacts.prefix_trans _ _ _ Hps H) in Hq. discriminate. }
  assert (Hinclude : FS.name sdk_root = "include" ->
                     FS.exists_ (sdk_root ++ ["Ultralight"; "Ultralight.h"]) (fs w2) = false).
  { intros Hn. destruct Hshape as [-> | [(a & -> & Ha) | (a & b & -> & Hab)]].
    - rewrite Htmp, FSFacts.name_snoc in Hn. discriminate.
    - rewrite FSFacts.name_snoc in Hn. subst a. rewrite <- app_assoc. exact Ha.
    - change [a; b] with ([a] ++ [b]) in Hn. rewrite app_assoc, FSFacts.name_snoc in Hn.
      subst b. change [a; "include"] with ([a] ++ ["include"]).
      rewrite <- !app_assoc in *. exact Hab. }
  unfold FS.is_dir in Hrd.
  destruct (FS.lookup sdk_root (fs w2)) as [[d|es]|] eqn:Hlook; try discriminate.
  (* the run *)
  assert (Hdir2 : FS.is_dir target (fs w2) = true)
    by (rewrite is_dir_kind, K2, <- is_dir_kind by exact Hpt; exact Hdir).
  assert (Hmv : move sdk_root target w2 =
                (Ret tt, set_fs (FS.put real_dst (Dir es) (FS.rm sdk_root (fs w2))) w2, [])).
  { apply move_nests; try assumption.
    - intros Heq. rewrite Heq in Hps. congruence.
    - apply Hbelow. exact Hpr. }
  assert (Hmk2 : mkdir_parents (FS.parent target) w2 = (Ret tt, w2, [])).
  { apply mkdir_parents_existing. unfold target. rewrite FSFacts.parent_snoc.
    apply (FSFacts.is_dir_prefix _ platform []). apply is_dir_exists. exact Hdir2. }
  assert (Hmk2r : result_of (mkdir_parents (FS.parent target)) w2 = Ret tt)
    by (unfold result_of; rewrite Hmk2; reflexivity).
  assert (Hmk2w : world_of (mkdir_parents (FS.parent target)) w2 = w2)
    by (unfold world_of; rewrite Hmk2; reflexivity).
  assert (Hmvr : result_of (move sdk_root target) w2 = Ret tt)
    by (unfold result_of; rewrite Hmv; reflexivity).
  assert (Hmvw : world_of (move sdk_root target) w2 =
                 set_fs (FS.put real_dst (Dir es) (FS.rm sdk_root (fs w2))) w2)
    by (unfold world_of; rewrite Hmv; reflexivity).
  assert (Hbody : result_of (install_from E archive_path target marker tmp) w1 =
                    Ret true /\
                  world_of (install_from E archive_path target marker tmp) w1 =
                    set_fs (FS.put real_dst (Dir es) (FS.rm sdk_root (fs w2))) w2).
  { unfold install_from. rewrite result_bind, world_bind, Hr2, Hw2. cbn [negb].
    run. rewrite Hroot. run. rewrite Hmk2r. cbv beta iota. rewrite Hmk2w.
    run. rewrite Hmvr. cbv beta iota. rewrite Hmvw. run. split; reflexivity. }
  destruct Hbody as [Hbr Hbw].
  pose proof (setup_platform_proceeds E C platform config archive_path w w []
                Hcfg) as Hgo.
  rewrite (platform_test_file _ _ Hcfg) in Hgo. fold target in Hgo.
  specialize (Hgo (check_existing_absent _ _ _ Hnomarker)).
  cbv zeta in Hgo. destruct Hgo as [-> ->].
  unfold result_of at 1, world_of at 1 2 3 4 5.
  rewrite (with_TemporaryDirectory_run _ _ _ _ _ _ Hmk).
  cbn [fst snd]. rewrite Hbr, Hbw.
  set (t3 := FS.put real_dst (Dir es) (FS.rm sdk_root (fs w2))).
  assert (Hreal_ne : real_dst <> []) by (unfold real_dst; destruct target; discriminate).
  assert (Hdir3' : FS.is_dir target (FS.rm sdk_root (fs w2)) = true).
  { rewrite is_dir_kind, kind_rm, <- is_dir_kind by (auto using Hbelow). exact Hdir2. }
  assert (K3 : forall q, FS.prefix tmp q = false -> FS.prefix real_dst q = false ->
                         kind_at q t3 = kind_at q (fs w)).
  { intros q Hq Hq'. unfold t3. rewrite kind_put, kind_rm by auto. apply K2. exact Hq. }
  assert (Hfinal : forall q, FS.prefix tmp q = false ->
             kind_at q (fs (cleanup tmp (set_fs t3 w2))) = kind_at q t3).
  { intros q Hq. unfold cleanup. cbn [fs set_fs].
    destruct (FS.exists_ tmp t3); cbn [fs set_fs]; [|reflexivity].
    apply kind_rm; assumption. }
  assert (Hlook3 : FS.lookup real_dst t3 = Some (Dir es)).
  { unfold t3, real_dst. rewrite <- (app_nil_r (target ++ _)) at 1.
    rewrite lookup_put_at by exact Hdir3'. reflexivity. }
  assert (Hlook4 : FS.lookup real_dst (fs (cleanup tmp (set_fs t3 w2))) = Some (Dir es)).
  { unfold cleanup. cbn [fs set_fs].
    destruct (FS.exists_ tmp t3); cbn [fs set_fs]; [|exact Hlook3].
    rewrite Htmp in *. rewrite lookup_rm_apart by assumption. exact Hlook3. }
  split; [reflexivity|]. split.
  { unfold cleanup. cbn [fs set_fs].
    destruct (FS.exists_ tmp t3); cbn [stdin set_fs]; congruence. }
  split.
  { rewrite is_dir_kind, Hfinal, K3, <- is_dir_kind by
      (assumption || apply prefix_snoc_self). exact Hdir. }
  split; [exact Hlook4|]. split.
  { unfold FS.exists_. rewrite FSFacts.lookup_app, Hlook4.
    unfold FS.exists_ in Hrm. rewrite FSFacts.lookup_app, Hlook in Hrm. exact Hrm. }
  rewrite exists_kind, Hfinal by exact Hpm.
  destruct (String.eqb (FS.name sdk_root) "include") eqn:Hn.
  - apply String.eqb_eq in Hn. specialize (Hinclude Hn).
    rewrite <- exists_kind. unfold FS.exists_, t3, real_dst. rewrite Hn.
    change marker with (["include"] ++ ["Ultralight"; "Ultralight.h"]).
    rewrite app_assoc, lookup_put_at by exact Hdir3'.
    unfold FS.exists_ in Hinclude. rewrite FSFacts.lookup_app, Hlook in Hinclude.
    exact Hinclude.
  - rewrite K3, <- exists_kind; [exact Hnomarker | exact Hpm |].
    unfold real_dst. rewrite prefix_snoc_tail. unfold marker. cbn [FS.prefix].
    rewrite Hn. reflexivity.
Qed.

Lemma install_into_existing_directory_nests_witness :
  result_of (setup_platform Sample.tools Sample.config0 "linux-x64"
               (Sample.downloads ++ [Sample.sdk_1_4]))
            (mkWorld Sample.precreated [] ["k3f9"]) = Ret true /\
  FS.lookup ["repo"; "native"; "sdk"; "linux-x64"; "ultralight-sdk"]
    (fs (world_of (setup_platform Sample.tools Sample.config0 "linux-x64"
                     (Sample.downloads ++ [Sample.sdk_1_4]))
                  (mkWorld Sample.precreated [] ["k3f9"]))) = Some Sample.sdk /\
  FS.exists_ (["repo"; "native"; "sdk"; "linux-x64"] ++ marker)
    (fs (world_of (setup_platform Sample.tools Sample.config0 "linux-x64"
                     (Sample.downloads ++ [Sample.sdk_1_4]))
                  (mkWorld Sample.precreated [] ["k3f9"]))) = false.
Proof.
  pose (w := mkWorld Sample.precreated [] ["k3f9"]).
  pose (archive_path := Sample.downloads ++ [Sample.sdk_1_4]).
  pose (w1 := world_of (mkdtemp Sample.config0) w).
  pose (w2 := world_of (extract_archive Sample.tools archive_path ["tmp"; "tmpk3f9"]) w1).
  destruct (install_into_existing_directory_nests Sample.tools Sample.config0
              "linux-x64"
              (mkPlatform ["*linux*x64*"; "*linux*64*"] marker
                          ["bin/*.so*"; "lib/*.so*"])
              archive_path w w1 w2 []
              (output_of (extract_archive Sample.tools archive_path
                            ["tmp"; "tmpk3f9"]) w1)
              ["tmp"; "tmpk3f9"] ["tmp"; "tmpk3f9"; "ultralight-sdk"]
              eq_refl eq_refl eq_refl eq_refl eq_refl eq_refl eq_refl)
    as (H1 & _ & _ & H4 & _ & H6).
  split; [exact H1|]. split; [exact H4 | exact H6].
Defined.

(** * Further properties of the script *)

(** ** Runs that install nothing *)

Lemma status_report_run C yes no w :
  status_report C yes no w = (Ret tt, w, status_lines C (fs w) yes no).
Proof. reflexivity. Qed.

(** X1. With [--list], [main] returns 0 and leaves the world as it found it:
    no file is touched and no input is read.  All it prints is its banner and
    one line per platform of [PLATFORMS], in order, saying "Installed" exactly
    when the marker file exists under that platform's target directory. *)
Theorem list_flag_only_reports (E : env) (C : config) (a : args) (w : world) :
  list_ a = true ->
  main E C a w = (Ret 0%Z, w, banner C (fs w)).
Proof.
  intros Hlist. unfold main, bind, print. rewrite status_report_run, Hlist.
  reflexivity.
Qed.

Lemma list_flag_only_reports_witness :
  main Sample.tools Sample.config0 Sample.list_flag
       (mkWorld Sample.installed ["y"] ["k3f9"]) =
  (Ret 0%Z, mkWorld Sample.installed ["y"] ["k3f9"],
   [Str.times "=" 60; "Ultralight SDK Setup"; Str.times "=" 60;
    (nl ++ "Current SDK status:")%string;
    "  win-x64: ✗ Not found"; "  linux-x64: ✓ Installed";
    "  mac-x64: ✗ Not found"; "  mac-arm64: ✗ Not found"]).
Proof.
  apply (list_flag_only_reports Sample.tools Sample.config0 Sample.list_flag
           (mkWorld Sample.installed ["y"] ["k3f9"])).
  reflexivity.
Defined.

(** X2. Without [--list], when no archive is given and none is found, [main]
    returns 1 and leaves the world as it found it: it prints the banner, the
    status lines and the download instructions, and neither creates nor
    changes anything. *)
Theorem no_archives_changes_nothing (E : env) (C : config) (a : args) (w : world) :
  list_ a = false ->
  collect_archives C a (fs w) = [] ->
  main E C a w =
  (Ret 1%Z, w,
   banner C (fs w) ++
   [(nl ++ "No SDK archives found!")%string;
    "Please download the Ultralight SDK from:";
    "  https://ultralig.ht/";
    (nl ++ "Then run:")%string;
    ("  python3 " ++ argv0 a ++ " --archives-dir /path/to/downloads")%string]).
Proof.
  intros Hlist Hnone. unfold main, bind, print, gets.
  rewrite status_report_run, Hlist, Hnone. reflexivity.
Qed.

Lemma no_archives_changes_nothing_witness :
  result_of (main Sample.tools Sample.config0 Sample.no_flags)
            (mkWorld Sample.bare [] ["k3f9"]) = Ret 1%Z /\
  world_of (main Sample.tools Sample.config0 Sample.no_flags)
           (mkWorld Sample.bare [] ["k3f9"]) = mkWorld Sample.bare [] ["k3f9"].
Proof.
  pose proof (no_archives_changes_nothing Sample.tools Sample.config0
                Sample.no_flags (mkWorld Sample.bare [] ["k3f9"])
                eq_refl eq_refl) as H.
  unfold result_of, world_of. rewrite H. split; reflexivity.
Defined.

(** ** The archive assignment, continued *)

Lemma first_some_in {A} (l : list (option A)) x :
  first_some l = Some x -> In (Some x) l.
Proof.
  induction l as [|[y|] l IH]; simpl; [discriminate| |].
  - intros [= ->]. left. reflexivity.
  - intros H. right. apply IH. exact H.
Qed.

(** X3. Every platform that receives an archive is a platform of [PLATFORMS]:
    the look-up [PLATFORMS[platform]] in [setup_platform] cannot miss for an
    assignment [main] built. *)
Theorem assigned_platforms_are_known (C : config) (a : args) (t : node)
  (platform : string) (archive_path : path) :
  In (platform, archive_path) (collect_archives C a t) ->
  exists config, Dict.get platform PLATFORMS = Some config.
Proof.
  intros Hin.
  apply (dict_in_get _ _ _ (collect_archives_nodup C t a)) in Hin.
  rewrite collect_archives_get in Hin. apply first_some_in in Hin.
  assert (Hknown : In platform (map fst PLATFORMS)).
  { destruct (in_dec string_dec platform (map fst PLATFORMS)) as [H | H];
      [exact H|]. exfalso.
    destruct Hin as [Hin | Hin].
    - revert Hin. unfold explicit.
      repeat match goal with
        | |- context [String.eqb platform ?s] =>
            let Heq := fresh "Heq" in
            destruct (String.eqb platform s) eqn:Heq;
            [apply String.eqb_eq in Heq; subst platform;
             exfalso; apply H; cbn; tauto |]
        end.
      discriminate.
    - apply in_map_iff in Hin. destruct Hin as (d & Hd & _).
      rewrite find_archives_get_unknown in Hd by exact H. discriminate. }
  destruct (Dict.get platform PLATFORMS) as [config|] eqn:Hget; [eauto|].
  apply dict_get_none_keys in Hget. contradiction.
Qed.

Lemma assigned_platforms_are_known_witness :
  exists config, Dict.get "linux-x64" PLATFORMS = Some config.
Proof.
  apply (assigned_platforms_are_known Sample.config0 Sample.no_flags
           Sample.workstation "linux-x64" (Sample.downloads ++ [Sample.sdk_1_4])).
  left. reflexivity.
Defined.

(** ** The extractor's answers *)

(** X4. When the destination directory exists, [extract_archive] returns
    [False] in exactly three situations: a [.7z] archive with no 7z
    executable found, a [.7z] archive whose 7z run exits with a non-zero
    code, and an extension that is neither [.7z] nor [.zip].  In the first
    and the last of these (and whatever the destination is) it returns before
    touching anything: the world is left as found, the destination is not
    even created. *)
Theorem extract_archive_failures (E : env) (archive_path dest_dir : path)
  (w : world) :
  (FS.is_dir dest_dir (fs w) = true ->
   (result_of (extract_archive E archive_path dest_dir) w = Ret false <->
    (Str.suffix (FS.name archive_path) = ".7z" /\
     (find_7z E = None \/
      exists sevenz, find_7z E = Some sevenz /\
        snd (fst (sevenz_x E sevenz archive_path (fs w))) <> 0%Z)) \/
    (Str.suffix (FS.name archive_path) <> ".7z" /\
     Str.suffix (FS.name archive_path) <> ".zip"))) /\
  ((Str.suffix (FS.name archive_path) = ".7z" /\ find_7z E = None) \/
   (Str.suffix (FS.name archive_path) <> ".7z" /\
    Str.suffix (FS.name archive_path) <> ".zip") ->
   result_of (extract_archive E archive_path dest_dir) w = Ret false /\
   world_of (extract_archive E archive_path dest_dir) w = w).
Proof.
  split.
  - intros Hd.
    assert (Hmr : result_of (mkdir_parents dest_dir) w = Ret tt)
      by (unfold result_of; rewrite mkdir_parents_existing by exact Hd; reflexivity).
    assert (Hmw : world_of (mkdir_parents dest_dir) w = w)
      by (unfold world_of; rewrite mkdir_parents_existing by exact Hd; reflexivity).
    unfold extract_archive. run.
    destruct (String.eqb (Str.suffix (FS.name archive_path)) ".7z") eqn:H7.
    + apply String.eqb_eq in H7.
      destruct (find_7z E) as [sevenz|]; run.
      * rewrite Hmr. cbv beta iota. rewrite Hmw. run.
        destruct (sevenz_x E sevenz archive_path (fs w))
          as [[ms returncode] stderr] eqn:Hrun.
        cbn [fst snd]. run.
        destruct (Z.eqb returncode 0) eqn:Hrc; cbn [negb]; run.
        -- apply Z.eqb_eq in Hrc. split; [discriminate|].
           intros [[_ [H | (s & [= <-] & Hs)]] | [H _]]; try congruence.
           rewrite Hrun in Hs. cbn [fst snd] in Hs. congruence.
        -- apply Z.eqb_neq in Hrc. split; [|reflexivity].
           intros _. left. split; [exact H7|]. right. exists sevenz.
           rewrite Hrun. auto.
      * split; [|reflexivity]. intros _. left. auto.
    + apply String.eqb_neq in H7.
      destruct (String.eqb (Str.suffix (FS.name archive_path)) ".zip") eqn:Hz.
      * apply String.eqb_eq in Hz. run. rewrite Hmr. cbv beta iota.
        rewrite Hmw. run.
        destruct (snd (unzip E archive_path (fs w))); run;
          (split; [discriminate|]; intros [[H _] | [_ H]]; congruence).
      * apply String.eqb_neq in Hz. run. split; [|reflexivity].
        intros _. right. auto.
  - intros [[H7 Hnone] | [H7 Hz]]; unfold extract_archive; run.
    + rewrite H7, Hnone. cbn [String.eqb Ascii.eqb Bool.eqb]. run.
      split; reflexivity.
    + apply String.eqb_neq in H7, Hz. rewrite H7, Hz. run. split; reflexivity.
Qed.

Lemma extract_archive_failures_witness :
  result_of (extract_archive Sample.tools
               (Sample.downloads ++ ["ultralight-sdk.tar.gz"]) ["no"; "such"; "dir"])
            (mkWorld Sample.workstation [] []) = Ret false /\
  world_of (extract_archive Sample.tools
              (Sample.downloads ++ ["ultralight-sdk.tar.gz"]) ["no"; "such"; "dir"])
           (mkWorld Sample.workstation [] []) = mkWorld Sample.workstation [] [].
Proof.
  apply (proj2 (extract_archive_failures Sample.tools
                  (Sample.downloads ++ ["ultralight-sdk.tar.gz"])
                  ["no"; "such"; "dir"] (mkWorld Sample.workstation [] []))).
  right. split; vm_compute; discriminate.
Defined.

(** ** The overwrite prompt *)

(** X5. When the target directory holds the marker file and standard input is
    at its end, [setup_platform] raises [EOFError] from the prompt; it has
    printed the banner, the notice and the prompt, and changed nothing. *)
Theorem prompt_at_end_of_input (E : env) (C : config) (platform : string)
  (config : platform_config) (archive_path : path) (w : world) :
  Dict.get platform PLATFORMS = Some config ->
  FS.exists_ ((SDK_DIR C ++ [platform]) ++ test_file config) (fs w) = true ->
  stdin w = [] ->
  setup_platform E C platform archive_path w =
  (Raise EOFError, w,
   [(nl ++ Str.times "=" 50)%string; ("Setting up " ++ platform)%string;
    Str.times "=" 50;
    ("  SDK already exists at: " ++ FS.path_str (SDK_DIR C ++ [platform])%list)%string;
    "  Overwrite? [y/N]: "]).
Proof.
  intros Hcfg Hmarker Hin.
  unfold setup_platform. rewrite Hcfg.
  unfold check_existing, bind, print, gets, input, ret.
  rewrite Hmarker, Hin. reflexivity.
Qed.

Lemma prompt_at_end_of_input_witness :
  result_of (setup_platform Sample.tools Sample.config0 "linux-x64"
               (Sample.downloads ++ [Sample.sdk_1_4]))
            (mkWorld Sample.installed [] ["k3f9"]) = Raise EOFError.
Proof.
  unfold result_of.
  rewrite (prompt_at_end_of_input Sample.tools Sample.config0 "linux-x64"
             (mkPlatform ["*linux*x64*"; "*linux*64*"] marker
                         ["bin/*.so*"; "lib/*.so*"])
             (Sample.downloads ++ [Sample.sdk_1_4])
             (mkWorld Sample.installed [] ["k3f9"]) eq_refl eq_refl eq_refl).
  reflexivity.
Defined.

(** ** Installs that fail *)

Section FailedInstall.
Import FS FSFacts.

Lemma alter_app p q f t : alter (p ++ q) f t = alter p (alter q f) t.
Proof.
  revert t. induction p as [|n p IH]; intros t; simpl; [reflexivity|].
  destruct t as [d|es]; [reflexivity|].
  rewrite (assoc_upd_ext n _ (alter p (alter q f))) by (intros; apply IH).
  reflexivity.
Qed.

Lemma assoc_rm_upd n g es : assoc_rm n (assoc_upd n g es) = assoc_rm n es.
Proof.
  induction es as [|[m c] es IH]; simpl; [reflexivity|].
  destruct (String.eqb n m) eqn:Hnm; simpl; rewrite Hnm; [reflexivity|].
  rewrite IH. reflexivity.
Qed.

(** Creating a fresh directory, filling it and removing it leaves the tree
    as it was. *)
Lemma rm_alter_put_fresh P n f v t :
  exists_ (P ++ [n]) t = false ->
  rm (P ++ [n]) (alter (P ++ [n]) f (put (P ++ [n]) v t)) = t.
Proof.
  intros Hfresh. unfold rm, put. rewrite parent_snoc, name_snoc, alter_app.
  rewrite !alter_alter.
  rewrite (alter_ext _ _ (fun c => c)); [apply alter_id|].
  intros c Hc. destruct c as [d|es]; simpl; [reflexivity|].
  rewrite assoc_rm_upd, assoc_rm_put_fresh; [reflexivity|].
  unfold exists_ in Hfresh. rewrite lookup_app, Hc in Hfresh. simpl in Hfresh.
  destruct (assoc n es); [discriminate | reflexivity].
Qed.

(** When the [with] block answers [False], all it did to the world was to
    write archive members into the scratch directory. *)
Lemma install_from_false E archive_path target_dir test_file tmp w1 :
  is_dir tmp (fs w1) = true ->
  result_of (install_from E archive_path target_dir test_file tmp) w1 = Ret false ->
  stdin (world_of (install_from E archive_path target_dir test_file tmp) w1) =
    stdin w1 /\
  exists ms,
    fs (world_of (install_from E archive_path target_dir test_file tmp) w1) =
    alter tmp (write_members ms) (fs w1).
Proof.
  intros Hd.
  pose proof (extract_archive_world E archive_path tmp w1 Hd) as (Hin & _ & Hfs).
  unfold install_from. rewrite result_bind, world_bind.
  destruct (result_of (extract_archive E archive_path tmp) w1) as [[|]|e];
    cbn [negb]; run; [| intros _; split; assumption | discriminate].
  destruct (find_sdk_root
              (fs (world_of (extract_archive E archive_path tmp) w1)) tmp)
    as [[sdk_root|]|e]; run; [| intros _; split; assumption | discriminate].
  destruct (result_of (mkdir_parents (parent target_dir))
              (world_of (extract_archive E archive_path tmp) w1)) as [[]|e];
    run; [|discriminate].
  destruct (result_of (move sdk_root target_dir) _) as [[]|e]; run; discriminate.
Qed.

End FailedInstall.

(** Past the overwrite check, an install that answers [False] leaves the file
    system and the pending input as the check left them. *)
Lemma setup_platform_false_after_check E C platform config archive_path w w0 o0 :
  Dict.get platform PLATFORMS = Some config ->
  check_existing (SDK_DIR C ++ [platform]) (test_file config) w = (Ret true, w0, o0) ->
  result_of (setup_platform E C platform archive_path) w = Ret false ->
  fs (world_of (setup_platform E C platform archive_path) w) = fs w0 /\
  stdin (world_of (setup_platform E C platform archive_path) w) = stdin w0.
Proof.
  intros Hcfg Hcheck.
  destruct (setup_platform_proceeds E C _ _ archive_path _ _ _ Hcfg Hcheck) as [-> ->].
  unfold result_of at 1, world_of at 1 2. unfold with_TemporaryDirectory.
  destruct (mkdtemp C w0) as [[[tmp|e] w1] o1] eqn:Hmk; [|discriminate].
  rewrite (run_eta (install_from E archive_path (SDK_DIR C ++ [platform])
                      (test_file config) tmp) w1).
  cbn [fst snd]. intros Hfalse.
  apply mkdtemp_spec in Hmk. destruct Hmk as ([rnd ->] & Hfresh & Hd & Hfs1 & Hin1 & _).
  assert (Htmp1 : FS.is_dir (TMPDIR C ++ [("tmp" ++ rnd)%string]) (fs w1) = true).
  { rewrite Hfs1. unfold FS.is_dir.
    rewrite <- (app_nil_r (TMPDIR C ++ _)) at 1.
    rewrite lookup_put_at by exact Hd. reflexivity. }
  destruct (install_from_false E archive_path _ _ _ _ Htmp1 Hfalse) as (Hin2 & ms & Hfs2).
  unfold cleanup.
  assert (Hex : FS.exists_ (TMPDIR C ++ [("tmp" ++ rnd)%string])
                  (fs (world_of (install_from E archive_path (SDK_DIR C ++ [platform])
                                   (test_file config)
                                   (TMPDIR C ++ [("tmp" ++ rnd)%string])) w1)) = true).
  { apply is_dir_exists. rewrite is_dir_kind, Hfs2, kind_extract by (right; reflexivity).
    rewrite <- is_dir_kind. exact Htmp1. }
  rewrite Hex. cbn [fs stdin set_fs]. rewrite Hfs2, Hfs1.
  rewrite rm_alter_put_fresh by exact Hfresh. split; congruence.
Qed.

(** X6. When the target directory does not hold the marker file (so nothing
    is asked and nothing deleted) and [setup_platform] returns [False] (the
    extraction failed in any of its ways, or no SDK root was found in what was
    extracted), the file system is left exactly as it was found, target
    directory and scratch space included, and no input was read. *)
Theorem failed_install_leaves_disk_untouched (E : env) (C : config)
  (platform : string) (config : platform_config) (archive_path : path)
  (w : world) :
  Dict.get platform PLATFORMS = Some config ->
  FS.exists_ ((SDK_DIR C ++ [platform]) ++ test_file config) (fs w) = false ->
  result_of (setup_platform E C platform archive_path) w = Ret false ->
  fs (world_of (setup_platform E C platform archive_path) w) = fs w /\
  stdin (world_of (setup_platform E C platform archive_path) w) = stdin w.
Proof.
  intros Hcfg Hmarker Hfalse.
  apply (setup_platform_false_after_check E C platform config archive_path w w []);
    [exact Hcfg | apply check_existing_absent; exact Hmarker | exact Hfalse].
Qed.

(** The overwrite check when the operator answers [y]: the target directory
    is removed and the install goes on. *)
Lemma check_existing_confirmed target_dir test_file w line rest :
  FS.is_dir target_dir (fs w) = true ->
  FS.exists_ (target_dir ++ test_file) (fs w) = true ->
  stdin w = line :: rest ->
  Str.lower (Str.strip line) = "y" ->
  check_existing target_dir test_file w =
  (Ret true, mkWorld (FS.rm target_dir (fs w)) rest (rng w),
   [("  SDK already exists at: " ++ FS.path_str target_dir)%string;
    "  Overwrite? [y/N]: "]).
Proof.
  intros Hdir Hmarker Hin Hyes.
  unfold check_existing, bind, gets, print, input, rmtree, ret.
  rewrite Hmarker, Hin, Hyes. cbn [String.eqb Ascii.eqb Bool.eqb negb fs].
  unfold FS.is_dir in Hdir.
  destruct (FS.lookup target_dir (fs w)) as [[d|es]|]; try discriminate.
  reflexivity.
Qed.

(** X7. When the target directory holds the marker file, the operator answers
    [y], and [setup_platform] then returns [False], the old install is gone
    and nothing has taken its place: the file system left is the one found
    with the target directory removed, and one line of input was read. *)
Theorem confirmed_overwrite_then_failure (E : env) (C : config)
  (platform : string) (config : platform_config) (archive_path : path)
  (w : world) (line : string) (rest : list string) :
  Dict.get platform PLATFORMS = Some config ->
  FS.exists_ ((SDK_DIR C ++ [platform]) ++ test_file config) (fs w) = true ->
  stdin w = line :: rest ->
  Str.lower (Str.strip line) = "y" ->
  result_of (setup_platform E C platform archive_path) w = Ret false ->
  fs (world_of (setup_platform E C platform archive_path) w) =
    FS.rm (SDK_DIR C ++ [platform]) (fs w) /\
  stdin (world_of (setup_platform E C platform archive_path) w) = rest /\
  FS.exists_ (SDK_DIR C ++ [platform])
    (fs (world_of (setup_platform E C platform archive_path) w)) = false.
Proof.
  intros Hcfg Hmarker Hin Hyes Hfalse.
  assert (Hdir : FS.is_dir (SDK_DIR C ++ [platform]) (fs w) = true).
  { rewrite (platform_test_file _ _ Hcfg) in Hmarker.
    apply (marker_inside_is_dir _ _ Hmarker). }
  pose proof (check_existing_confirmed _ _ _ _ _ Hdir Hmarker Hin Hyes) as Hcheck.
  destruct (setup_platform_false_after_check E C _ _ _ _ _ _ Hcfg Hcheck Hfalse)
    as [Hfs Hstdin].
  split; [exact Hfs|]. split; [exact Hstdin|].
  rewrite Hfs. apply exists_rm_self. destruct (SDK_DIR C); discriminate.
Qed.

Lemma failed_install_leaves_disk_untouched_witness :
  fs (world_of (setup_platform More.tools_7z_fails Sample.config0 "linux-x64"
                  (Sample.downloads ++ [Sample.sdk_1_4]))
               (mkWorld Sample.workstation [] ["k3f9"])) = Sample.workstation /\
  fs (world_of (setup_platform More.tools_wrong_content Sample.config0 "linux-x64"
                  (Sample.downloads ++ [Sample.sdk_1_4]))
               (mkWorld Sample.workstation [] ["k3f9"])) = Sample.workstation.
Proof.
  split.
  - apply (failed_install_leaves_disk_untouched More.tools_7z_fails
             Sample.config0 "linux-x64"
             (mkPlatform ["*linux*x64*"; "*linux*64*"] marker
                         ["bin/*.so*"; "lib/*.so*"])
             (Sample.downloads ++ [Sample.sdk_1_4])
             (mkWorld Sample.workstation [] ["k3f9"]) eq_refl eq_refl eq_refl).
  - apply (failed_install_leaves_disk_untouched More.tools_wrong_content
             Sample.config0 "linux-x64"
             (mkPlatform ["*linux*x64*"; "*linux*64*"] marker
                         ["bin/*.so*"; "lib/*.so*"])
             (Sample.downloads ++ [Sample.sdk_1_4])
             (mkWorld Sample.workstation [] ["k3f9"]) eq_refl eq_refl eq_refl).
Defined.

Lemma confirmed_overwrite_then_failure_witness :
  FS.exists_ ["repo"; "native"; "sdk"; "linux-x64"]
    (fs (world_of (setup_platform Sample.tools Sample.config0 "linux-x64"
                     (Sample.downloads ++ ["ultralight-sdk.tar.gz"]))
                  (mkWorld Sample.installed [" Y"] ["k3f9"]))) = false.
Proof.
  apply (confirmed_overwrite_then_failure Sample.tools Sample.config0 "linux-x64"
           (mkPlatform ["*linux*x64*"; "*linux*64*"] marker
                       ["bin/*.so*"; "lib/*.so*"])
           (Sample.downloads ++ ["ultralight-sdk.tar.gz"])
           (mkWorld Sample.installed [" Y"] ["k3f9"]) " Y" []
           eq_refl eq_refl eq_refl eq_refl eq_refl).
Defined.

(** ** What the locator can select *)

Section Patterns.

Lemma fnmatch_star pat s :
  Str.fnmatch (String "*" pat) s =
  Str.fnmatch pat s ||
  match s with
  | EmptyString => false
  | String _ s' => Str.fnmatch (String "*" pat) s'
  end.
Proof. destruct s; reflexivity. Qed.

Lemma fnmatch_literal pat s :
  literal pat = true -> Str.fnmatch pat s = true -> s = pat.
Proof.
  revert s. induction pat as [|c pat IH]; intros s Hlit Hm.
  - destruct s; [reflexivity | discriminate].
  - cbn [literal] in Hlit. apply andb_true_iff in Hlit. destruct Hlit as [Hc Hlit].
    apply andb_true_iff in Hc. destruct Hc as [Hstar Hq].
    apply negb_true_iff in Hstar, Hq. cbn [Str.fnmatch] in Hm.
    rewrite Hstar, Hq in Hm. destruct s as [|d s]; [discriminate|].
    apply andb_true_iff in Hm. destruct Hm as [Hcd Hm].
    apply Ascii.eqb_eq in Hcd. subst d. rewrite (IH s Hlit Hm). reflexivity.
Qed.

(** A name matched by [pat ++ ext], [ext] being ordinary characters, ends in
    [ext], and what comes before is matched by [pat]. *)
Lemma fnmatch_app_literal pat ext s :
  literal ext = true -> Str.fnmatch (pat ++ ext) s = true ->
  exists s1, s = (s1 ++ ext)%string /\ Str.fnmatch pat s1 = true.
Proof.
  intros Hlit. revert s. induction pat as [|c pat IH]; intros s Hm.
  - exists EmptyString. split; [|destruct ext; reflexivity].
    apply (fnmatch_literal _ _ Hlit Hm).
  - change (String c pat ++ ext)%string with (String c (pat ++ ext)%string) in Hm.
    destruct (Ascii.eqb c "*") eqn:Hstar.
    + apply Ascii.eqb_eq in Hstar. subst c.
      induction s as [|d s IHs].
      * rewrite fnmatch_star, orb_false_r in Hm.
        destruct (IH _ Hm) as (s1 & Hs & H1). exists s1. split; [exact Hs|].
        rewrite fnmatch_star, H1. reflexivity.
      * rewrite fnmatch_star in Hm. apply orb_true_iff in Hm.
        destruct Hm as [Hm | Hm].
        -- destruct (IH _ Hm) as (s1 & Hs & H1). exists s1. split; [exact Hs|].
           rewrite fnmatch_star, H1. reflexivity.
        -- destruct (IHs Hm) as (s1 & -> & H1). exists (String d s1).
           split; [reflexivity|]. rewrite fnmatch_star, H1. apply orb_true_r.
    + cbn [Str.fnmatch] in Hm. rewrite Hstar in Hm. cbn [Str.fnmatch]. rewrite Hstar.
      destruct (Ascii.eqb c "?").
      * destruct s as [|d s]; [discriminate|].
        destruct (IH _ Hm) as (s1 & -> & H1). exists (String d s1). auto.
      * destruct s as [|d s]; [discriminate|].
        apply andb_true_iff in Hm. destruct Hm as [Hcd Hm].
        destruct (IH _ Hm) as (s1 & -> & H1). exists (String d s1).
        split; [reflexivity|]. rewrite Hcd, H1. reflexivity.
Qed.

Lemma length_append s1 s2 :
  String.length (s1 ++ s2) = (String.length s1 + String.length s2)%nat.
Proof. induction s1 as [|c s1 IH]; simpl; [reflexivity|]. rewrite IH. reflexivity. Qed.

Lemma rfind_dot_app s1 e i :
  Str.rfind_dot e = Some i ->
  Str.rfind_dot (s1 ++ e) = Some (String.length s1 + i)%nat.
Proof.
  intros He. induction s1 as [|c s1 IH]; simpl; [exact He|].
  rewrite IH. reflexivity.
Qed.

Lemma substring_tail s1 e :
  substring (String.length s1) (String.length e) (s1 ++ e) = e.
Proof.
  induction s1 as [|c s1 IH]; simpl; [|exact IH].
  induction e as [|d e IHe]; simpl; [reflexivity|].
  rewrite IHe. reflexivity.
Qed.

(** The suffix of a name that ends in an extension: the extension. *)
Lemma suffix_app s1 e :
  s1 <> EmptyString -> Str.rfind_dot e = Some 0%nat ->
  (2 <= String.length e)%nat ->
  Str.suffix (s1 ++ e) = e.
Proof.
  intros Hne Hdot Hlen. unfold Str.suffix.
  rewrite (rfind_dot_app _ _ _ Hdot), length_append, Nat.add_0_r.
  assert (H1 : (0 <? String.length s1)%nat = true)
    by (apply Nat.ltb_lt; destruct s1; [congruence | simpl; lia]).
  assert (H2 : (String.length s1 <? String.length s1 + String.length e - 1)%nat = true)
    by (apply Nat.ltb_lt; lia).
  rewrite H1, H2. cbn [andb].
  replace (String.length s1 + String.length e - String.length s1)%nat
    with (String.length e) by lia.
  apply substring_tail.
Qed.

(** No pattern of [PLATFORMS] matches the empty name. *)
Lemma patterns_need_text platform config pattern :
  In (platform, config) PLATFORMS -> In pattern (archive_patterns config) ->
  Str.fnmatch pattern "" = false.
Proof.
  intros Hpc Hpat.
  assert (Hall : forallb (fun pc : string * platform_config =>
                   forallb (fun pat => negb (Str.fnmatch pat ""))
                           (archive_patterns (snd pc))) PLATFORMS = true)
    by reflexivity.
  rewrite forallb_forall in Hall. specialize (Hall _ Hpc). cbn [snd] in Hall.
  rewrite forallb_forall in Hall. specialize (Hall _ Hpat).
  apply negb_true_iff in Hall. exact Hall.
Qed.

End Patterns.

(** X8. Whatever [find_archives] selects for a platform is an entry of the
    search directory whose extension, as [extract_archive] will read it, is
    [.7z] or [.zip]: an archive that was found is never refused as an unknown
    format. *)
Theorem found_archives_have_known_extension (t : node) (search_dir : path)
  (platform : string) (archive_path : path) :
  Dict.get platform (find_archives t search_dir) = Some archive_path ->
  exists name,
    archive_path = search_dir ++ [name] /\
    In name (FS.iterdir search_dir t) /\
    (Str.suffix (FS.name archive_path) = ".7z" \/
     Str.suffix (FS.name archive_path) = ".zip").
Proof.
  intros Hget.
  destruct (in_dec string_dec platform (map fst PLATFORMS)) as [Hknown | Hunknown];
    [|rewrite find_archives_get_unknown in Hget by exact Hunknown; discriminate].
  apply in_map_iff in Hknown. destruct Hknown as ([pl config] & Hpl & Hpc).
  cbn [fst] in Hpl. subst pl.
  rewrite (find_archives_get t search_dir platform config Hpc) in Hget.
  destruct (find (has_match t search_dir)
              (list_prod (archive_patterns config) [".7z"; ".zip"]))
    as [[pattern ext]|] eqn:Hfind; [|discriminate].
  cbn [option_map fst snd] in Hget. injection Hget as <-.
  apply find_some in Hfind. destruct Hfind as [Hin Hmatch].
  apply in_prod_iff in Hin. destruct Hin as [Hpat Hext].
  unfold has_match in Hmatch. cbn [fst snd] in Hmatch.
  assert (Hne : glob t search_dir (pattern ++ ext) <> [])
    by (destruct (glob t search_dir (pattern ++ ext)); [discriminate Hmatch | discriminate]).
  destruct (last_sorted_lex_last _ "" Hne) as [Hlast _].
  set (name := last (Str.sorted (glob t search_dir (pattern ++ ext))) "") in *.
  unfold glob in Hlast. apply filter_In in Hlast. destruct Hlast as [Hentry Hfn].
  exists name. split; [reflexivity|]. split; [exact Hentry|].
  rewrite FSFacts.name_snoc.
  assert (Hlit : literal ext = true)
    by (destruct Hext as [<- | [<- | []]]; reflexivity).
  destruct (fnmatch_app_literal _ _ _ Hlit Hfn) as (s1 & -> & H1).
  assert (Hs1 : s1 <> EmptyString).
  { intros ->. rewrite (patterns_need_text _ _ _ Hpc Hpat) in H1. discriminate. }
  destruct Hext as [<- | [<- | []]]; [left | right];
    apply suffix_app; try assumption; try reflexivity; simpl; lia.
Qed.

Lemma found_archives_have_known_extension_witness :
  exists name,
    Sample.downloads ++ [Sample.sdk_1_4] = Sample.downloads ++ [name] /\
    In name (FS.iterdir Sample.downloads Sample.workstation) /\
    (Str.suffix (FS.name (Sample.downloads ++ [Sample.sdk_1_4])) = ".7z" \/
     Str.suffix (FS.name (Sample.downloads ++ [Sample.sdk_1_4])) = ".zip").
Proof.
  apply (found_archives_have_known_extension Sample.workstation Sample.downloads
           "linux-x64").
  reflexivity.
Defined.

(** ** Installing where nothing was *)

Section FreshInstall.
Import FS FSFacts.

Lemma assoc_put_upd n f c es :
  assoc n es = Some c -> assoc_put n (f c) es = assoc_upd n f es.
Proof.
  induction es as [|[m d] es IH]; simpl; [discriminate|].
  destruct (String.eqb n m).
  - intros [= ->]. reflexivity.
  - intros H. rewrite IH by exact H. reflexivity.
Qed.

(** [mkdir(parents=True, exist_ok=True)] on a path whose parent exists: a
    directory is kept, a missing one is created, a file makes it fail. *)
Lemma makedirs_snoc P n t :
  is_dir P t = true ->
  makedirs (P ++ [n]) t =
  match lookup (P ++ [n]) t with
  | Some (Dir _) => Some t
  | Some (File _) => None
  | None => Some (put (P ++ [n]) (Dir []) t)
  end.
Proof.
  unfold put. rewrite parent_snoc, name_snoc.
  revert t. induction P as [|a P IH]; intros t; unfold is_dir.
  - destruct t as [d|es]; [discriminate|]. intros _. simpl.
    destruct (assoc n es) as [[d|es']|] eqn:Hn; simpl; try reflexivity.
    rewrite (assoc_put_id _ _ _ Hn). reflexivity.
  - destruct t as [d|es]; [discriminate|]. simpl.
    destruct (assoc a es) as [c|] eqn:Ha; [|discriminate].
    intros Hc. fold (is_dir P c) in Hc. rewrite (IH c Hc).
    destruct (lookup (P ++ [n]) c) as [[d|es']|].
    + reflexivity.
    + rewrite (assoc_put_id _ _ _ Ha). reflexivity.
    + rewrite (assoc_put_upd a (alter P (dir_put n (Dir []))) c es Ha). reflexivity.
Qed.

(** Binding [P/n] leaves what sits beside it as it is. *)
Lemma lookup_put_apart P n v q t :
  prefix (P ++ [n]) q = false -> prefix q (P ++ [n]) = false ->
  lookup q (put (P ++ [n]) v t) = lookup q t.
Proof.
  intros Hpq Hqp. unfold put. rewrite parent_snoc, name_snoc.
  destruct (prefix_either P q) as [H | [[r Hr] | [H1 H2]]].
  - apply prefix_inv in H. destruct H as [r ->].
    rewrite lookup_alter_below, lookup_app.
    destruct (lookup P t) as [c|]; [|reflexivity].
    rewrite prefix_snoc_tail in Hpq.
    destruct r as [|m r].
    + rewrite app_nil_r, prefix_app in Hqp. discriminate.
    + apply dir_put_local. intros ->. simpl in Hpq.
      rewrite String.eqb_refl in Hpq. discriminate.
  - rewrite Hr, <- app_assoc, prefix_app in Hqp. discriminate.
  - apply lookup_alter_apart; assumption.
Qed.

(** [shutil.move] of a directory to a path that does not exist, in a parent
    that does: a rename. *)
Lemma move_renames src dst es w :
  lookup src (fs w) = Some (Dir es) ->
  exists_ dst (fs w) = false ->
  prefix src dst = false ->
  is_dir (parent dst) (fs w) = true ->
  move src dst w =
  (Ret tt, set_fs (put dst (Dir es) (rm src (fs w))) w, []).
Proof.
  intros Hsrc Hfree Hpre Hparent. unfold move. rewrite Hsrc.
  assert (Hnd : is_dir dst (fs w) = false).
  { destruct (is_dir dst (fs w)) eqn:H; [|reflexivity].
    apply is_dir_exists in H. congruence. }
  rewrite Hnd. cbn [andb]. rewrite Hpre.
  unfold exists_ in Hfree. destruct (lookup dst (fs w)); [discriminate|].
  rewrite (makedirs_existing _ _ Hparent). reflexivity.
Qed.

Lemma platform_not_scratch platform config rnd :
  Dict.get platform PLATFORMS = Some config -> platform <> ("tmp" ++ rnd)%string.
Proof.
  unfold PLATFORMS. cbn [Dict.get].
  repeat match goal with
    | |- context [String.eqb platform ?s] =>
        let Heq := fresh "Heq" in
        destruct (String.eqb platform s) eqn:Heq;
        [apply String.eqb_eq in Heq; subst platform; discriminate|]
    end.
  discriminate.
Qed.

(** A prefix of [a ++ [x]] is a prefix of [a] or all of it. *)
Lemma prefix_of_snoc p a x :
  prefix p (a ++ [x]) = true -> prefix p a = true \/ p = a ++ [x].
Proof.
  intros H. apply prefix_of_app in H.
  destruct H as [H | (b1 & y & b2 & Hb & ->)]; [left; exact H|]. right.
  destruct b1 as [|z b1]; [|destruct b1; discriminate Hb].
  injection Hb as -> _. reflexivity.
Qed.

End FreshInstall.

(** From a world where the target directory does not exist, the [with] block
    of [setup_platform] that extracts an archive and finds an SDK root puts
    that root at the target path. *)
Lemma install_block_places_sdk_root (E : env) (C : config)
  (platform : string) (config : platform_config) (archive_path : path)
  (w w1 w2 : world) (o1 o2 : list string) (tmp sdk_root : path) :
  Dict.get platform PLATFORMS = Some config ->
  FS.is_dir (SCRIPT_DIR C) (fs w) = true ->
  (forall d, FS.lookup (SDK_DIR C) (fs w) <> Some (File d)) ->
  FS.exists_ (SDK_DIR C ++ [platform]) (fs w) = false ->
  mkdtemp C w = (Ret tmp, w1, o1) ->
  extract_archive E archive_path tmp w1 = (Ret true, w2, o2) ->
  find_sdk_root (fs w2) tmp = Ret (Some sdk_root) ->
  let block :=
    with_TemporaryDirectory C
      (install_from E archive_path (SDK_DIR C ++ [platform]) marker) in
  result_of block w = Ret true /\
  stdin (world_of block w) = stdin w /\
  FS.lookup (SDK_DIR C ++ [platform]) (fs (world_of block w)) =
    FS.lookup sdk_root (fs w2) /\
  FS.exists_ ((SDK_DIR C ++ [platform]) ++ marker) (fs (world_of block w)) = true /\
  FS.exists_ tmp (fs (world_of block w)) = false.
Proof.
  intros Hcfg Hscript Hnofile Habsent Hmk Hext Hroot block. unfold block.
  set (target := SDK_DIR C ++ [platform]) in *.
  (* the scratch directory *)
  pose proof (mkdtemp_spec _ _ _ _ _ Hmk) as ([rnd Htmp] & Hfresh & Htd & Hfs1 & Hin1 & _).
  assert (Htmp_ne : tmp <> []) by (subst tmp; apply tmp_not_nil).
  assert (Htmp1 : FS.is_dir tmp (fs w1) = true).
  { rewrite Hfs1, Htmp. unfold FS.is_dir.
    rewrite <- (app_nil_r (TMPDIR C ++ _)) at 1.
    rewrite lookup_put_at by exact Htd. reflexivity. }
  (* the extraction *)
  assert (Hr2 : result_of (extract_archive E archive_path tmp) w1 = Ret true)
    by (unfold result_of; rewrite Hext; reflexivity).
  assert (Hw2 : world_of (extract_archive E archive_path tmp) w1 = w2)
    by (unfold world_of; rewrite Hext; reflexivity).
  destruct (extract_archive_world E archive_path tmp w1 Htmp1) as (Hin2 & _ & ms & Hfs2).
  rewrite Hw2 in Hin2, Hfs2.
  assert (K2 : forall q, FS.prefix tmp q = false -> kind_at q (fs w2) = kind_at q (fs w)).
  { intros q Hq. rewrite Hfs2, kind_extract by (left; exact Hq).
    rewrite Hfs1. apply kind_put; assumption. }
  (* where the scratch directory cannot be *)
  assert (Hpsc : FS.prefix tmp (SCRIPT_DIR C) = false).
  { destruct (FS.prefix tmp (SCRIPT_DIR C)) eqn:H; [|reflexivity].
    apply FSFacts.prefix_inv in H. destruct H as [r Hr]. exfalso.
    apply is_dir_exists in Hscript. rewrite Hr in Hscript.
    apply FSFacts.exists_prefix in Hscript. congruence. }
  assert (HpS : FS.prefix tmp (SDK_DIR C) = false).
  { destruct (FS.prefix tmp (SDK_DIR C)) eqn:H; [|reflexivity].
    apply prefix_of_snoc in H. destruct H as [H | H]; [congruence|]. exfalso.
    unfold SDK_DIR in H. rewrite Htmp in H. apply app_inj_tail in H.
    destruct H as [_ H]. discriminate H. }
  assert (Hpt : FS.prefix tmp target = false).
  { destruct (FS.prefix tmp target) eqn:H; [|reflexivity].
    apply prefix_of_snoc in H. destruct H as [H | H]; [congruence|]. exfalso.
    rewrite Htmp in H. apply app_inj_tail in H. destruct H as [_ H].
    symmetry in H. revert H. apply (platform_not_scratch _ _ _ Hcfg). }
  assert (Htp : FS.prefix target tmp = false).
  { destruct (FS.prefix target tmp) eqn:H; [|reflexivity]. exfalso.
    rewrite Htmp in H. apply prefix_of_snoc in H. destruct H as [H | H].
    - apply FSFacts.prefix_inv in H. destruct H as [r Hr].
      apply is_dir_exists in Htd. rewrite Hr in Htd.
      apply FSFacts.exists_prefix in Htd. congruence.
    - apply app_inj_tail in H. destruct H as [_ H].
      revert H. apply (platform_not_scratch _ _ _ Hcfg). }
  (* the SDK root *)
  pose proof (find_sdk_root_is_dir _ _ _ Hroot) as Hrd.
  pose proof (find_sdk_root_sound _ _ _ Hroot) as [Hrm Hshape].
  assert (Hps : FS.prefix tmp sdk_root = true)
    by (destruct Hshape as [-> | [(a & -> & _) | (a & b & -> & _)]];
        [apply FSFacts.prefix_refl | apply FSFacts.prefix_app ..]).
  assert (Hroot_ne : sdk_root <> [])
    by (intros ->; destruct tmp; [congruence | discriminate]).
  assert (Hbelow : forall q, FS.prefix tmp q = false -> FS.prefix sdk_root q = false).
  { intros q Hq. destruct (FS.prefix sdk_root q) eqn:H; [|reflexivity].
    rewrite (FSFacts.prefix_trans _ _ _ Hps H) in Hq. discriminate. }
  pose proof (is_dir_exists _ _ Hrd) as Hrex.
  unfold FS.is_dir in Hrd.
  destruct (FS.lookup sdk_root (fs w2)) as [[d|es]|] eqn:Hlook; try discriminate.
  (* the parent of the target directory *)
  assert (Hscript2 : FS.is_dir (SCRIPT_DIR C) (fs w2) = true)
    by (rewrite is_dir_kind, K2, <- is_dir_kind by exact Hpsc; exact Hscript).
  assert (Habsent2 : FS.exists_ target (fs w2) = false)
    by (rewrite exists_kind, K2, <- exists_kind by exact Hpt; exact Habsent).
  assert (Hparent : exists t2',
            mkdir_parents (FS.parent target) w2 = (Ret tt, set_fs t2' w2, []) /\
            FS.is_dir (SDK_DIR C) t2' = true /\
            FS.lookup sdk_root t2' = Some (Dir es) /\
            FS.exists_ target t2' = false).
  { unfold mkdir_parents, target. rewrite FSFacts.parent_snoc.
    unfold SDK_DIR at 1. rewrite (makedirs_snoc _ _ _ Hscript2).
    fold (SDK_DIR C).
    destruct (FS.lookup (SDK_DIR C) (fs w2)) as [[d|es']|] eqn:HS.
    - exfalso. assert (Hk : kind_at (SDK_DIR C) (fs w) = Some false)
        by (rewrite <- K2 by exact HpS; unfold kind_at; rewrite HS; reflexivity).
      unfold kind_at in Hk.
      destruct (FS.lookup (SDK_DIR C) (fs w)) as [[d'|es']|] eqn:HS0;
        try discriminate. apply (Hnofile d'). reflexivity.
    - exists (fs w2). split; [reflexivity|]. split; [|split; assumption].
      unfold FS.is_dir. rewrite HS. reflexivity.
    - exists (FS.put (SDK_DIR C) (Dir []) (fs w2)). split; [reflexivity|].
      unfold SDK_DIR. split; [|split].
      + unfold FS.is_dir. rewrite <- (app_nil_r (SCRIPT_DIR C ++ _)) at 1.
        rewrite lookup_put_at by exact Hscript2. reflexivity.
      + rewrite lookup_put_apart; [exact Hlook | |apply Hbelow; exact HpS].
        fold (SDK_DIR C). destruct (FS.prefix (SDK_DIR C) sdk_root) eqn:H;
          [|reflexivity]. exfalso.
        apply FSFacts.prefix_inv in H. destruct H as [r Hr]. rewrite Hr in Hrex.
        apply FSFacts.exists_prefix in Hrex. unfold FS.exists_ in Hrex.
        rewrite HS in Hrex. discriminate.
      + unfold FS.exists_, target, SDK_DIR.
        rewrite lookup_put_at by exact Hscript2. reflexivity. }
  destruct Hparent as (t2' & Hmk2 & HSdir & Hlook' & Habsent').
  assert (Hmv : move sdk_root target (set_fs t2' w2) =
                (Ret tt,
                 set_fs (FS.put target (Dir es) (FS.rm sdk_root t2')) (set_fs t2' w2),
                 [])).
  { apply move_renames; cbn [fs set_fs]; try assumption.
    - apply Hbelow. exact Hpt.
    - unfold target. rewrite FSFacts.parent_snoc. exact HSdir. }
  assert (Hmk2r : result_of (mkdir_parents (FS.parent target)) w2 = Ret tt)
    by (unfold result_of; rewrite Hmk2; reflexivity).
  assert (Hmk2w : world_of (mkdir_parents (FS.parent target)) w2 = set_fs t2' w2)
    by (unfold world_of; rewrite Hmk2; reflexivity).
  assert (Hmvr : result_of (move sdk_root target) (set_fs t2' w2) = Ret tt)
    by (unfold result_of; rewrite Hmv; reflexivity).
  assert (Hmvw : world_of (move sdk_root target) (set_fs t2' w2) =
                 set_fs (FS.put target (Dir es) (FS.rm sdk_root t2')) (set_fs t2' w2))
    by (unfold world_of; rewrite Hmv; reflexivity).
  assert (Hbody : result_of (install_from E archive_path target marker tmp) w1 =
                    Ret true /\
                  world_of (install_from E archive_path target marker tmp) w1 =
                    set_fs (FS.put target (Dir es) (FS.rm sdk_root t2')) (set_fs t2' w2)).
  { unfold install_from. rewrite result_bind, world_bind, Hr2, Hw2. cbn [negb].
    run. rewrite Hroot. run. rewrite Hmk2r. cbv beta iota. rewrite Hmk2w.
    run. rewrite Hmvr. cbv beta iota. rewrite Hmvw. run. split; reflexivity. }
  destruct Hbody as [Hbr Hbw].
  unfold result_of at 1, world_of at 1 2 3 4.
  rewrite (with_TemporaryDirectory_run _ _ _ _ _ _ Hmk).
  cbn [fst snd]. rewrite Hbr, Hbw.
  set (t3 := FS.put target (Dir es) (FS.rm sdk_root t2')).
  assert (Hlook3 : FS.lookup target t3 = Some (Dir es)).
  { unfold t3, target. rewrite <- (app_nil_r (SDK_DIR C ++ _)) at 1.
    rewrite lookup_put_at; [reflexivity|].
    rewrite is_dir_kind, kind_rm, <- is_dir_kind; auto. }
  assert (Hlook4 : FS.lookup target
                     (fs (cleanup tmp (set_fs t3 (set_fs t2' w2)))) = Some (Dir es)).
  { unfold cleanup. cbn [fs set_fs].
    destruct (FS.exists_ tmp t3); cbn [fs set_fs]; [|exact Hlook3].
    rewrite Htmp in *. rewrite lookup_rm_apart by assumption. exact Hlook3. }
  split; [reflexivity|]. split.
  { unfold cleanup. cbn [fs set_fs].
    destruct (FS.exists_ tmp t3); cbn [stdin set_fs]; congruence. }
  split; [exact Hlook4|]. split.
  { unfold FS.exists_. rewrite FSFacts.lookup_app, Hlook4.
    unfold FS.exists_ in Hrm. rewrite FSFacts.lookup_app, Hlook in Hrm. exact Hrm. }
  apply cleanup_removes. exact Htmp_ne.
Qed.


(** X9. When the script's directory exists, [sdk] is not a file, and the
    target directory of a platform does not exist, an install whose scratch
    directory is drawn, whose extraction succeeds and whose SDK root is found
    returns [True] and reads no input; the SDK root, as it was extracted, now
    sits at the target path itself, so the marker file exists at its expected
    place under the target directory; and the scratch directory is gone. *)
Theorem fresh_install_places_sdk_root (E : env) (C : config)
  (platform : string) (config : platform_config) (archive_path : path)
  (w w1 w2 : world) (o1 o2 : list string) (tmp sdk_root : path) :
  Dict.get platform PLATFORMS = Some config ->
  FS.is_dir (SCRIPT_DIR C) (fs w) = true ->
  (forall d, FS.lookup (SDK_DIR C) (fs w) <> Some (File d)) ->
  FS.exists_ (SDK_DIR C ++ [platform]) (fs w) = false ->
  mkdtemp C w = (Ret tmp, w1, o1) ->
  extract_archive E archive_path tmp w1 = (Ret true, w2, o2) ->
  find_sdk_root (fs w2) tmp = Ret (Some sdk_root) ->
  result_of (setup_platform E C platform archive_path) w = Ret true /\
  stdin (world_of (setup_platform E C platform archive_path) w) = stdin w /\
  FS.lookup (SDK_DIR C ++ [platform])
    (fs (world_of (setup_platform E C platform archive_path) w)) =
    FS.lookup sdk_root (fs w2) /\
  FS.exists_ ((SDK_DIR C ++ [platform]) ++ test_file config)
    (fs (world_of (setup_platform E C platform archive_path) w)) = true /\
  FS.exists_ tmp
    (fs (world_of (setup_platform E C platform archive_path) w)) = false.
Proof.
  intros Hcfg Hscript Hnofile Habsent Hmk Hext Hroot.
  assert (Hnomarker : FS.exists_ ((SDK_DIR C ++ [platform]) ++ test_file config)
                        (fs w) = false).
  { destruct (FS.exists_ ((SDK_DIR C ++ [platform]) ++ test_file config) (fs w))
      eqn:H; [|reflexivity].
    apply FSFacts.exists_prefix in H. congruence. }
  destruct (setup_platform_proceeds E C platform config archive_path w w []
              Hcfg (check_existing_absent _ _ _ Hnomarker)) as [-> ->].
  rewrite (platform_test_file _ _ Hcfg).
  exact (install_block_places_sdk_root E C platform config archive_path
           w w1 w2 o1 o2 tmp sdk_root Hcfg Hscript Hnofile Habsent Hmk Hext Hroot).
Qed.

Lemma fresh_install_places_sdk_root_witness :
  result_of (setup_platform Sample.tools Sample.config0 "linux-x64"
               (Sample.downloads ++ [Sample.sdk_1_4]))
            (mkWorld Sample.workstation [] ["k3f9"]) = Ret true /\
  FS.lookup ["repo"; "native"; "sdk"; "linux-x64"]
    (fs (world_of (setup_platform Sample.tools Sample.config0 "linux-x64"
                     (Sample.downloads ++ [Sample.sdk_1_4]))
                  (mkWorld Sample.workstation [] ["k3f9"]))) = Some Sample.sdk /\
  FS.exists_ (["repo"; "native"; "sdk"; "linux-x64"] ++ marker)
    (fs (world_of (setup_platform Sample.tools Sample.config0 "linux-x64"
                     (Sample.downloads ++ [Sample.sdk_1_4]))
                  (mkWorld Sample.workstation [] ["k3f9"]))) = true.
Proof.
  pose (w := mkWorld Sample.workstation [] ["k3f9"]).
  pose (archive_path := Sample.downloads ++ [Sample.sdk_1_4]).
  pose (w1 := world_of (mkdtemp Sample.config0) w).
  pose (w2 := world_of (extract_archive Sample.tools archive_path ["tmp"; "tmpk3f9"]) w1).
  assert (Hnofile : forall d,
            FS.lookup (SDK_DIR Sample.config0) (fs w) <> Some (File d))
    by (intros d; discriminate).
  destruct (fresh_install_places_sdk_root Sample.tools Sample.config0
              "linux-x64"
              (mkPlatform ["*linux*x64*"; "*linux*64*"] marker
                          ["bin/*.so*"; "lib/*.so*"])
              archive_path w w1 w2 []
              (output_of (extract_archive Sample.tools archive_path
                            ["tmp"; "tmpk3f9"]) w1)
              ["tmp"; "tmpk3f9"] ["tmp"; "tmpk3f9"; "ultralight-sdk"]
              eq_refl eq_refl Hnofile eq_refl eq_refl eq_refl eq_refl)
    as (H1 & _ & H3 & H4 & _).
  split; [exact H1|]. split; [exact H3 | exact H4].
Defined.

Lemma prefix_length p q :
  FS.prefix p q = true -> (List.length p <= List.length q)%nat.
Proof.
  revert q. induction p as [|a p IH]; intros q H; simpl; [lia|].
  destruct q as [|b q]; [discriminate|]. simpl in *.
  apply andb_true_iff in H. destruct H as [_ H]. apply IH in H. lia.
Qed.

(** X10. When the target directory of a platform holds the marker file and
    the operator answers [y], the old target directory is deleted; if a
    scratch directory is then drawn, the extraction succeeds and an SDK root
    is found, the install returns [True], exactly one line of input was read,
    and the target path now holds the newly extracted SDK root, marker
    included; the scratch directory is gone. *)
Theorem confirmed_overwrite_replaces_install (E : env) (C : config)
  (platform : string) (config : platform_config) (archive_path : path)
  (w w1 w2 : world) (line : string) (rest o1 o2 : list string)
  (tmp sdk_root : path) :
  Dict.get platform PLATFORMS = Some config ->
  FS.exists_ ((SDK_DIR C ++ [platform]) ++ test_file config) (fs w) = true ->
  stdin w = line :: rest ->
  Str.lower (Str.strip line) = "y" ->
  mkdtemp C (mkWorld (FS.rm (SDK_DIR C ++ [platform]) (fs w)) rest (rng w)) =
    (Ret tmp, w1, o1) ->
  extract_archive E archive_path tmp w1 = (Ret true, w2, o2) ->
  find_sdk_root (fs w2) tmp = Ret (Some sdk_root) ->
  result_of (setup_platform E C platform archive_path) w = Ret true /\
  stdin (world_of (setup_platform E C platform archive_path) w) = rest /\
  FS.lookup (SDK_DIR C ++ [platform])
    (fs (world_of (setup_platform E C platform archive_path) w)) =
    FS.lookup sdk_root (fs w2) /\
  FS.exists_ ((SDK_DIR C ++ [platform]) ++ test_file config)
    (fs (world_of (setup_platform E C platform archive_path) w)) = true /\
  FS.exists_ tmp
    (fs (world_of (setup_platform E C platform archive_path) w)) = false.
Proof.
  intros Hcfg Hmarker Hin Hyes Hmk Hext Hroot.
  set (target := SDK_DIR C ++ [platform]) in *.
  assert (Htarget_ne : target <> []) by (unfold target; destruct (SDK_DIR C); discriminate).
  assert (Hdir : FS.is_dir target (fs w) = true).
  { rewrite (platform_test_file _ _ Hcfg) in Hmarker.
    apply (marker_inside_is_dir _ _ Hmarker). }
  assert (HSdir : FS.is_dir (SDK_DIR C) (fs w) = true)
    by (apply (FSFacts.is_dir_prefix _ platform []); apply is_dir_exists; exact Hdir).
  assert (Hscript : FS.is_dir (SCRIPT_DIR C) (fs w) = true)
    by (apply (FSFacts.is_dir_prefix _ "sdk" []); apply is_dir_exists; exact HSdir).
  pose proof (check_existing_confirmed _ _ _ _ _ Hdir Hmarker Hin Hyes) as Hcheck.
  destruct (setup_platform_proceeds E C platform config archive_path w _ _
              Hcfg Hcheck) as [-> ->].
  rewrite (platform_test_file _ _ Hcfg).
  apply (install_block_places_sdk_root E C platform config archive_path
           (mkWorld (FS.rm target (fs w)) rest (rng w)) w1 w2 o1 o2 tmp sdk_root);
    try assumption; cbn [fs].
  - rewrite is_dir_kind, kind_rm, <- is_dir_kind; [exact Hscript | exact Htarget_ne |].
    destruct (FS.prefix target (SCRIPT_DIR C)) eqn:H; [|reflexivity].
    apply prefix_length in H. unfold target, SDK_DIR in H.
    rewrite !length_app in H. simpl in H. lia.
  - intros d Hfile.
    assert (Hk : kind_at (SDK_DIR C) (FS.rm target (fs w)) = Some true).
    { rewrite kind_rm by (exact Htarget_ne || apply prefix_snoc_self).
      unfold kind_at. unfold FS.is_dir in HSdir.
      destruct (FS.lookup (SDK_DIR C) (fs w)) as [[d'|es]|]; try discriminate.
      reflexivity. }
    unfold kind_at in Hk. rewrite Hfile in Hk. discriminate.
  - apply exists_rm_self. exact Htarget_ne.
Qed.

Lemma confirmed_overwrite_replaces_install_witness :
  result_of (setup_platform Sample.tools Sample.config0 "linux-x64"
               (Sample.downloads ++ [Sample.sdk_1_4]))
            (mkWorld Sample.installed ["y"] ["k3f9"]) = Ret true /\
  FS.exists_ (["repo"; "native"; "sdk"; "linux-x64"] ++ marker)
    (fs (world_of (setup_platform Sample.tools Sample.config0 "linux-x64"
                     (Sample.downloads ++ [Sample.sdk_1_4]))
                  (mkWorld Sample.installed ["y"] ["k3f9"]))) = true /\
  FS.exists_ ["tmp"; "tmpk3f9"]
    (fs (world_of (setup_platform Sample.tools Sample.config0 "linux-x64"
                     (Sample.downloads ++ [Sample.sdk_1_4]))
                  (mkWorld Sample.installed ["y"] ["k3f9"]))) = false.
Proof.
  pose (w := mkWorld Sample.installed ["y"] ["k3f9"]).
  pose (archive_path := Sample.downloads ++ [Sample.sdk_1_4]).
  pose (w0 := mkWorld (FS.rm (SDK_DIR Sample.config0 ++ ["linux-x64"]) (fs w))
                      [] ["k3f9"]).
  pose (w1 := world_of (mkdtemp Sample.config0) w0).
  pose (w2 := world_of (extract_archive Sample.tools archive_path ["tmp"; "tmpk3f9"]) w1).
  destruct (confirmed_overwrite_replaces_install Sample.tools Sample.config0
              "linux-x64"
              (mkPlatform ["*linux*x64*"; "*linux*64*"] marker
                          ["bin/*.so*"; "lib/*.so*"])
              archive_path w w1 w2 "y" [] []
              (output_of (extract_archive Sample.tools archive_path
                            ["tmp"; "tmpk3f9"]) w1)
              ["tmp"; "tmpk3f9"] ["tmp"; "tmpk3f9"; "ultralight-sdk"]
              eq_refl eq_refl eq_refl eq_refl eq_refl eq_refl eq_refl)
    as (H1 & _ & _ & H4 & H5).
  split; [exact H1|]. split; [exact H4 | exact H5].
Defined.

(** ** The summary of a run *)

Lemma for_each_print {A} (l : list A) (f : A -> string) w :
  for_each l (fun x => print (f x)) w = (Ret tt, w, map f l).
Proof.
  induction l as [|x l IH]; [reflexivity|].
  cbn [for_each]. unfold bind, print at 1. rewrite IH. reflexivity.
Qed.

(** X11. Without [--list] and with at least one archive assigned, when the
    install loop ends without an exception, [main] returns 0 if the loop's
    flag is [True] and 1 otherwise, leaves the world the loop left, and prints,
    after the loop's own output, a summary whose status lines say "Ready"
    exactly for the platforms whose marker file exists in the file system as
    the installs left it. *)
Theorem main_summary_reflects_disk (E : env) (C : config) (a : args)
  (w w' : world) (success : bool) (o : list string) :
  list_ a = false ->
  collect_archives C a (fs w) <> [] ->
  install_all E C (collect_archives C a (fs w)) true w = (Ret success, w', o) ->
  main E C a w =
  (Ret (if success then 0%Z else 1%Z), w',
   banner C (fs w) ++
   (nl ++ "Found archives:")%string ::
   map (fun kv : string * path =>
          ("  " ++ fst kv ++ ": " ++ FS.path_str (snd kv))%string)
       (collect_archives C a (fs w)) ++
   o ++
   [(nl ++ Str.times "=" 60)%string; "Setup complete!"; Str.times "=" 60;
    (nl ++ "SDK status:")%string] ++
   status_lines C (fs w') "✓ Ready" "✗ Missing" ++
   [(nl ++ "Next steps:")%string;
    "  1. Build for a specific platform:";
    "     ./build.sh mac      # macOS";
    "     ./build.sh linux    # Linux";
    "     ./build.sh win      # Windows (requires cross-compiler or native build)";
    "  2. Or build all platforms:";
    "     ./build.sh all"]).
Proof.
  intros Hlist Hne Hloop. unfold main.
  unfold bind at 1 2 3 4 5. unfold print at 1 2 3 4.
  rewrite status_report_run, Hlist. unfold bind at 1. unfold gets at 1.
  destruct (collect_archives C a (fs w)) as [|kv archives] eqn:Hc; [congruence|].
  unfold bind at 1 2 3. unfold print at 1.
  rewrite for_each_print, Hloop.
  unfold bind at 1 2 3 4 5. unfold print at 1 2 3 4.
  rewrite status_report_run.
  unfold bind, print, ret. unfold banner. cbn [app].
  rewrite <- ?app_assoc. reflexivity.
Qed.

Lemma main_summary_reflects_disk_witness :
  result_of (main Sample.tools Sample.config0 Sample.no_flags)
            (mkWorld Sample.workstation [] ["k3f9"]) = Ret 0%Z /\
  In "  linux-x64: ✓ Ready"
     (output_of (main Sample.tools Sample.config0 Sample.no_flags)
                (mkWorld Sample.workstation [] ["k3f9"])).
Proof.
  pose (w := mkWorld Sample.workstation [] ["k3f9"]).
  pose (loop := install_all Sample.tools Sample.config0
                  (collect_archives Sample.config0 Sample.no_flags (fs w)) true).
  assert (Hne : collect_archives Sample.config0 Sample.no_flags (fs w) <> [])
    by (vm_compute; discriminate).
  pose proof (main_summary_reflects_disk Sample.tools Sample.config0
                Sample.no_flags w (world_of loop w) true (output_of loop w)
                eq_refl Hne eq_refl) as H.
  unfold result_of, output_of. fold w. rewrite H. cbn [fst snd].
  split; [reflexivity|]. vm_compute. tauto.
Defined.

(** ** What the root finder can answer *)

(** X12. Whatever directory [find_sdk_root] returns is a directory that holds
    the marker file and lies at most two levels below the given one, and it
    is the given directory itself exactly when that one holds the marker.  It
    returns [None] only when the given directory exists and no directory
    within two levels holds the marker, and it raises only when the given
    directory is not a directory. *)
Theorem find_sdk_root_answers (t : node) (extracted_dir : path) :
  (forall r,
     find_sdk_root t extracted_dir = Ret (Some r) ->
     FS.is_dir r t = true /\ FS.exists_ (r ++ marker) t = true /\
     exists q, r = extracted_dir ++ q /\ (List.length q <= 2)%nat /\
               (q = [] <-> FS.exists_ (extracted_dir ++ marker) t = true)) /\
  (find_sdk_root t extracted_dir = Ret None ->
   FS.is_dir extracted_dir t = true /\
   forall q, (List.length q <= 2)%nat ->
             FS.exists_ (extracted_dir ++ q ++ marker) t = false) /\
  (forall e,
     find_sdk_root t extracted_dir = Raise e ->
     FS.is_dir extracted_dir t = false).
Proof.
  split; [|split].
  - intros r Hr. split; [exact (find_sdk_root_is_dir _ _ _ Hr)|].
    destruct (find_sdk_root_sound _ _ _ Hr) as [Hm Hshape]. split; [exact Hm|].
    destruct (FS.exists_ (extracted_dir ++ marker) t) eqn:H0.
    + unfold find_sdk_root in Hr. rewrite H0 in Hr. injection Hr as <-.
      exists []. rewrite app_nil_r. repeat split; simpl; auto.
    + destruct Hshape as [-> | [(a & -> & _) | (a & b & -> & _)]].
      * congruence.
      * exists [a]. repeat split; simpl; auto; discriminate.
      * exists [a; b]. repeat split; simpl; auto; discriminate.
  - unfold find_sdk_root.
    destruct (FS.exists_ (extracted_dir ++ marker) t) eqn:H0; [discriminate|].
    destruct (FS.lookup extracted_dir t) as [[d|es]|] eqn:Hl; try discriminate.
    intros [= Hscan].
    assert (Hit : FS.iterdir extracted_dir t = map fst es)
      by (unfold FS.iterdir; rewrite Hl; reflexivity).
    rewrite <- Hit in Hscan.
    split; [unfold FS.is_dir; rewrite Hl; reflexivity|].
    intros q Hq. destruct (FS.exists_ (extracted_dir ++ q ++ marker) t) eqn:Hm;
      [|reflexivity]. exfalso. revert Hscan.
    destruct q as [|a [|b [|c q]]]; simpl in Hq, Hm.
    + congruence.
    + apply (scan_subdirs_found1 t _ _ a).
      * apply (exists_in_iterdir t _ _ marker). exact Hm.
      * rewrite <- app_assoc. exact Hm.
    + apply (scan_subdirs_found2 t _ _ a b).
      * apply (exists_in_iterdir t _ _ (b :: marker)). exact Hm.
      * rewrite <- app_assoc. exact Hm.
    + lia.
  - intros e. unfold find_sdk_root, FS.is_dir.
    destruct (FS.exists_ (extracted_dir ++ marker) t); [discriminate|].
    destruct (FS.lookup extracted_dir t) as [[d|es]|]; try discriminate;
      reflexivity.
Qed.

Lemma find_sdk_root_answers_witness :
  FS.is_dir ["wrap"; "ultralight-sdk"] Sample.depth2 = true /\
  FS.exists_ (["wrap"; "ultralight-sdk"] ++ marker) Sample.depth2 = true /\
  FS.is_dir ["README.txt"] Sample.depth1 = false.
Proof.
  split; [|split].
  - apply (proj1 (find_sdk_root_answers Sample.depth2 [])
             ["wrap"; "ultralight-sdk"] eq_refl).
  - apply (proj1 (find_sdk_root_answers Sample.depth2 [])
             ["wrap"; "ultralight-sdk"] eq_refl).
  - apply (proj2 (proj2 (find_sdk_root_answers Sample.depth1 ["README.txt"]))
             NotADirectoryError eq_refl).
Defined.

(** ** One failure among several installs *)

Section Loop.

Variables (E : env) (C : config).

Lemma install_all_false_stays_false archives w b :
  result_of (install_all E C archives false) w = Ret b -> b = false.
Proof.
  revert w. induction archives as [|[platform archive_path] archives IH];
    intros w; cbn [install_all].
  - intros [= <-]. reflexivity.
  - rewrite result_bind.
    destruct (result_of (setup_platform E C platform archive_path) w) as [ok|e];
      [|discriminate].
    replace (if negb ok then false else false) with false by (destruct ok; reflexivity).
    apply IH.
Qed.

End Loop.

(** X13. A platform whose install returns [False] does not stop the run: the
    remaining platforms are processed, from the world that install left, just
    as they would be on their own; but the loop can no longer return [True],
    whatever the remaining installs answer. *)
Theorem failed_platform_does_not_stop_the_run (E : env) (C : config)
  (platform : string) (archive_path : path) (archives : archives_t)
  (success : bool) (w : world) :
  result_of (setup_platform E C platform archive_path) w = Ret false ->
  result_of (install_all E C ((platform, archive_path) :: archives) success) w =
    result_of (install_all E C archives false)
              (world_of (setup_platform E C platform archive_path) w) /\
  world_of (install_all E C ((platform, archive_path) :: archives) success) w =
    world_of (install_all E C archives false)
             (world_of (setup_platform E C platform archive_path) w) /\
  (forall b,
     result_of (install_all E C ((platform, archive_path) :: archives) success) w =
       Ret b -> b = false).
Proof.
  intros Hfalse. cbn [install_all]. rewrite result_bind, world_bind, Hfalse.
  cbn [negb]. split; [reflexivity|]. split; [reflexivity|].
  intros b. apply install_all_false_stays_false.
Qed.

Lemma failed_platform_does_not_stop_the_run_witness :
  result_of (install_all More.tools_7z_fails Sample.config0
               [("linux-x64", Sample.downloads ++ [Sample.sdk_1_4]);
                ("win-x64", ["home"; "dev"; "vendor"; "custom-windows-build.zip"])]
               true)
            (mkWorld Sample.workstation [] ["k3f9"; "x2b7"]) = Ret false /\
  FS.exists_ (["repo"; "native"; "sdk"; "win-x64"] ++ marker)
    (fs (world_of (install_all More.tools_7z_fails Sample.config0
               [("linux-x64", Sample.downloads ++ [Sample.sdk_1_4]);
                ("win-x64", ["home"; "dev"; "vendor"; "custom-windows-build.zip"])]
               true)
            (mkWorld Sample.workstation [] ["k3f9"; "x2b7"]))) = true.
Proof.
  destruct (failed_platform_does_not_stop_the_run More.tools_7z_fails
              Sample.config0 "linux-x64" (Sample.downloads ++ [Sample.sdk_1_4])
              [("win-x64", ["home"; "dev"; "vendor"; "custom-windows-build.zip"])]
              true (mkWorld Sample.workstation [] ["k3f9"; "x2b7"]) eq_refl)
    as (H1 & H2 & _).
  split.
  - exact (eq_trans H1 eq_refl).
  - exact (eq_trans
             (f_equal (fun x => FS.exists_
                         (["repo"; "native"; "sdk"; "win-x64"] ++ marker) (fs x)) H2)
             eq_refl).
Defined.
